(** * MyChat: parsers and analytics, a shallow embedding

    The chat-export parsers (WhatsApp text, Telegram HTML, CSV), the parser
    router and the analytics functions of MyChat, written as Rocq functions,
    with the properties of their specification stated and proved (or refuted)
    over them.

    Layout: [JS] models the part of the host platform the code calls
    (strings, numbers, [Array.prototype.sort], [Date], regular expressions,
    the DOM); after it one module per source file; then the theorems. *)

From Stdlib Require Import Ascii String QArith Qround Qabs.
From stdpp Require Import gmap strings list sorting pretty.

Local Open Scope string_scope.
Local Open Scope list_scope.
Local Open Scope Z_scope.

(** ** The host platform *)

Module JS.

(** *** Strings

    A JavaScript string is modelled by a Rocq [string] holding its UTF-8
    encoding (the text of a file as it is read).  A character outside ASCII
    is its two to four bytes; in well-formed UTF-8 the bytes of a character
    are found at the start of a character only, so a test for the bytes of a
    character at some place is a test for that character. *)

Definition chars (s : string) : list ascii := list_ascii_of_string s.

(** The double quote, as a character and as a string. *)
Definition dquote : ascii := "034".
Definition dq : string := String dquote EmptyString.
Definition str (l : list ascii) : string := string_of_list_ascii l.

Definition code (c : ascii) : N := N_of_ascii c.

Definition in_range (lo hi : ascii) (c : ascii) : bool :=
  ((code lo <=? code c) && (code c <=? code hi))%N.

Definition is_digit (c : ascii) : bool := in_range "0" "9" c.
Definition is_upper (c : ascii) : bool := in_range "A" "Z" c.
Definition is_lower (c : ascii) : bool := in_range "a" "z" c.

(** [\w] of a regular expression without the [u] flag. *)
Definition is_word (c : ascii) : bool :=
  is_digit c || is_upper c || is_lower c || Ascii.eqb c "_".

(** The ASCII white space of ECMAScript: tab, line feed, vertical tab, form
    feed, carriage return, space. *)
Definition is_space (c : ascii) : bool :=
  in_range "009" "013" c || Ascii.eqb c " ".

(** U+00A0 is the bytes C2 A0. *)
Definition nbsp (c1 c2 : ascii) : bool := Ascii.eqb c1 "194" && Ascii.eqb c2 "160".

(** The white space of three bytes: U+1680 (E1 9A 80), U+2000 to U+200A,
    U+2028, U+2029, U+202F (E2 80 80..8A, A8, A9, AF), U+205F (E2 81 9F),
    U+3000 (E3 80 80) and U+FEFF (EF BB BF). *)
Definition space3 (c1 c2 c3 : ascii) : bool :=
  (Ascii.eqb c1 "225" && Ascii.eqb c2 "154" && Ascii.eqb c3 "128")
  || (Ascii.eqb c1 "226" && Ascii.eqb c2 "128"
      && (in_range "128" "138" c3 || Ascii.eqb c3 "168" || Ascii.eqb c3 "169"
          || Ascii.eqb c3 "175"))
  || (Ascii.eqb c1 "226" && Ascii.eqb c2 "129" && Ascii.eqb c3 "159")
  || (Ascii.eqb c1 "227" && Ascii.eqb c2 "128" && Ascii.eqb c3 "128")
  || (Ascii.eqb c1 "239" && Ascii.eqb c2 "187" && Ascii.eqb c3 "191").

(** The number of bytes of the white-space character a text starts with, 0
    when it starts with none: the characters of [\s], which are those that
    [String.prototype.trim] strips. *)
Definition space_len (l : list ascii) : nat :=
  match l with
  | c1 :: l1 =>
      if is_space c1 then 1
      else
        match l1 with
        | c2 :: l2 =>
            if nbsp c1 c2 then 2
            else
              match l2 with
              | c3 :: _ => if space3 c1 c2 c3 then 3 else 0
              | [] => 0
              end
        | [] => 0
        end
  | [] => 0
  end.

Definition lower_char (c : ascii) : ascii :=
  if is_upper c then ascii_of_N (code c + 32) else c.

(** The lower case of a text.  Two characters outside ASCII have ASCII in
    their lower case: U+0130 (C4 B0) gives [i] and U+0307 (CC 87), U+212A
    (E2 84 AA) gives [k].  Any other character outside ASCII is left as it
    is: its lower case is outside ASCII too, and the code compares lower-cased
    text with ASCII text and [\w] only. *)
Fixpoint lower_chars (l : list ascii) : list ascii :=
  match l with
  | c1 :: l1 =>
      match l1 with
      | c2 :: l2 =>
          if Ascii.eqb c1 "196" && Ascii.eqb c2 "176"
          then "i"%char :: "204"%char :: "135"%char :: lower_chars l2
          else
            match l2 with
            | c3 :: l3 =>
                if Ascii.eqb c1 "226" && Ascii.eqb c2 "132" && Ascii.eqb c3 "170"
                then "k"%char :: lower_chars l3
                else lower_char c1 :: lower_chars l1
            | [] => lower_char c1 :: lower_chars l1
            end
      | [] => lower_char c1 :: lower_chars l1
      end
  | [] => []
  end.

(** [s.toLowerCase()] *)
Definition toLowerCase (s : string) : string := str (lower_chars (chars s)).

(** [s.length]: the number of UTF-16 code units, one for each character of
    one to three bytes and two for each character of four. *)
Definition js_length (s : string) : nat :=
  length (List.filter (λ c, negb (in_range "128" "191" c)) (chars s))
  + length (List.filter (λ c, (240 <=? code c)%N) (chars s)).

Fixpoint drop_spaces (l : list ascii) : list ascii :=
  match l with
  | c1 :: l1 =>
      if is_space c1 then drop_spaces l1
      else
        match l1 with
        | c2 :: l2 =>
            if nbsp c1 c2 then drop_spaces l2
            else
              match l2 with
              | c3 :: l3 => if space3 c1 c2 c3 then drop_spaces l3 else l
              | [] => l
              end
        | [] => l
        end
  | [] => []
  end.

(** The same from the end, on the reversed text. *)
Fixpoint drop_spaces_end (l : list ascii) : list ascii :=
  match l with
  | c1 :: l1 =>
      if is_space c1 then drop_spaces_end l1
      else
        match l1 with
        | c2 :: l2 =>
            if nbsp c2 c1 then drop_spaces_end l2
            else
              match l2 with
              | c3 :: l3 => if space3 c3 c2 c1 then drop_spaces_end l3 else l
              | [] => l
              end
        | [] => l
        end
  | [] => []
  end.

(** [s.trim()] *)
Definition trim (s : string) : string :=
  str (rev (drop_spaces_end (rev (drop_spaces (chars s))))).

Fixpoint split_chars (sep : ascii) (cur : list ascii) (l : list ascii)
  : list (list ascii) :=
  match l with
  | [] => [rev cur]
  | c :: l' =>
      if Ascii.eqb c sep then rev cur :: split_chars sep [] l'
      else split_chars sep (c :: cur) l'
  end.

(** [s.split(sep)] for a one-character separator: never an empty array. *)
Definition split (sep : ascii) (s : string) : list string :=
  map str (split_chars sep [] (chars s)).

Fixpoint starts_with (p l : list ascii) : bool :=
  match p, l with
  | [], _ => true
  | a :: p', b :: l' => Ascii.eqb a b && starts_with p' l'
  | _ :: _, [] => false
  end.

Fixpoint includes_chars (p l : list ascii) : bool :=
  starts_with p l ||
  match l with
  | [] => false
  | _ :: l' => includes_chars p l'
  end.

(** [s.includes(sub)] *)
Definition includes (s sub : string) : bool := includes_chars (chars sub) (chars s).

(** [s.replace(/c/g, d)] for a character class [c] and a character [d]. *)
Definition replace_all (p : ascii -> bool) (d : ascii) (s : string) : string :=
  str (map (fun c => if p c then d else c) (chars s)).

(** [l.join(sep)] *)
Fixpoint join (sep : string) (l : list string) : string :=
  match l with
  | [] => ""
  | [s] => s
  | s :: l' => s +:+ sep +:+ join sep l'
  end.

Definition digit_val (c : ascii) : Z := Z.of_N (code c) - 48.

Fixpoint digits_val (acc : Z) (l : list ascii) : Z :=
  match l with
  | c :: l' => if is_digit c then digits_val (10 * acc + digit_val c) l' else acc
  | [] => acc
  end.

(** [parseInt(s)] on the strings the code passes: leading white space is
    skipped, then the longest prefix of decimal digits is read; [None] is
    NaN (no digit).  Signs and the [0x] prefix are not modelled. *)
Definition parseInt (s : string) : option Z :=
  match drop_spaces (chars s) with
  | c :: l => if is_digit c then Some (digits_val 0 (c :: l)) else None
  | [] => None
  end.

(** The truth value of a string: only the empty string is falsy. *)
Definition truthy (s : string) : bool := negb (String.eqb s "").

(** *** Arrays *)

(** [[...new Set(l)]]: the distinct elements, in order of first occurrence. *)
Fixpoint uniq `{EqDecision A} (l : list A) : list A :=
  match l with
  | [] => []
  | x :: l' => x :: filter (λ y, y ≠ x) (uniq l')
  end.

Fixpoint insert_by {A} (le : A -> A -> bool) (x : A) (l : list A) : list A :=
  match l with
  | [] => [x]
  | y :: l' => if le x y then x :: l else y :: insert_by le x l'
  end.

(** A stable sort: each element goes in front of the first element of the
    sorted tail that it does not come after. *)
Definition stable_sort {A} (le : A -> A -> bool) (l : list A) : list A :=
  foldr (insert_by le) [] l.

(** [l.sort()] on strings: by code unit. *)
Definition sort_strings (l : list string) : list string :=
  stable_sort String.leb l.

(** [l.slice(start, end)] for [0 <= start]. *)
Definition slice {A} (start stop : nat) (l : list A) : list A :=
  take (stop - start) (drop start l).

(** [l.slice(-n)] *)
Definition slice_last {A} (n : nat) (l : list A) : list A :=
  if (n =? 0)%nat then l else drop (length l - n) l.

(** *** Numbers

    A number is a rational, an infinity or NaN.  Finite arithmetic is exact:
    the rounding of IEEE doubles is not modelled, the class of a result
    (finite, infinite, NaN) is.  There is no negative zero: a finite non-zero
    number over zero is the infinity of the sign of the numerator. *)

Inductive num : Type :=
  | Fin (q : Q)
  | Inf (negative : bool)
  | NaN.

Definition fin (q : Q) : num := Fin (Qred q).
Definition of_Z (z : Z) : num := Fin (inject_Z z).
Definition of_nat (n : nat) : num := of_Z (Z.of_nat n).

Definition Qis_zero (q : Q) : bool := Qnum q =? 0.
Definition Qis_neg (q : Q) : bool := Qnum q <? 0.

Definition add (a b : num) : num :=
  match a, b with
  | NaN, _ | _, NaN => NaN
  | Fin x, Fin y => fin (x + y)%Q
  | Inf s, Fin _ | Fin _, Inf s => Inf s
  | Inf s, Inf s' => if Bool.eqb s s' then Inf s else NaN
  end.

Definition neg (a : num) : num :=
  match a with
  | NaN => NaN
  | Fin x => fin (- x)%Q
  | Inf s => Inf (negb s)
  end.

Definition sub (a b : num) : num := add a (neg b).

Definition mul (a b : num) : num :=
  match a, b with
  | NaN, _ | _, NaN => NaN
  | Fin x, Fin y => fin (x * y)%Q
  | Inf s, Fin y | Fin y, Inf s =>
      if Qis_zero y then NaN else Inf (xorb s (Qis_neg y))
  | Inf s, Inf s' => Inf (xorb s s')
  end.

Definition div (a b : num) : num :=
  match a, b with
  | NaN, _ | _, NaN => NaN
  | Fin x, Fin y =>
      if Qis_zero y then (if Qis_zero x then NaN else Inf (Qis_neg x))
      else fin (x / y)%Q
  | Inf s, Fin y => Inf (xorb s (Qis_neg y))
  | Fin _, Inf _ => Fin 0
  | Inf _, Inf _ => NaN
  end.

(** [a > b]: false as soon as one side is NaN. *)
Definition gt (a b : num) : bool :=
  match a, b with
  | NaN, _ | _, NaN => false
  | Fin x, Fin y => negb (Qle_bool x y)
  | Inf s, Fin _ => negb s
  | Fin _, Inf s => s
  | Inf s, Inf s' => negb s && s'
  end.

Definition lt (a b : num) : bool := gt b a.

(** [a <= b] *)
Definition le (a b : num) : bool :=
  match a, b with
  | NaN, _ | _, NaN => false
  | Fin x, Fin y => Qle_bool x y
  | Inf s, Fin _ => s
  | Fin _, Inf s => negb s
  | Inf s, Inf s' => s || negb s'
  end.

Definition ge (a b : num) : bool := le b a.

(** A decimal literal [n/d]. *)
Definition dec (n : Z) (d : positive) : num := Fin (n # d).

(** [Math.round]: the integer nearest to [x], a half going up. *)
Definition round (a : num) : num :=
  match a with
  | Fin x => of_Z (Qfloor (x + (1 # 2))%Q)
  | _ => a
  end.

(** [Math.abs] *)
Definition abs (a : num) : num :=
  match a with
  | Fin x => fin (Qabs x)
  | Inf _ => Inf false
  | NaN => NaN
  end.

(** [Math.min(a, b)] *)
Definition min (a b : num) : num :=
  match a, b with
  | NaN, _ | _, NaN => NaN
  | _, _ => if le a b then a else b
  end.

(** [l.reduce((sum, x) => sum + f(x), 0)] *)
Definition sum_by {A} (f : A -> num) (l : list A) : num :=
  foldl (λ acc x, add acc (f x)) (of_Z 0) l.

(** [Math.round(x * k) / k] *)
Definition round_to (k : Z) (x : num) : num :=
  div (round (mul x (of_Z k))) (of_Z k).

Definition is_finite (a : num) : bool :=
  match a with Fin _ => true | _ => false end.

(** The integer nearest to [y], a half going to the even one. *)
Definition round_half_even (y : Q) : Z :=
  let f := Qfloor y in
  match (y - inject_Z f ?= 1 # 2)%Q with
  | Lt => f
  | Gt => f + 1
  | Eq => if Z.even f then f else f + 1
  end.

(** The double nearest to a positive rational [x] (round to nearest, ties
    to even, 53 bits), in the range of the normal doubles: with
    [2^e <= x < 2^(e+1)] it is a multiple of [2^(e-52)]. *)
Definition nearest_double (x : Q) : Q :=
  if Qle_bool x 0 then x
  else
    let e0 := Z.log2 (Qnum x) - Z.log2 (Zpos (Qden x)) in
    let e := if Qle_bool (inject_Z 2 ^ e0) x then e0 else e0 - 1 in
    let scale := (inject_Z 2 ^ (52 - e))%Q in
    Qred (inject_Z (round_half_even (x * scale)) / scale).

(** [a / b] on two positive integers, as the double it is. *)
Definition div_double (a b : Z) : num := Fin (nearest_double (a # Z.to_pos b)).

(** [parseFloat(x.toFixed(1))] for [0 <= x]: [toFixed] takes the integer
    [n] with [n / 10] nearest to the exact value of the double, the larger
    one of two. *)
Definition toFixed1 (a : num) : num :=
  match a with
  | Fin x => fin (inject_Z (Qfloor (x * 10 + (1 # 2))) / 10)
  | _ => a
  end.

(** [String(n).padStart(width, '0')] on the decimal digits of [0 <= n]. *)
Definition pad_start (width : nat) (n : Z) : string :=
  let s := pretty n in
  str (replicate (width - String.length s) "0"%char) +:+ s.

(** [Math.round(a / b)] on integers, [0 < b]. *)
Definition round_div (a b : Z) : Z := (2 * a + b) / (2 * b).

(** The [SortCompare] of ECMAScript on the value [v] of a comparator call:
    [a] stays in front of [b] unless [v > 0]; a NaN counts as 0. *)
Definition cmp_le {A} (cmp : A -> A -> num) (a b : A) : bool :=
  negb (gt (cmp a b) (of_Z 0)).

(** [l.sort(cmp)].  The sort of ECMAScript 2019 is stable, so for a
    consistent comparator its result is the one stable ordering, which
    [stable_sort] computes. *)
Definition sort_with {A} (cmp : A -> A -> num) (l : list A) : list A :=
  stable_sort (cmp_le cmp) l.

(** The number a value of the model stands for. *)
Definition of_option (o : option Z) : num :=
  match o with
  | Some z => of_Z z
  | None => NaN
  end.

(** *** Regular expressions

    The fragment the code uses, with the backtracking of ECMAScript: the
    alternatives of a choice in order, quantifiers greedy.  A quantifier
    applies to a character class; [Opt] and [OptGrp] are [(?:r)?] and [(r)?].
    A capture is [None] where ECMAScript leaves it undefined. *)

Inductive re : Type :=
  | Eps
  | Chr (p : ascii -> bool)
  | Cat (a b : re)
  | Alt (a b : re)
  | Opt (a : re)
  | Rep (t : list ascii -> nat) (lo : nat) (hi : option nat)
  | Grp (a : re)
  | OptGrp (a : re)
  | Eos.

Definition consumed (s s' : list ascii) : string :=
  str (take (length s - length s') s).

(** [t{lo,hi}], greedy.  A class [t] tells how many bytes, from one to
    three, the character it accepts at the start of the text takes, and 0
    when it accepts none. *)
Fixpoint rep_match {R} (t : list ascii -> nat) (lo hi : nat) (s : list ascii)
  (k : list ascii -> option R) : option R :=
  let stop := if (lo =? 0)%nat then k s else None in
  let more (r : option R) := match r with Some x => Some x | None => stop end in
  if (hi =? 0)%nat then stop
  else
    match t s, s with
    | 1%nat, _ :: s1 => more (rep_match t (pred lo) (pred hi) s1 k)
    | 2%nat, _ :: _ :: s2 => more (rep_match t (pred lo) (pred hi) s2 k)
    | 3%nat, _ :: _ :: _ :: s3 => more (rep_match t (pred lo) (pred hi) s3 k)
    | _, _ => stop
    end.

Fixpoint re_match {R} (r : re) (s : list ascii) (caps : list (option string))
  (k : list ascii -> list (option string) -> option R) : option R :=
  match r with
  | Eps => k s caps
  | Chr p =>
      match s with
      | c :: s' => if p c then k s' caps else None
      | [] => None
      end
  | Cat a b => re_match a s caps (λ s' caps', re_match b s' caps' k)
  | Alt a b =>
      match re_match a s caps k with
      | Some x => Some x
      | None => re_match b s caps k
      end
  | Opt a =>
      match re_match a s caps k with
      | Some x => Some x
      | None => k s caps
      end
  | Rep t lo hi => rep_match t lo (default (length s) hi) s (λ s', k s' caps)
  | Grp a => re_match a s caps (λ s' caps', k s' (caps' ++ [Some (consumed s s')])%list)
  | OptGrp a =>
      match re_match a s caps (λ s' caps', k s' (caps' ++ [Some (consumed s s')])%list) with
      | Some x => Some x
      | None => k s (caps ++ [None])%list
      end
  | Eos =>
      match s with
      | [] => k [] caps
      | _ :: _ => None
      end
  end.

(** A literal, and a letter under the [i] flag. *)
Definition lit (s : string) : re := foldr (λ c r, Cat (Chr (Ascii.eqb c)) r) Eps (chars s).
Definition ci (c : ascii) : re := Chr (λ x, Ascii.eqb (lower_char x) (lower_char c)).
Definition one_of (s : string) : ascii -> bool := λ c, existsb (Ascii.eqb c) (chars s).
Definition none_of (s : string) : ascii -> bool := λ c, negb (one_of s c).
(** The class of the bytes that satisfy [p]. *)
Definition byte (p : ascii -> bool) : list ascii -> nat :=
  λ s, match s with
       | c :: _ => if p c then 1%nat else 0%nat
       | [] => 0%nat
       end.
(** [.]: any character but a line terminator (line feed, carriage return,
    U+2028, U+2029), a byte at a time. *)
Definition dot : list ascii -> nat :=
  λ s, match s with
       | c1 :: c2 :: c3 :: _ =>
           if Ascii.eqb c1 "226" && Ascii.eqb c2 "128"
              && (Ascii.eqb c3 "168" || Ascii.eqb c3 "169")
           then 0%nat else byte (none_of (str ["010"; "013"]%char)) s
       | _ => byte (none_of (str ["010"; "013"]%char)) s
       end.
Definition sequence (l : list re) : re := foldr Cat Eps l.
(** [p{lo,hi}] and [p{lo,}] *)
Definition between (lo hi : nat) (p : ascii -> bool) : re := Rep (byte p) lo (Some hi).
Definition at_least (lo : nat) (p : ascii -> bool) : re := Rep (byte p) lo None.
(** [\s{lo,}] and the greedy [.] repeated. *)
Definition spaces (lo : nat) : re := Rep space_len lo None.
Definition dots : re := Rep dot 0 None.

(** [s.match(r)] for [r] anchored at the start ([^]): the captures. *)
Definition match_start (r : re) (s : string) : option (list (option string)) :=
  re_match r (chars s) [] (λ _ caps, Some caps).

Fixpoint search_chars (r : re) (l : list ascii) : option (list (option string)) :=
  match re_match r l [] (λ _ caps, Some caps) with
  | Some caps => Some caps
  | None =>
      match l with
      | [] => None
      | _ :: l' => search_chars r l'
      end
  end.

(** [s.match(r)] for [r] without anchor: the captures of the leftmost match. *)
Definition search (r : re) (s : string) : option (list (option string)) :=
  search_chars r (chars s).

Fixpoint test_lines_chars (r : re) (at_start : bool) (l : list ascii) : bool :=
  (at_start && bool_decide (is_Some (re_match r l [] (λ _ caps, Some caps)))) ||
  match l with
  | [] => false
  | c1 :: l1 =>
      match l1 with
      | c2 :: c3 :: l3 =>
          if Ascii.eqb c1 "226" && Ascii.eqb c2 "128"
             && (Ascii.eqb c3 "168" || Ascii.eqb c3 "169")
          then test_lines_chars r true l3
          else test_lines_chars r (one_of (str ["010"; "013"]%char) c1) l1
      | _ => test_lines_chars r (one_of (str ["010"; "013"]%char) c1) l1
      end
  end.

(** [r.test(s)] for [r] of the form [/^.../m]: a match at the start of the
    text or after a line terminator (line feed, carriage return, U+2028,
    U+2029). *)
Definition test_lines (r : re) (s : string) : bool := test_lines_chars r true (chars s).

(** The [i]-th capture, [""] standing for a capture that is not there. *)
Definition cap (caps : list (option string)) (i : nat) : string :=
  default "" (default None (caps !! i)).

(** *** Dates

    A time value is a number of milliseconds since the epoch.  The day
    number of a civil date and back are the algorithms of ECMAScript
    ([MakeDay], [YearFromTime], [MonthFromTime], [DateFromTime]) in closed
    form, on the proleptic Gregorian calendar. *)

Definition msPerDay : Z := 86400000.

(** Day number of year [y], month [m] in 1..12, day [d]. *)
Definition days_from_civil (y m d : Z) : Z :=
  let y' := if m <=? 2 then y - 1 else y in
  let era := y' / 400 in
  let yoe := y' - era * 400 in
  let doy := (153 * (if 2 <? m then m - 3 else m + 9) + 2) / 5 + d - 1 in
  let doe := yoe * 365 + yoe / 4 - yoe / 100 + doy in
  era * 146097 + doe - 719468.

(** Year, month in 1..12 and day of a day number. *)
Definition civil_from_days (z : Z) : Z * Z * Z :=
  let z' := z + 719468 in
  let era := z' / 146097 in
  let doe := z' - era * 146097 in
  let yoe := (doe - doe / 1460 + doe / 36524 - doe / 146096) / 365 in
  let doy := doe - (365 * yoe + yoe / 4 - yoe / 100) in
  let mp := (5 * doy + 2) / 153 in
  let d := doy - (153 * mp + 2) / 5 + 1 in
  let m := if mp <? 10 then mp + 3 else mp - 9 in
  (if m <=? 2 then yoe + era * 400 + 1 else yoe + era * 400, m, d).

(** [MakeDay(year, month, date)]: [month] counts from 0 and may overflow. *)
Definition MakeDay (year month date : Z) : Z :=
  days_from_civil (year + month / 12) (month `mod` 12 + 1) 1 + date - 1.

Definition MakeTime (h mi s ms : Z) : Z :=
  h * 3600000 + mi * 60000 + s * 1000 + ms.

(** A [Date] object: a time value, or Invalid Date. *)
Inductive Date : Type :=
  | DateMs (t : Z)
  | InvalidDate.

(** [TimeClip] *)
Definition TimeClip (t : Z) : Date :=
  if Z.abs t <=? 8640000000000000 then DateMs t else InvalidDate.

(** [d.getTime()], [None] for NaN. *)
Definition getTime (d : Date) : option Z :=
  match d with
  | DateMs t => Some t
  | InvalidDate => None
  end.

(** [a - b] on two dates. *)
Definition date_diff (a b : Date) : option Z :=
  match a, b with
  | DateMs x, DateMs y => Some (x - y)
  | _, _ => None
  end.

(** The UTC calendar date of a time value as its day number: the day that
    the string [new Date(t).toISOString().split('T')[0]] names ([iso_date]
    below); [new Date] of that string is midnight UTC of the day. *)
Definition utc_day (t : Z) : Z := t / msPerDay.
Definition day_start (d : Z) : Z := d * msPerDay.

(** [new Date(day_start d).toISOString().split('T')[0]]: four digits for
    the years 0 to 9999, a sign and six digits for the others. *)
Definition iso_date (d : Z) : string :=
  let '(y, m, dd) := civil_from_days d in
  (if (0 <=? y) && (y <=? 9999) then pad_start 4 y
   else (if y <? 0 then "-" else "+") +:+ pad_start 6 (Z.abs y))
  +:+ "-" +:+ pad_start 2 m +:+ "-" +:+ pad_start 2 dd.

(** Midnight UTC of a civil date, for writing inputs down. *)
Definition utc (y m d h mi : Z) : Z :=
  days_from_civil y m d * msPerDay + MakeTime h mi 0 0.

(** *** The DOM *)

#[warnings="-register-all"]
Inductive Node : Type :=
  | Element (tag : string) (attrs : list (string * string)) (children : list Node)
  | Text (data : string).

(** An element together with its ancestors, the nearest first. *)
Record El : Type := mkEl { el_node : Node; el_ancestors : list Node }.

Fixpoint textContent (n : Node) : string :=
  match n with
  | Text d => d
  | Element _ _ ch =>
      (fix go (l : list Node) : string :=
         match l with
         | [] => ""
         | c :: l' => textContent c +:+ go l'
         end) ch
  end.

Definition getAttribute (n : Node) (name : string) : option string :=
  match n with
  | Element _ attrs _ => snd <$> List.find (λ a, String.eqb (fst a) name) attrs
  | Text _ => None
  end.

(** The ASCII white space of HTML, which separates the classes of a
    [class] attribute: tab, line feed, form feed, carriage return, space. *)
Definition is_html_space (c : ascii) : bool :=
  Ascii.eqb c "009" || Ascii.eqb c "010" || Ascii.eqb c "012" || Ascii.eqb c "013"
  || Ascii.eqb c " ".

Fixpoint words_chars (cur : list ascii) (l : list ascii) : list string :=
  match l with
  | [] => if decide (cur = []) then [] else [str (rev cur)]
  | c :: l' =>
      if is_html_space c
      then ((if decide (cur = []) then [] else [str (rev cur)]) ++ words_chars [] l')%list
      else words_chars (c :: cur) l'
  end.

(** [el.classList] *)
Definition classList (n : Node) : list string :=
  words_chars [] (chars (default "" (getAttribute n "class"))).

Definition classList_contains (n : Node) (c : string) : bool :=
  existsb (String.eqb c) (classList n).

Definition is_element (n : Node) : bool :=
  match n with Element _ _ _ => true | Text _ => false end.

Definition child_nodes (n : Node) : list Node :=
  match n with Element _ _ ch => ch | Text _ => [] end.

(** [el.children] *)
Definition children (e : El) : list El :=
  map (λ c, mkEl c (el_node e :: el_ancestors e))
      (List.filter is_element (child_nodes (el_node e))).

(** The elements below [n], in document order; [ancs] are the ancestors of [n]. *)
Fixpoint descendants (ancs : list Node) (n : Node) : list El :=
  match n with
  | Text _ => []
  | Element _ _ ch =>
      (fix go (l : list Node) : list El :=
         match l with
         | [] => []
         | c :: l' =>
             ((if is_element c then [mkEl c (n :: ancs)] else [])
                ++ descendants (n :: ancs) c ++ go l')%list
         end) ch
  end.

(** A compound selector [tag.class1.class2[attr]], a chain of them under the
    descendant combinator (the subject last), and a selector list. *)
Record Compound : Type :=
  mkCompound { sel_tag : option string; sel_classes : list string; sel_attrs : list string }.

Definition matches_compound (c : Compound) (n : Node) : bool :=
  match n with
  | Text _ => false
  | Element tag _ _ =>
      match sel_tag c with Some t => String.eqb t tag | None => true end
      && forallb (classList_contains n) (sel_classes c)
      && forallb (λ a, bool_decide (is_Some (getAttribute n a))) (sel_attrs c)
  end.

Fixpoint matches_ancestors (chain : list Compound) (ancs : list Node) : bool :=
  match chain with
  | [] => true
  | c :: chain' =>
      (fix up (l : list Node) : bool :=
         match l with
         | [] => false
         | a :: l' =>
             if matches_compound c a then matches_ancestors chain' l' else up l'
         end) ancs
  end.

(** [chain] is written subject first: [.media .title] is [[title; media]]. *)
Definition matches_complex (chain : list Compound) (e : El) : bool :=
  match chain with
  | [] => false
  | c :: chain' => matches_compound c (el_node e) && matches_ancestors chain' (el_ancestors e)
  end.

Definition Selector : Type := list (list Compound).

Definition matches (sel : Selector) (e : El) : bool :=
  existsb (λ chain, matches_complex chain e) sel.

(** [el.querySelectorAll(sel)] and [el.querySelector(sel)] *)
Definition querySelectorAll (e : El) (sel : Selector) : list El :=
  List.filter (matches sel) (descendants (el_ancestors e) (el_node e)).

Definition querySelector (e : El) (sel : Selector) : option El :=
  head (querySelectorAll e sel).

Definition cls (c : string) : Compound := mkCompound None [c] [].
Definition tag_sel (t : string) : Compound := mkCompound (Some t) [] [].
Definition attr_sel (a : string) : Compound := mkCompound None [] [a].

(** *** The host

    What the code reads from its environment: the offset of local time from
    UTC in milliseconds (a fixed offset: no daylight saving), the clock
    ([new Date()], [Date.now()]), the date parser of the engine
    ([new Date(string)], implementation-defined outside the ISO format),
    [DOMParser.parseFromString] and [Math.sqrt] on a non-negative rational. *)

Class Host : Type := {
  LocalTZA : Z;
  clock : Z;
  Date_parse : string -> Date;
  parseFromString : string -> Node;
  sqrtQ : Q -> Q
}.

Section WithHost.
Context `{Host}.

(** [new Date()] *)
Definition Date_now : Date := DateMs clock.

Definition local_day (t : Z) : Z := (t + LocalTZA) / msPerDay.

(** [new Date(year, month, date, hours, minutes, seconds)] *)
Definition Date_of_fields (y mo d h mi s : option Z) : Date :=
  match y, mo, d, h, mi, s with
  | Some y, Some mo, Some d, Some h, Some mi, Some s =>
      let yr := if (0 <=? y) && (y <=? 99) then 1900 + y else y in
      TimeClip (MakeDay yr mo d * msPerDay + MakeTime h mi s 0 - LocalTZA)
  | _, _, _, _, _, _ => InvalidDate
  end.

(** [d.setHours(h, mi, s, ms)]: the new time value. *)
Definition setHours (t : Z) (h mi s ms : Z) : Z :=
  local_day t * msPerDay + MakeTime h mi s ms - LocalTZA.

Definition getFullYear (t : Z) : Z := (civil_from_days (local_day t)).1.1.
(** [d.getMonth()], from 0. *)
Definition getMonth (t : Z) : Z := (civil_from_days (local_day t)).1.2 - 1.
Definition getDate (t : Z) : Z := (civil_from_days (local_day t)).2.
(** [d.getDay()]: 0 is Sunday; day 0 was a Thursday. *)
Definition getDay (t : Z) : Z := (local_day t + 4) `mod` 7.

(** [Math.sqrt] *)
Definition sqrt (a : num) : num :=
  match a with
  | Fin x => if Qis_neg x then NaN else fin (sqrtQ x)
  | Inf false => Inf false
  | Inf true => NaN
  | NaN => NaN
  end.

End WithHost.

End JS.

(** ** The data model *)

(** A message, with the time stamp as the parser left it: a [Date] object
    from the WhatsApp and CSV parsers, an ISO string (its time value here)
    from the Telegram parser. *)
Record Msg (T : Type) : Type := mkMsg {
  timestamp : T;
  sender : string;
  text : string
}.
Arguments mkMsg {T} _ _ _.
Arguments timestamp {T} _.
Arguments sender {T} _.
Arguments text {T} _.

(** The canonical message the analyzers read: a parseable time stamp. *)
Abbreviation Message := (Msg Z).

Record Metadata (T : Type) : Type := mkMetadata {
  format : option string;
  totalMessages : nat;
  participants : list string;
  chatName : option string;
  dateRange : option (T * T)
}.
Arguments mkMetadata {T} _ _ _ _ _.
Arguments format {T} _.
Arguments totalMessages {T} _.
Arguments participants {T} _.
Arguments chatName {T} _.
Arguments dateRange {T} _.

Record ParsedResult (T : Type) : Type := mkParsed {
  messages : list (Msg T);
  metadata : Metadata T
}.
Arguments mkParsed {T} _ _.
Arguments messages {T} _.
Arguments metadata {T} _.

(** The outcome of a call that may throw [new Error(message)]. *)
Inductive result (A : Type) : Type :=
  | Ok (a : A)
  | Throw (message : string).
Arguments Ok {A} _.
Arguments Throw {A} _.

Definition nl : string := String "010" "".

(** ** whatsappParser.js *)

Module WhatsApp.
Import JS.

(** [\d{1,2}[:.]\d{2}(?:[:.]\d{2})?] *)
Definition time_re : re :=
  sequence [between 1 2 is_digit; Chr (one_of ":."); between 2 2 is_digit;
       Opt (sequence [Chr (one_of ":."); between 2 2 is_digit])].

(** [(?:\s*[AP]M)?] under the [i] flag *)
Definition ampm_re : re := Opt (sequence [spaces 0; Chr (one_of "APap"); ci "M"]).

(** [\d{1,2}\/\d{1,2}\/\d{2,4}] and the same with [-] *)
Definition date_re (sep : ascii) : re :=
  sequence [between 1 2 is_digit; Chr (Ascii.eqb sep); between 1 2 is_digit;
       Chr (Ascii.eqb sep); between 2 4 is_digit].

(** [[-–]], and [\s*([^:]+):\s*] followed by the captured rest of the line *)
Definition dash_re : re := Alt (lit "-") (lit "–").
Definition sender_text_re : re :=
  sequence [spaces 0; Grp (at_least 1 (none_of ":")); Chr (Ascii.eqb ":");
       spaces 0; Grp dots; Eos].

Definition patterns : list re :=
  [ (* 1/1/24, 10:00 AM - Sender: Message *)
    sequence [Grp (date_re "/"); between 0 1 (Ascii.eqb ","); spaces 1;
         Grp (Cat time_re ampm_re); spaces 0; dash_re; sender_text_re];
    (* [1/1/24, 10:00:00 AM] Sender: Message *)
    sequence [Chr (Ascii.eqb "["); Grp (date_re "/"); between 0 1 (Ascii.eqb ",");
         spaces 1; Grp (Cat time_re ampm_re); Chr (Ascii.eqb "]");
         sender_text_re];
    (* 01-01-2024 10:00 - Sender: Message *)
    sequence [Grp (date_re "-"); spaces 1; Grp time_re; spaces 0;
         dash_re; sender_text_re] ].

(** The first pattern of the list that matches, as the inner loop finds it. *)
Fixpoint first_match (ps : list re) (line : string) : option (list (option string)) :=
  match ps with
  | [] => None
  | p :: ps' =>
      match match_start p line with
      | Some caps => Some caps
      | None => first_match ps' line
      end
  end.

Definition systemIndicators : list string :=
  [ "created group"; "added you"; "changed the subject"; "changed this group";
    "left the group"; "removed"; "security code changed";
    "messages and calls are end-to-end encrypted"; "you deleted this message";
    "this message was deleted"; "media omitted"; "<Media omitted>";
    "missed voice call"; "missed video call"; "joined using this group" ].

Definition isSystemMessage (sender text : string) : bool :=
  let lowerText := toLowerCase text in
  let lowerSender := toLowerCase sender in
  if includes lowerSender "system" || String.eqb lowerSender "" then true
  else existsb (λ indicator, includes lowerText (toLowerCase indicator)) systemIndicators.

Section WithHost.
Context `{Host}.

(** A string or [undefined], as a string and under [parseInt]. *)
Definition to_string (o : option string) : string := default "undefined" o.
Definition parseInt_opt (o : option string) : option Z := parseInt (to_string o).

Definition parseDateTime (dateStr timeStr : string) : Date :=
  let normalizedDate := replace_all (Ascii.eqb "-") "/" dateStr in
  let parts := split "/" normalizedDate in
  let '(day, month, year) :=
    if (js_length (to_string (parts !! 0%nat)) =? 4)%nat then
      (parts !! 2%nat, parts !! 1%nat, parts !! 0%nat)
    else if match parts !! 2%nat with
            | Some p => truthy p && (js_length p =? 4)%nat
            | None => false
            end then
      (parts !! 1%nat, parts !! 0%nat, parts !! 2%nat)
    else
      let year := parts !! 2%nat in
      (parts !! 1%nat, parts !! 0%nat,
       Some (if match parseInt_opt year with Some y => y <? 50 | None => false end
             then "20" +:+ to_string year else "19" +:+ to_string year)) in
  let timeParts := split ":" (replace_all (one_of ":.") ":" timeStr) in
  let hours := parseInt_opt (timeParts !! 0%nat) in
  let minutes := parseInt_opt (timeParts !! 1%nat) in
  let seconds :=
    match timeParts !! 2%nat with
    | Some p => if truthy p then parseInt p else Some 0
    | None => Some 0
    end in
  let isPM := bool_decide (is_Some (search (Cat (ci "P") (ci "M")) timeStr)) in
  let isAM := bool_decide (is_Some (search (Cat (ci "A") (ci "M")) timeStr)) in
  let hours :=
    match hours with
    | Some h => if isPM && (h <? 12) then Some (h + 12) else hours
    | None => None
    end in
  let hours :=
    match hours with
    | Some h => if isAM && (h =? 12) then Some 0 else hours
    | None => None
    end in
  Date_of_fields (parseInt_opt year) (Z.pred <$> parseInt_opt month)
                 (parseInt_opt day) hours minutes seconds.

(** The state of the loop over the lines: the messages pushed so far and
    [currentMessage]. *)
Definition state : Type := list (Msg Date) * option (Msg Date).

Definition push_current (st : state) : list (Msg Date) :=
  match st.2 with
  | Some m => (st.1 ++ [m])%list
  | None => st.1
  end.

(** One turn of the loop. *)
Definition step (st : state) (line : string) : state :=
  let trimmedLine := trim line in
  if negb (truthy trimmedLine) then st
  else
    match first_match patterns trimmedLine with
    | Some caps =>
        let messages := push_current st in
        let '(dateStr, timeStr, sender, text) := (cap caps 0, cap caps 1, cap caps 2, cap caps 3) in
        let timestamp := parseDateTime dateStr timeStr in
        if isSystemMessage sender text then (messages, None)
        else (messages, Some (mkMsg timestamp (trim sender) (trim text)))
    | None =>
        match st.2 with
        | Some m => (st.1, Some (mkMsg (timestamp m) (sender m) (text m +:+ nl +:+ trimmedLine)))
        | None => st
        end
    end.

(** The messages collected from the lines, before the sort. *)
Definition collect (lines : list string) : list (Msg Date) :=
  push_current (foldl step ([], None) lines).

(** [Math.min(...dates)] and [Math.max(...dates)] in a [new Date(...)]. *)
Definition extreme (pick : Z -> Z -> Z) (l : list Date) : Date :=
  match l with
  | [] => InvalidDate
  | d :: l' => foldl (λ acc d, match acc, d with
                                | DateMs a, DateMs b => DateMs (pick a b)
                                | _, _ => InvalidDate
                                end) d l'
  end.

Definition by_date (a b : Msg Date) : num :=
  of_option (date_diff (timestamp a) (timestamp b)).

Definition no_messages : string :=
  "No valid messages found in WhatsApp export. Please check the file format.".

Definition parseWhatsApp (content : string) : result (ParsedResult Date) :=
  let lines := split "010" content in
  let messages := collect lines in
  if (length messages =? 0)%nat then Throw no_messages
  else
    let messages := sort_with by_date messages in
    let senders := uniq (map sender messages) in
    let timestamps := map timestamp messages in
    Ok (mkParsed messages
          (mkMetadata None (length messages) senders None
             (Some (extreme Z.min timestamps, extreme Z.max timestamps)))).

End WithHost.
End WhatsApp.

(** ** csvParser.js *)

Module CSV.
Import JS.

(** The loop of [parseCSVLine] over the characters: [values] grows at each
    comma outside quotes; a doubled quote inside quotes is one quote. *)
Fixpoint csv_fields (current : list ascii) (inQuotes : bool) (l : list ascii)
  : list string :=
  match l with
  | [] => [trim (str (rev current))]
  | c :: l' =>
      if Ascii.eqb c dquote then
        match l' with
        | c' :: l'' =>
            if inQuotes && Ascii.eqb c' dquote then csv_fields (dquote :: current) inQuotes l''
            else csv_fields current (negb inQuotes) l'
        | [] => csv_fields current (negb inQuotes) l'
        end
      else if Ascii.eqb c "," && negb inQuotes then
        trim (str (rev current)) :: csv_fields [] inQuotes l'
      else csv_fields (c :: current) inQuotes l'
  end.

Definition parseCSVLine (line : string) : list string :=
  csv_fields [] false (chars line).

(** [header.indexOf(name)], [None] for -1. *)
Fixpoint indexOf (header : list string) (name : string) : option nat :=
  match header with
  | [] => None
  | h :: header' =>
      if String.eqb h name then Some 0%nat else S <$> indexOf header' name
  end.

(** An index or [null]. *)
Fixpoint findColumnIndex (header : list string) (possibleNames : list string)
  : option nat :=
  match possibleNames with
  | [] => None
  | name :: names =>
      match indexOf header name with
      | Some index => Some index
      | None => findColumnIndex header names
      end
  end.

Record ColumnMap : Type := mkColumnMap {
  col_timestamp : option nat;
  col_sender : option nat;
  col_message : option nat
}.

Definition timestampNames : list string :=
  ["timestamp"; "date"; "time"; "datetime"; "created_at"; "date_time"; "sent_at"].
Definition senderNames : list string :=
  ["sender"; "from"; "author"; "user"; "name"; "participant"; "from_user"; "username"].
Definition messageNames : list string :=
  ["message"; "text"; "content"; "body"; "message_text"; "msg"; "message_content"].

Definition mapColumns (header : list string) : ColumnMap :=
  let lowerHeader := map (λ h, trim (toLowerCase h)) header in
  mkColumnMap (findColumnIndex lowerHeader timestampNames)
              (findColumnIndex lowerHeader senderNames)
              (findColumnIndex lowerHeader messageNames).

(** [!index] for an index or [null]: [null] and 0 are falsy. *)
Definition falsy_index (o : option nat) : bool :=
  match o with
  | None | Some O => true
  | Some (S _) => false
  end.

(** The value of an index in arithmetic: [null] counts as 0. *)
Definition index_value (o : option nat) : nat := default 0%nat o.

Definition d2 : re := between 2 2 is_digit.
Definition hms_tail : list re :=
  [Chr (Ascii.eqb ":"); d2; between 0 1 (Ascii.eqb ":"); OptGrp d2; Eos].

Definition formats : list re :=
  [ (* YYYY-MM-DD HH:MM:SS *)
    sequence ([Grp (between 4 4 is_digit); Chr (Ascii.eqb "-"); Grp d2; Chr (Ascii.eqb "-");
          Grp d2; spaces 1; Grp d2] ++ hms_tail)%list;
    (* DD/MM/YYYY HH:MM:SS *)
    sequence ([Grp d2; Chr (Ascii.eqb "/"); Grp d2; Chr (Ascii.eqb "/");
          Grp (between 4 4 is_digit); spaces 1; Grp d2] ++ hms_tail)%list;
    (* MM/DD/YYYY HH:MM:SS *)
    sequence ([Grp (between 1 2 is_digit); Chr (Ascii.eqb "/"); Grp (between 1 2 is_digit);
          Chr (Ascii.eqb "/"); Grp (between 4 4 is_digit); spaces 1;
          Grp (between 1 2 is_digit)] ++ hms_tail)%list ].

Section WithHost.
Context `{Host}.

(** A [Date] or [null].  The loop over the formats returns
    [new Date(str)] again, the date the first test found invalid. *)
Definition parseTimestamp (s : string) : option Date :=
  match Date_parse s with
  | DateMs t => Some (DateMs t)
  | InvalidDate =>
      if existsb (λ format, bool_decide (is_Some (match_start format s))) formats
      then Some (Date_parse s)
      else None
  end.

(** The body of the loop over the data rows: the message of a row, if any. *)
Definition row_message (columnMap : ColumnMap) (line : string) : option (Msg Date) :=
  let values := parseCSVLine line in
  let ts := index_value (col_timestamp columnMap) in
  let sd := index_value (col_sender columnMap) in
  let ms := index_value (col_message columnMap) in
  if (length values <? Nat.max (Nat.max ts sd) ms + 1)%nat then None
  else
    let timestampStr := default "" (values !! ts) in
    let sender := default "" (values !! sd) in
    let text := default "" (values !! ms) in
    if negb (truthy sender) || negb (truthy text) || negb (truthy timestampStr) then None
    else
      match parseTimestamp timestampStr with
      | Some timestamp => Some (mkMsg timestamp (trim sender) (trim text))
      | None => None
      end.

Definition empty_file : string := "CSV file appears to be empty or has no data rows.".
Definition missing_columns (header : list string) : string :=
  "CSV file must have columns for timestamp, sender, and message. " +:+
  "Found columns: " +:+ join ", " header.
Definition no_messages : string :=
  "No valid messages found in CSV file. Please check the file format.".

Definition parseCSV (content : string) : result (ParsedResult Date) :=
  let lines := List.filter (λ line, truthy (trim line)) (split "010" content) in
  match lines with
  | [] | [_] => Throw empty_file
  | line0 :: rows =>
      let header := parseCSVLine line0 in
      let columnMap := mapColumns header in
      if falsy_index (col_timestamp columnMap) || falsy_index (col_sender columnMap)
         || falsy_index (col_message columnMap)
      then Throw (missing_columns header)
      else
        let messages := omap (row_message columnMap) rows in
        if (length messages =? 0)%nat then Throw no_messages
        else
          let messages := sort_with WhatsApp.by_date messages in
          let senders := uniq (map sender messages) in
          let timestamps := map timestamp messages in
          Ok (mkParsed messages
                (mkMetadata None (length messages) senders None
                   (Some (WhatsApp.extreme Z.min timestamps,
                          WhatsApp.extreme Z.max timestamps))))
  end.

End WithHost.
End CSV.

(** ** telegramParser.js *)

Module Telegram.
Import JS.

(** The month table of [parseDateFromText]. *)
Definition months : list (string * Z) :=
  [ ("january", 0); ("jan", 0);
    ("february", 1); ("feb", 1); ("februari", 1);
    ("march", 2); ("mar", 2); ("maret", 2);
    ("april", 3); ("apr", 3);
    ("may", 4); ("mei", 4);
    ("june", 5); ("jun", 5); ("juni", 5);
    ("july", 6); ("jul", 6); ("juli", 6);
    ("august", 7); ("aug", 7); ("agustus", 7);
    ("september", 8); ("sep", 8); ("sept", 8);
    ("october", 9); ("oct", 9); ("oktober", 9);
    ("november", 10); ("nov", 10);
    ("december", 11); ("dec", 11); ("desember", 11) ].

(** The properties an object literal inherits from [Object.prototype]. *)
Definition inherited : list string :=
  [ "constructor"; "__proto__"; "toString"; "valueOf"; "toLocaleString";
    "hasOwnProperty"; "isPrototypeOf"; "propertyIsEnumerable";
    "__defineGetter__"; "__defineSetter__"; "__lookupGetter__"; "__lookupSetter__" ].

(** [table[key]] on an object literal of numbers: [None] is [undefined];
    [Some None] is an inherited property, a function or an object, which is
    NaN as a number. *)
Definition lookup_table (table : list (string * Z)) (key : string) : option (option Z) :=
  match List.find (λ e, String.eqb (fst e) key) table with
  | Some e => Some (Some (snd e))
  | None => if existsb (String.eqb key) inherited then Some None else None
  end.

(** The table of [getMonthNumber]: the one above and ["januari"]; [None] is
    [null]. *)
Definition getMonthNumber (monthStr : string) : option (option Z) :=
  lookup_table (("januari", 0) :: months) (toLowerCase monthStr).

Definition day_month_year : list re :=
  [Grp (between 1 2 is_digit); spaces 1; Grp (at_least 1 is_word);
   spaces 1; Grp (between 4 4 is_digit)].

Definition d2 : re := between 2 2 is_digit.

(** The three regular expressions of the module, none of them anchored. *)
Definition dotFormat_re : re :=
  sequence [Grp d2; Chr (Ascii.eqb "."); Grp d2; Chr (Ascii.eqb "."); Grp (between 4 4 is_digit);
       spaces 1; Grp d2; Chr (Ascii.eqb ":"); Grp d2;
       between 0 1 (Ascii.eqb ":"); OptGrp d2].
Definition textMonth_re : re :=
  sequence (day_month_year ++ [spaces 1; Grp d2; Chr (Ascii.eqb ":"); Grp d2])%list.
Definition time_re : re :=
  sequence [Grp (between 1 2 is_digit); Chr (Ascii.eqb ":"); Grp d2].

Definition sel_from_name : Selector := [[cls "from_name"]].
Definition sel_text : Selector := [[cls "text"]].
Definition sel_body : Selector := [[cls "body"]].
Definition sel_history : Selector := [[cls "history"]].
Definition sel_header : Selector := [[cls "text"; cls "page_header"]].
Definition sel_media : Selector :=
  [[cls "title"; cls "media"]; [cls "description"; cls "media"]].
Definition sel_date : Selector :=
  [[mkCompound None ["pull_right"; "date"] []]; [cls "date"]; [attr_sel "title"]].
Definition sel_div : Selector := [[tag_sel "div"]].

(** [set.add(x)] on a [Set] kept in insertion order. *)
Definition set_add (x : string) (l : list string) : list string :=
  if bool_decide (x ∈ l) then l else (l ++ [x])%list.

Definition default_chat_name : string := "Telegram Chat".

Section WithHost.
Context `{Host}.

(** A [Date] or [null]. *)
Definition parseDateFromText (text : string) : option Date :=
  match search (sequence day_month_year) text with
  | Some caps =>
      let '(day, monthStr, year) := (cap caps 0, cap caps 1, cap caps 2) in
      match lookup_table months (toLowerCase monthStr) with
      | Some month =>
          Some (Date_of_fields (parseInt year) month (parseInt day)
                               (Some 0) (Some 0) (Some 0))
      | None => None
      end
  | None => None
  end.

Definition parseFullDateTime (dateStr : string) : option Date :=
  if negb (truthy dateStr) then None
  else
    match Date_parse dateStr with
    | DateMs t => Some (DateMs t)
    | InvalidDate =>
        match search dotFormat_re dateStr with
        | Some caps =>
            let second := default "0" (default None (caps !! 5%nat)) in
            Some (Date_of_fields (parseInt (cap caps 2)) (Z.pred <$> parseInt (cap caps 1))
                    (parseInt (cap caps 0)) (parseInt (cap caps 3))
                    (parseInt (cap caps 4)) (parseInt second))
        | None =>
            match search textMonth_re dateStr with
            | Some caps =>
                match getMonthNumber (cap caps 1) with
                | Some monthNum =>
                    Some (Date_of_fields (parseInt (cap caps 2)) monthNum
                            (parseInt (cap caps 0)) (parseInt (cap caps 3))
                            (parseInt (cap caps 4)) (Some 0))
                | None => None
                end
            | None => None
            end
        end
    end.

(** [d.setHours(h, mi, 0, 0)] on a [Date] with numbers that may be NaN. *)
Definition Date_setHours (d : Date) (h mi : option Z) : Date :=
  match d, h, mi with
  | DateMs t, Some h, Some mi => TimeClip (setHours t h mi 0 0)
  | _, _, _ => InvalidDate
  end.

(** What [parseDefaultMessage] returns: the message, with its time stamp as
    the time value of the ISO string, and [extractedDate].  [None] is [null]:
    no sender, or the [RangeError] of [toISOString] on an invalid date, which
    the [catch] turns into [null]. *)
Definition parseDefaultMessage (el : El) (currentDate : Date) (lastSender : option string)
  : option (Message * option Date) :=
  let sender :=
    match querySelector el sel_from_name with
    | Some fromNameEl => Some (trim (textContent (el_node fromNameEl)))
    | None => lastSender
    end in
  let sender :=
    match sender with
    | Some s => if truthy s then Some (trim (default "" (head (split "010" s)))) else sender
    | None => None
    end in
  match sender with
  | None => None
  | Some sender =>
      if negb (truthy sender) then None
      else
        let text :=
          match querySelector el sel_text with
          | Some textEl => trim (textContent (el_node textEl))
          | None => ""
          end in
        let text :=
          if negb (truthy text) then
            match querySelector el sel_media with
            | Some mediaEl => "[Media: " +:+ trim (textContent (el_node mediaEl)) +:+ "]"
            | None => "[Media]"
            end
          else text in
        let '(timestamp, extractedDate) :=
          match querySelector el sel_date with
          | Some dateEl =>
              let titleAttr := getAttribute (el_node dateEl) "title" in
              if truthy (default "" titleAttr) then
                match parseFullDateTime (default "" titleAttr) with
                | Some parsed => (parsed, Some (Date_setHours parsed (Some 0) (Some 0)))
                | None => (currentDate, None)
                end
              else
                let timeText := trim (textContent (el_node dateEl)) in
                match search time_re timeText with
                | Some timeMatch =>
                    (Date_setHours currentDate (parseInt (cap timeMatch 0))
                                   (parseInt (cap timeMatch 1)), None)
                | None => (currentDate, None)
                end
          | None => (currentDate, None)
          end in
        match timestamp with
        | DateMs t => Some (mkMsg t sender text, extractedDate)
        | InvalidDate => None
        end
  end.

Definition by_iso (a b : Message) : num := of_Z (timestamp a - timestamp b).

(** [messages.length > 0 ? {start: messages[0].timestamp, end: ...} : null] *)
Definition range_of (messages : list Message) : option (Z * Z) :=
  match messages, last messages with
  | m :: _, Some m' => Some (timestamp m, timestamp m')
  | _, _ => None
  end.

(** The state of [forEach] in [parseAlternativeFormat]. *)
Record alt_state : Type := mkAlt {
  alt_messages : list Message;
  alt_participants : list string;
  alt_currentDate : Date
}.

(** One [div].  [None] is the [RangeError] [currentDate.toISOString()]
    throws on an invalid date, which nothing catches. *)
Definition alt_step (st : option alt_state) (div : El) : option alt_state :=
  st ← st;
  let text := trim (textContent (el_node div)) in
  let dateMatch := parseDateFromText text in
  if bool_decide (is_Some dateMatch) && (js_length text <? 30)%nat then
    Some (mkAlt (alt_messages st) (alt_participants st)
                (default (alt_currentDate st) dateMatch))
  else
    match querySelector div sel_from_name, querySelector div sel_text with
    | Some fromName, Some textEl =>
        let sender := default "" (head (split "010" (trim (textContent (el_node fromName))))) in
        let msgText := trim (textContent (el_node textEl)) in
        if truthy sender && truthy msgText then
          match alt_currentDate st with
          | DateMs t =>
              Some (mkAlt (alt_messages st ++ [mkMsg t sender msgText])%list
                          (set_add sender (alt_participants st)) (alt_currentDate st))
          | InvalidDate => None
          end
        else Some st
    | _, _ => Some st
    end.

Definition range_error : string := "Invalid time value".

Definition parseAlternativeFormat (doc : El) : result (ParsedResult Z) :=
  let allDivs := querySelectorAll doc sel_div in
  match foldl alt_step (Some (mkAlt [] [] Date_now)) allDivs with
  | Some st =>
      let messages := alt_messages st in
      Ok (mkParsed messages
            (mkMetadata (Some "telegram") (length messages) (alt_participants st)
                        None (range_of messages)))
  | None => Throw range_error
  end.

(** The state of the loop over the children of the history container. *)
Record loop_state : Type := mkLoop {
  l_messages : list Message;
  l_participants : list string;
  l_currentDate : Date;
  l_lastSender : option string
}.

Definition loop_step (st : loop_state) (el : El) : loop_state :=
  if classList_contains (el_node el) "service" then
    let bodyText :=
      match querySelector el sel_body with
      | Some body => trim (textContent (el_node body))
      | None => ""
      end in
    match parseDateFromText bodyText with
    | Some dateFromService =>
        mkLoop (l_messages st) (l_participants st) dateFromService (l_lastSender st)
    | None => st
    end
  else if classList_contains (el_node el) "message"
          && classList_contains (el_node el) "default" then
    match parseDefaultMessage el (l_currentDate st) (l_lastSender st) with
    | Some (msgData, extractedDate) =>
        mkLoop (l_messages st ++ [msgData])%list
               (set_add (sender msgData) (l_participants st))
               (default (l_currentDate st) extractedDate)
               (Some (sender msgData))
    | None => st
    end
  else st.

Definition parseDocument (doc : El) : result (ParsedResult Z) :=
  let chatName :=
    match querySelector doc sel_header with
    | Some headerEl => trim (textContent (el_node headerEl))
    | None => default_chat_name
    end in
  match querySelector doc sel_history with
  | None => parseAlternativeFormat doc
  | Some historyEl =>
      let st := foldl loop_step (mkLoop [] [] Date_now None) (children historyEl) in
      let messages := sort_with by_iso (l_messages st) in
      Ok (mkParsed messages
            (mkMetadata (Some "telegram") (length messages) (l_participants st)
                        (Some chatName) (range_of messages)))
  end.

(** The document is the root element the HTML parser builds. *)
Definition parseTelegramExport (content : string) : result (ParsedResult Z) :=
  parseDocument (mkEl (parseFromString content) []).

End WithHost.

Definition isTelegramFormat (content : string) : bool :=
  includes content "page_wrap" || includes content "message default"
  || includes content ("class=" +:+ dq +:+ "history" +:+ dq) || includes content "from_name"
  || includes content "Telegram".

(** The state of [forEach] in [mergeTelegramResults]. *)
Record merge_state : Type := mkMerge {
  allMessages : list Message;
  allParticipants : list string;
  m_chatName : string
}.

(** One file: [None] is a [null] or [undefined] entry of [results]. *)
Definition merge_step (st : merge_state) (r : option (ParsedResult Z)) : merge_state :=
  match r with
  | Some result =>
      mkMerge (allMessages st ++ messages result)%list
              (foldl (λ acc p, set_add p acc) (allParticipants st)
                     (participants (metadata result)))
              (match chatName (metadata result) with
               | Some name =>
                   if truthy name && negb (String.eqb name default_chat_name)
                   then name else m_chatName st
               | None => m_chatName st
               end)
  | None => st
  end.

Definition mergeTelegramResults (results : list (option (ParsedResult Z)))
  : ParsedResult Z :=
  let st := foldl merge_step (mkMerge [] [] default_chat_name) results in
  let allMessages := sort_with by_iso (allMessages st) in
  mkParsed allMessages
    (mkMetadata (Some "telegram") (length allMessages) (allParticipants st)
                (Some (m_chatName st)) (range_of allMessages)).

End Telegram.

(** ** parserRouter.js *)

Module Router.
Import JS.

Inductive FileType : Type := whatsapp | csv | telegram | unknown.

(** The three tests of [detectFileType], each [/^.../m]. *)
Definition date_time_prefix (sep : ascii) (comma : bool) : list re :=
  [between 1 2 is_digit; Chr (Ascii.eqb sep); between 1 2 is_digit; Chr (Ascii.eqb sep);
   between 2 4 is_digit; (if comma then between 0 1 (Ascii.eqb ",") else Eps);
   spaces 1; between 1 2 is_digit; Chr (one_of ":."); between 2 2 is_digit].

Definition whatsappPatterns : list re :=
  [ sequence (date_time_prefix "/" true);
    sequence (Chr (Ascii.eqb "[") :: date_time_prefix "/" true);
    sequence (date_time_prefix "-" false) ].

(** [filename.toLowerCase().split('.').pop()] *)
Definition extension_of (filename : string) : string :=
  default "" (last (split "." (toLowerCase filename))).

Definition detectFileType (content filename : string) : FileType :=
  let extension := extension_of filename in
  if String.eqb extension "csv" then csv
  else if (String.eqb extension "html" || String.eqb extension "htm")
          && Telegram.isTelegramFormat content then telegram
  else if String.eqb extension "txt"
          && existsb (λ pattern, test_lines pattern content) whatsappPatterns then whatsapp
  else unknown.

Definition unsupported : string :=
  "Unsupported file format. Please upload a WhatsApp export (.txt), Telegram export (.html), or CSV file.".

(** What [parseFile] returns: the result of one of the three parsers. *)
Inductive Parsed : Type :=
  | WithDates (r : ParsedResult Date)
  | WithIsoStrings (r : ParsedResult Z).

Definition lift {A} (f : A -> Parsed) (r : result A) : result Parsed :=
  match r with
  | Ok a => Ok (f a)
  | Throw message => Throw message
  end.

Definition parseFile `{Host} (content filename : string) : result Parsed :=
  match detectFileType content filename with
  | whatsapp => lift WithDates (WhatsApp.parseWhatsApp content)
  | csv => lift WithDates (CSV.parseCSV content)
  | telegram => lift WithIsoStrings (Telegram.parseTelegramExport content)
  | unknown => Throw unsupported
  end.

End Router.

(** ** The analyzers

    Each takes the canonical messages.  What only the charts read of a result
    (colours, fill and tension of a dataset) is left out. *)

(** [[...new Set(messages.map(m => m.sender))].sort()] *)
Definition sorted_senders (messages : list Message) : list string :=
  JS.sort_strings (JS.uniq (map sender messages)).

(** The pairs [(messages[i - 1], messages[i])] for [i] from 1 on. *)
Definition adjacent {A} (l : list A) : list (A * A) := zip l (tail l).

(** [senders.forEach(s => obj[s] = v)] on a fresh object. *)
Definition init_object {V} (senders : list string) (v : V) : gmap string V :=
  foldl (λ obj s, <[s := v]> obj) ∅ senders.

(** The key a value that may be [undefined] has as a property name. *)
Definition prop_key (o : option string) : string := default "undefined" o.

(** The one name under which a plain object keeps no number: [obj[proto] = v]
    with [v] a number calls the setter of [Object.prototype] and leaves the
    object as it is, and [obj[proto]] reads the prototype, which as a number
    is NaN. *)
Definition proto : string := "__proto__".

(** [obj[key] = v] with [v] a number. *)
Definition set_number {V} (key : string) (v : V) (obj : gmap string V) : gmap string V :=
  if String.eqb key proto then obj else <[key := v]> obj.

(** [senders.forEach(s => obj[s] = v)] on a fresh object, with [v] a number. *)
Definition init_numbers {V} (senders : list string) (v : V) : gmap string V :=
  foldl (λ obj s, set_number s v obj) ∅ senders.

(** ** responseTiming.js *)

Module ResponseTiming.
Import JS.

Record Response : Type := mkResponse { time : num; r_timestamp : Z }.

Record SenderStat : Type := mkSenderStat { avg : num; count : nat }.

Record Period : Type := mkPeriod { label : string; overallAvg : num }.

Record Statistics : Type := mkStatistics {
  overallAvgMinutes : num;
  senderStats : gmap string SenderStat;
  trend : string;
  totalResponses : nat
}.

(** [statistics] is [None] for the empty object, [datasets] holds the [data]
    of each dataset. *)
Record Result : Type := mkResult {
  labels : list string;
  datasets : list (list num);
  statistics : option Statistics
}.

Definition empty_result : Result := mkResult [] [] None.

(** The body of the loop over [i], on [previous] and [current]. *)
Definition record_pair (responseTimes : gmap string (list Response))
  (pc : Message * Message) : gmap string (list Response) :=
  let '(previous, current) := pc in
  if bool_decide (sender current ≠ sender previous) then
    let currentTime := timestamp current in
    let previousTime := timestamp previous in
    let responseTime := div (of_Z (currentTime - previousTime)) (of_Z (1000 * 60)) in
    if le responseTime (of_Z 1440) && ge responseTime (of_Z 0) then
      match responseTimes !! sender current with
      | Some l => <[sender current := (l ++ [mkResponse responseTime currentTime])%list]> responseTimes
      | None => responseTimes
      end
    else responseTimes
  else responseTimes.

Definition responseTimes_of (messages : list Message) : gmap string (list Response) :=
  foldl record_pair (init_object (sorted_senders messages) []) (adjacent messages).

(** [allResponses] before the sort: the responses of each sender in turn. *)
Definition collect_responses (senders : list string)
  (responseTimes : gmap string (list Response)) : list (Response * string) :=
  senders ≫= λ sender, map (λ r, (r, sender)) (default [] (responseTimes !! sender)).

Definition by_timestamp (a b : Response * string) : num :=
  of_Z (r_timestamp a.1 - r_timestamp b.1).

Definition allResponses_of (messages : list Message) : list (Response * string) :=
  sort_with by_timestamp
    (collect_responses (sorted_senders messages) (responseTimes_of messages)).

Definition numPeriods_of (n : nat) : nat := Nat.min 10 (Nat.max 3 (n / 5)).

(** [Math.ceil(n / k)] for [0 < k]. *)
Definition ceil_div (n k : nat) : nat := ((n + k - 1) / k)%nat.

Definition average {A} (f : A -> num) (l : list A) : num :=
  div (sum_by f l) (of_nat (length l)).

Definition period_of (allResponses : list (Response * string)) (periodSize i : nat)
  : option Period :=
  let start := (i * periodSize)%nat in
  let stop := Nat.min ((i + 1) * periodSize) (length allResponses) in
  let periodResponses := slice start stop allResponses in
  if (0 <? length periodResponses)%nat
  then Some (mkPeriod ("Period " +:+ pretty (i + 1)%nat)
                      (average (λ r, time r.1) periodResponses))
  else None.

Definition periods_of (allResponses : list (Response * string)) : list Period :=
  let numPeriods := numPeriods_of (length allResponses) in
  let periodSize := ceil_div (length allResponses) numPeriods in
  omap (period_of allResponses periodSize) (seq 0 numPeriods).

Definition trend_of (periods : list Period) : string :=
  if (2 <=? length periods)%nat then
    let firstHalf := slice 0 (length periods / 2) periods in
    let secondHalf := drop (length periods / 2) periods in
    let firstHalfAvg := average overallAvg firstHalf in
    let secondHalfAvg := average overallAvg secondHalf in
    if gt secondHalfAvg (mul firstHalfAvg (dec 3 2)) then "slowing"
    else if lt secondHalfAvg (mul firstHalfAvg (dec 7 10)) then "quickening"
    else "stable"
  else "stable".

Definition senderStat_of (responseTimes : gmap string (list Response)) (sender : string)
  : SenderStat :=
  let times := map time (default [] (responseTimes !! sender)) in
  mkSenderStat (if (0 <? length times)%nat then round_to 10 (average id times) else of_Z 0)
               (length times).

Definition analyzeResponseTiming (messages : list Message) : Result :=
  if (length messages <? 2)%nat then empty_result
  else
    let senders := sorted_senders messages in
    let responseTimes := responseTimes_of messages in
    let allResponses := allResponses_of messages in
    let periods := periods_of allResponses in
    let allTimes := map (λ r, time r.1) allResponses in
    let overall := if (0 <? length allTimes)%nat then average id allTimes else of_Z 0 in
    mkResult (map label periods)
             [map (λ p, round_to 10 (overallAvg p)) periods]
             (Some (mkStatistics (round_to 10 overall)
                      (list_to_map (map (λ s, (s, senderStat_of responseTimes s)) senders))
                      (trend_of periods)
                      (length allResponses))).

End ResponseTiming.

(** ** initiationBalance.js *)

Module InitiationBalance.
Import JS.

Definition CONVERSATION_GAP_HOURS : Z := 4.

Record Statistics : Type := mkStatistics {
  total : nat;
  counts : gmap string nat;
  percentages : gmap string num;
  balance : string;
  moreInitiator : option string;
  lessInitiator : option string;
  difference : num
}.

Record Result : Type := mkResult {
  labels : list string;
  data : list (option nat);
  statistics : option Statistics
}.

Definition empty_result : Result := mkResult [] [] None.

(** [obj[key]++]: one more on a counter that is there; under a name that
    holds no number the sum is NaN and the object stays as it is. *)
Definition increment (obj : gmap string nat) (key : string) : gmap string nat :=
  alter S key obj.

Definition gapThreshold : Z := CONVERSATION_GAP_HOURS * 60 * 60 * 1000.

(** The body of the loop over [i], on [previous] and [current]. *)
Definition count_pair (initiations : gmap string nat) (pc : Message * Message)
  : gmap string nat :=
  let '(previous, current) := pc in
  let gap := timestamp current - timestamp previous in
  if gapThreshold <=? gap then increment initiations (sender current) else initiations.

Definition initiations_of (messages : list Message) : gmap string nat :=
  let initiations := init_numbers (sorted_senders messages) 0%nat in
  let initiations :=
    match messages with
    | first :: _ => increment initiations (sender first)
    | [] => initiations
    end in
  foldl count_pair initiations (adjacent messages).

(** The number a property that may be missing reads as: NaN for [undefined]. *)
Definition number_of (o : option num) : num := default NaN o.

Definition analyzeInitiationBalance (messages : list Message) : Result :=
  if (length messages <? 2)%nat then empty_result
  else
    let senders := sorted_senders messages in
    let initiations := initiations_of messages in
    let totalInitiations := map_fold (λ _ count sum, (sum + count)%nat) 0%nat initiations in
    let percentages : gmap string num :=
      foldl (λ obj sender,
               set_number sender
                 (if (0 <? totalInitiations)%nat
                  then round (mul (div (number_of (of_nat <$> initiations !! sender))
                                       (of_nat totalInitiations)) (of_Z 100))
                  else of_Z 0) obj) ∅ senders in
    let s0 := prop_key (senders !! 0%nat) in
    let s1 := prop_key (senders !! 1%nat) in
    let diff := abs (sub (number_of (percentages !! s0)) (number_of (percentages !! s1))) in
    let balance :=
      if le diff (of_Z 10) then "balanced"
      else if le diff (of_Z 25) then "slightly_unbalanced"
      else "unbalanced" in
    let more :=
      gt (number_of (of_nat <$> initiations !! s0)) (number_of (of_nat <$> initiations !! s1)) in
    mkResult senders
             (map (λ s, initiations !! s) senders)
             (Some (mkStatistics totalInitiations initiations percentages balance
                      (if more then senders !! 0%nat else senders !! 1%nat)
                      (if more then senders !! 1%nat else senders !! 0%nat)
                      diff)).

End InitiationBalance.

(** ** streaks.js *)

Module Streaks.
Import JS.

(** A calendar date is held as its day number; where the code compares
    two dates as strings, so does the model ([JS.iso_date]). *)
Record Streak : Type := mkStreak { start : Z; stop : Z; length : nat }.

Record Details : Type := mkDetails {
  longestStreakInfo : option Streak;
  isStreakActive : bool;
  totalSpanDays : Z;
  activeDayPercent : num;
  avgGapDays : num
}.

(** [details] holds the fields that the result on no message lacks. *)
Record Result : Type := mkResult {
  longestStreak : nat;
  currentStreak : nat;
  totalActiveDays : nat;
  streakHistory : list Streak;
  details : option Details
}.

Definition empty_result : Result := mkResult 0 0 0 [] None.

(** [Math.round((new Date(curr) - new Date(prev)) / (1000 * 60 * 60 * 24))] *)
Definition diffDays (prev curr : Z) : Z :=
  round_div (day_start curr - day_start prev) msPerDay.

(** The unique dates of the messages, in the order of their strings:
    [[...activeDates].sort()]. *)
Definition sortedDates_of (messages : list Message) : list Z :=
  stable_sort (λ a b, String.leb (iso_date a) (iso_date b))
    (uniq (map (λ msg, utc_day (timestamp msg)) messages)).

(** The loop over the sorted dates from the second on, and the push after
    it: [prev] is [sortedDates[i - 1]]. *)
Fixpoint walk (streaks : list Streak) (currentStreak : nat) (streakStart prev : Z)
  (rest : list Z) : list Streak :=
  match rest with
  | [] => (streaks ++ [mkStreak streakStart prev currentStreak])%list
  | curr :: rest' =>
      if diffDays prev curr =? 1
      then walk streaks (S currentStreak) streakStart curr rest'
      else walk (streaks ++ [mkStreak streakStart prev currentStreak])%list 1 curr curr rest'
  end.

Definition streaks_of (sortedDates : list Z) : list Streak :=
  match sortedDates with
  | [] => []
  | first :: rest => walk [] 1 first first rest
  end.

(** The second loop: the sum and the number of the gaps of more than a day. *)
Definition gaps_of (sortedDates : list Z) : Z * nat :=
  foldl (λ acc pc, if 1 <? diffDays pc.1 pc.2
                   then (acc.1 + diffDays pc.1 pc.2, S acc.2) else acc)
        (0, 0%nat) (adjacent sortedDates).

Section WithHost.
Context `{Host}.

(** [today] and [lastDate] after [setHours(0, 0, 0, 0)], and the rounded
    number of days between them. *)
Definition daysSinceLastMessage (lastDay : Z) : Z :=
  let lastDate := setHours (day_start lastDay) 0 0 0 0 in
  let today := setHours clock 0 0 0 0 in
  round_div (today - lastDate) msPerDay.

Definition analyzeStreaks (messages : list Message) : Result :=
  if (List.length messages =? 0)%nat then empty_result
  else
    let sortedDates := sortedDates_of messages in
    let totalActiveDays := List.length sortedDates in
    match sortedDates, last sortedDates with
    | firstDay :: _, Some lastDay =>
        let streaks := streaks_of sortedDates in
        let longestStreak := max_list (map length streaks) in
        let longestStreakInfo := List.find (λ s, (length s =? longestStreak)%nat) streaks in
        let isStreakActive := daysSinceLastMessage lastDay <=? 1 in
        let currentStreakValue :=
          if isStreakActive then default 0%nat (length <$> last streaks) else 0%nat in
        let '(totalGaps, gapCount) := gaps_of sortedDates in
        let avgGap :=
          if (0 <? gapCount)%nat
          then toFixed1 (div_double totalGaps (Z.of_nat gapCount)) else of_Z 0 in
        let totalSpanDays := diffDays firstDay lastDay + 1 in
        let activeDayPercent :=
          round (mul (div (of_nat totalActiveDays) (of_Z totalSpanDays)) (of_Z 100)) in
        mkResult longestStreak currentStreakValue totalActiveDays
                 (List.filter (λ s, (3 <=? length s)%nat) streaks)
                 (Some (mkDetails longestStreakInfo isStreakActive totalSpanDays
                                  activeDayPercent avgGap))
    | _, _ => empty_result
    end.

End WithHost.
End Streaks.

(** ** messageActivity.js *)

Module MessageActivity.
Import JS.

Inductive BinType : Type := day | week | month.

Record Statistics : Type := mkStatistics {
  totalMessages : nat;
  avgPerBin : num;
  trend : string;
  firstHalfAvg : num;
  secondHalfAvg : num
}.

Record Result : Type := mkResult {
  labels : list string;
  datasets : list (string * list (option nat));
  binType : option BinType;
  statistics : option Statistics
}.

Definition empty_result : Result := mkResult [] [] None None.

(** [String(n).padStart(2, '0')] *)
Definition pad2 (n : Z) : string :=
  let s := pretty n in
  if (js_length s <? 2)%nat then "0" +:+ s else s.

Definition monthNames : list string :=
  ["Jan"; "Feb"; "Mar"; "Apr"; "May"; "Jun"; "Jul"; "Aug"; "Sep"; "Oct"; "Nov"; "Dec"].

(** A part of a split key, or the printed [undefined]. *)
Definition part (parts : list string) (i : nat) : string := prop_key (parts !! i).

Definition formatBinLabel (key : string) (binType : BinType) : string :=
  let parts := split "-" key in
  match binType with
  | month =>
      let name :=
        match parseInt (part parts 1) with
        | Some m => if 1 <=? m then prop_key (monthNames !! Z.to_nat (m - 1)) else "undefined"
        | None => "undefined"
        end in
      name +:+ " " +:+ part parts 0
  | week | day => part parts 2 +:+ "/" +:+ part parts 1
  end.

(** A bin: the counter of each sender and, under the key [total], of all. *)
Definition new_bin (senders : list string) : gmap string nat :=
  <["total" := 0%nat]> (init_object senders 0%nat).

Section WithHost.
Context `{Host}.

Definition getBinKey (date : Z) (binType : BinType) : string :=
  let year := getFullYear date in
  let month := pad2 (getMonth date + 1) in
  let day := pad2 (getDate date) in
  match binType with
  | month => pretty year +:+ "-" +:+ month
  | week =>
      (* setDate(getDate() - getDay()): the same local time, getDay() days back *)
      let weekStart := date - getDay date * msPerDay in
      pretty (getFullYear weekStart) +:+ "-" +:+ pad2 (getMonth weekStart + 1)
        +:+ "-" +:+ pad2 (getDate weekStart)
  | day => pretty year +:+ "-" +:+ month +:+ "-" +:+ day
  end.

(** The body of the loop over the messages. *)
Definition add_message (senders : list string) (binType : BinType)
  (bins : gmap string (gmap string nat)) (msg : Message) : gmap string (gmap string nat) :=
  let binKey := getBinKey (timestamp msg) binType in
  let bin := default (new_bin senders) (bins !! binKey) in
  <[binKey := alter S "total" (alter S (sender msg) bin)]> bins.

Definition total_of (bins : gmap string (gmap string nat)) (key : string) : num :=
  InitiationBalance.number_of (of_nat <$> (bins !! key ≫= λ bin, bin !! "total")).

Definition analyzeMessageActivity (messages : list Message) : Result :=
  match messages, last messages with
  | first :: _, Some final =>
      let startDate := timestamp first in
      let endDate := timestamp final in
      let durationDays := div (of_Z (endDate - startDate)) (of_Z (1000 * 60 * 60 * 24)) in
      let binType :=
        if gt durationDays (of_Z 365) then month
        else if gt durationDays (of_Z 60) then week
        else day in
      let senders := sorted_senders messages in
      let bins := foldl (add_message senders binType) ∅ messages in
      let sortedKeys := sort_strings (map fst (map_to_list bins)) in
      let totalMessages := List.length messages in
      let avgPerBin := div (of_nat totalMessages) (of_nat (List.length sortedKeys)) in
      let firstHalf := slice 0 (List.length sortedKeys / 2) sortedKeys in
      let secondHalf := drop (List.length sortedKeys / 2) sortedKeys in
      let firstHalfTotal := sum_by (total_of bins) firstHalf in
      let secondHalfTotal := sum_by (total_of bins) secondHalf in
      let trend :=
        if gt secondHalfTotal (mul firstHalfTotal (dec 6 5)) then "increasing"
        else if lt secondHalfTotal (mul firstHalfTotal (dec 4 5)) then "decreasing"
        else "stable" in
      mkResult (map (λ key, formatBinLabel key binType) sortedKeys)
               (map (λ sender, (sender, map (λ key, bins !! key ≫= λ bin, bin !! sender)
                                            sortedKeys)) senders)
               (Some binType)
               (Some (mkStatistics totalMessages (round_to 10 avgPerBin) trend
                        (div (round (mul (div firstHalfTotal (of_nat (List.length firstHalf)))
                                         (of_Z 10))) (of_Z 10))
                        (div (round (mul (div secondHalfTotal (of_nat (List.length secondHalf)))
                                         (of_Z 10))) (of_Z 10))))
  | _, _ => empty_result
  end.

End WithHost.
End MessageActivity.

(** ** conversationRhythm.js *)

Module Rhythm.
Import JS.

Record Phase : Type := mkPhase {
  messageCount : nat;
  phaseAvgGapMinutes : num;
  senderCounts : gmap string nat
}.

Record Details : Type := mkDetails {
  avgGapMinutes : num;
  medianGapMinutes : num;
  variabilityCoefficient : num;
  firstPhaseAvgGap : num;
  lastPhaseAvgGap : num;
  phases : list (string * Phase)
}.

(** [details] is [None] for the empty object. *)
Record Result : Type := mkResult {
  rhythm : string;
  confidence : num;
  details : option Details
}.

Definition insufficient : Result := mkResult "insufficient_data" (of_Z 0) None.

(** The gaps between consecutive messages, in minutes. *)
Definition gaps_of (messages : list Message) : list num :=
  map (λ pc : Message * Message,
         div (of_Z (timestamp pc.2 - timestamp pc.1)) (of_Z (1000 * 60)))
      (adjacent messages).

Definition mean (l : list num) : num := div (sum_by id l) (of_nat (length l)).

Definition analyzePhases (messages : list Message) : list (string * Phase) :=
  let thirdLength := (length messages / 3)%nat in
  imap (λ index phase,
          let start := (index * thirdLength)%nat in
          let stop := if (index =? 2)%nat then length messages
                      else ((index + 1) * thirdLength)%nat in
          let phaseMessages := slice start stop messages in
          let gaps := gaps_of phaseMessages in
          let avgGap := if (0 <? length gaps)%nat then mean gaps else of_Z 0 in
          let senders := uniq (map sender phaseMessages) in
          let senderCounts : gmap string nat :=
            foldl (λ obj s,
                     <[s := length (List.filter (λ m, String.eqb (sender m) s) phaseMessages)]> obj)
                  ∅ senders in
          (phase, mkPhase (length phaseMessages) (round_to 10 avgGap) senderCounts))
       ["early"; "middle"; "late"].

Section WithHost.
Context `{Host}.

Definition analyzeConversationRhythm (messages : list Message) : Result :=
  if (length messages <? 5)%nat then insufficient
  else
    let gaps := gaps_of messages in
    let avgGap := mean gaps in
    let sortedGaps := sort_with sub gaps in
    let medianGap := InitiationBalance.number_of (sortedGaps !! (length sortedGaps / 2)%nat) in
    let variance :=
      div (sum_by (λ g, mul (sub g avgGap) (sub g avgGap)) gaps) (of_nat (length gaps)) in
    let stdDev := sqrt variance in
    let cv := div stdDev avgGap in
    let thirdLength := (length gaps / 3)%nat in
    let firstThird := slice 0 thirdLength gaps in
    let lastThird := slice_last thirdLength gaps in
    let firstThirdAvg := mean firstThird in
    let lastThirdAvg := mean lastThird in
    let '(rhythm, confidence) :=
      if gt lastThirdAvg (mul firstThirdAvg (of_Z 2)) then
        ("slowing", min (dec 9 10) (div (sub (div lastThirdAvg firstThirdAvg) (of_Z 1)) (of_Z 3)))
      else if gt cv (dec 3 2) then
        ("irregular", min (dec 9 10) (div (sub cv (of_Z 1)) (of_Z 2)))
      else if lt lastThirdAvg (mul firstThirdAvg (dec 1 2)) then
        ("accelerating", min (dec 9 10) (sub (of_Z 1) (div lastThirdAvg firstThirdAvg)))
      else if lt cv (dec 4 5) then
        ("stable", min (dec 9 10) (sub (of_Z 1) cv))
      else ("variable", dec 1 2) in
    let phases := analyzePhases messages in
    mkResult rhythm (round_to 100 confidence)
             (Some (mkDetails (round_to 10 avgGap) (round_to 10 medianGap)
                              (round_to 100 cv) (round_to 10 firstThirdAvg)
                              (round_to 10 lastThirdAvg) phases)).

End WithHost.
End Rhythm.

(** ** lexicalDiversity.js *)

Module LexicalDiversity.
Import JS.

Record SenderStat : Type := mkSenderStat { ttr : num; totalWords : nat; uniqueWords : nat }.

Record Period : Type := mkPeriod {
  label : string;
  period_ttr : num;
  senderTTR : gmap string num
}.

Record Statistics : Type := mkStatistics {
  overallTTR : num;
  trend : string;
  firstHalfAvg : num;
  secondHalfAvg : num;
  senderStats : gmap string SenderStat
}.

Record Result : Type := mkResult {
  labels : list string;
  datasets : list (list num);
  statistics : option Statistics
}.

Definition empty_result : Result := mkResult [] [] None.

(** [s.split(/\s+/)]: the pieces between the runs of white space. *)
Fixpoint split_spaces (cur : list ascii) (in_sep : bool) (l : list ascii) : list string :=
  match l with
  | [] => [str (rev cur)]
  | c :: l' =>
      if is_space c then
        if in_sep then split_spaces [] true l' else str (rev cur) :: split_spaces [] true l'
      else split_spaces (c :: cur) false l'
  end.

(** A white-space character outside ASCII is kept by the [replace] and
    separates words in the [split]; here its bytes are replaced by spaces and
    separate the same words. *)
Definition extractWords (text : string) : list string :=
  List.filter (λ word, (1 <? js_length word)%nat)
    (split_spaces [] false
       (chars (replace_all (λ c, negb (is_word c || is_space c)) " " (toLowerCase text)))).

Definition words_of (messages : list Message) : list string :=
  messages ≫= λ msg, extractWords (text msg).

Definition calculateTTR (messages : list Message) : num :=
  if (length messages =? 0)%nat then of_Z 0
  else
    let allWords := words_of messages in
    let uniqueWords := uniq allWords in
    if (length allWords =? 0)%nat then of_Z 0
    else div (of_nat (length uniqueWords)) (of_nat (length allWords)).

Definition countWords (messages : list Message) : nat := length (words_of messages).
Definition countUniqueWords (messages : list Message) : nat := length (uniq (words_of messages)).

Definition by_sender (sender0 : string) (messages : list Message) : list Message :=
  List.filter (λ m, String.eqb (sender m) sender0) messages.

Definition period_of (messages : list Message) (senders : list string)
  (periodSize i : nat) : option Period :=
  let start := (i * periodSize)%nat in
  let stop := Nat.min ((i + 1) * periodSize) (length messages) in
  let periodMessages := slice start stop messages in
  if (0 <? length periodMessages)%nat then
    Some (mkPeriod ("Period " +:+ pretty (i + 1)%nat)
                   (calculateTTR periodMessages)
                   (foldl (λ obj s, <[s := calculateTTR (by_sender s periodMessages)]> obj)
                          ∅ senders))
  else None.

Definition analyzeLexicalDiversity (messages : list Message) : Result :=
  if (length messages <? 10)%nat then empty_result
  else
    let senders := sorted_senders messages in
    let numPeriods := Nat.min 10 (Nat.max 4 (length messages / 20)) in
    let periodSize := ResponseTiming.ceil_div (length messages) numPeriods in
    let periods := omap (period_of messages senders periodSize) (seq 0 numPeriods) in
    let firstHalf := slice 0 (length periods / 2) periods in
    let secondHalf := drop (length periods / 2) periods in
    let firstHalfAvg := div (sum_by period_ttr firstHalf) (of_nat (length firstHalf)) in
    let secondHalfAvg := div (sum_by period_ttr secondHalf) (of_nat (length secondHalf)) in
    let trend :=
      if gt secondHalfAvg (mul firstHalfAvg (dec 11 10)) then "increasing"
      else if lt secondHalfAvg (mul firstHalfAvg (dec 9 10)) then "decreasing"
      else "stable" in
    let senderStats : gmap string SenderStat :=
      foldl (λ obj s,
               let senderMessages := by_sender s messages in
               <[s := mkSenderStat (round_to 100 (calculateTTR senderMessages))
                                   (countWords senderMessages)
                                   (countUniqueWords senderMessages)]> obj)
            ∅ senders in
    mkResult (map label periods)
             [map (λ p, round_to 100 (period_ttr p)) periods]
             (Some (mkStatistics (round_to 100 (calculateTTR messages)) trend
                                 (round_to 100 firstHalfAvg) (round_to 100 secondHalfAvg)
                                 senderStats)).

End LexicalDiversity.

(** ** zipHandler.js and the ZIP import of app.js *)

Module Zip.
Import JS.

(** A file of the archive, as [extractZip] hands it over. *)
Record Entry : Type := mkEntry { name : string; content : string }.

(** [s.endsWith(suffix)] *)
Definition endsWith (s suffix : string) : bool :=
  starts_with (rev (chars suffix)) (rev (chars s)).

Definition getFileType (filename : string) : Router.FileType :=
  let lower := toLowerCase filename in
  if endsWith lower ".html" || endsWith lower ".htm" then Router.telegram
  else if endsWith lower ".csv" then Router.csv
  else if endsWith lower ".txt" then Router.whatsapp
  else Router.unknown.

Definition is_type (t : Router.FileType) (f : Entry) : bool :=
  match getFileType (name f), t with
  | Router.telegram, Router.telegram | Router.csv, Router.csv
  | Router.whatsapp, Router.whatsapp | Router.unknown, Router.unknown => true
  | _, _ => false
  end.

Definition no_files : string := "No supported files found in ZIP archive".
Definition no_telegram_messages : string :=
  "No messages found in Telegram export. The HTML format might not be recognized.".

(** [files.map(f => parse(f))] where a call may throw: the results, or the
    first error. *)
Fixpoint map_results {A B} (f : A -> result B) (l : list A) : result (list B) :=
  match l with
  | [] => Ok []
  | x :: l' =>
      match f x with
      | Throw e => Throw e
      | Ok y =>
          match map_results f l' with
          | Throw e => Throw e
          | Ok ys => Ok (y :: ys)
          end
      end
  end.

(** [waFiles.reduce((a, b) => a.content.length > b.content.length ? a : b)] *)
Definition largest (first : Entry) (rest : list Entry) : Entry :=
  foldl (λ a b, if (js_length (content b) <? js_length (content a))%nat then a else b)
        first rest.

(** [handleZipFile] after [extractZip]: on the extracted files. *)
Definition handleZipFile `{Host} (extractedFiles : list Entry) : result Router.Parsed :=
  match extractedFiles with
  | [] => Throw no_files
  | firstFile :: _ =>
      if existsb (is_type Router.telegram) extractedFiles then
        let telegramFiles := List.filter (is_type Router.telegram) extractedFiles in
        match map_results (λ f, Telegram.parseTelegramExport (content f)) telegramFiles with
        | Throw e => Throw e
        | Ok results =>
            let merged := Telegram.mergeTelegramResults (map Some results) in
            if (length (messages merged) =? 0)%nat then Throw no_telegram_messages
            else Ok (Router.WithIsoStrings merged)
        end
      else if existsb (is_type Router.whatsapp) extractedFiles then
        match List.filter (is_type Router.whatsapp) extractedFiles with
        | [only] => Router.parseFile (content only) (name only)
        | first :: rest =>
            let big := largest first rest in
            Router.parseFile (content big) (name big)
        | [] => Throw no_files
        end
      else if existsb (is_type Router.csv) extractedFiles then
        match List.find (is_type Router.csv) extractedFiles with
        | Some csvFile => Router.parseFile (content csvFile) (name csvFile)
        | None => Throw no_files
        end
      else Router.parseFile (content firstFile) (name firstFile)
  end.

End Zip.

(** ** What the specification says, as definitions

    Each follows the words of the specification, to be compared with the
    code above. *)

Module Spec.
Import JS.

(** A list is in time order: each time stamp is at most the next. *)
Definition chronological {A} (key : A -> Z) (l : list A) : Prop :=
  Sorted (λ a b, key a <= key b) l.

(** A reordering [l'] of [l] keeps parse order among equal time stamps. *)
Definition keeps_ties {A} (key : A -> Z) (l l' : list A) : Prop :=
  ∀ t, List.filter (λ a, key a =? t) l' = List.filter (λ a, key a =? t) l.

(** The order of a sort by a key. *)
Definition by_key {A} (key : A -> Z) (a b : A) : bool := key a <=? key b.

(** The time value of a [Date] that is valid. *)
Definition time_of (d : Date) : Z :=
  match d with DateMs t => t | InvalidDate => 0 end.

Definition valid (d : Date) : Prop := ∃ t, d = DateMs t.

(** A response event: the sender changes and the latency, the time between
    the two messages, is at least 0 and at most 1440 minutes. *)
Definition response_event (pc : Message * Message) : bool :=
  bool_decide (sender pc.2 ≠ sender pc.1)
  && (0 <=? timestamp pc.2 - timestamp pc.1)
  && (timestamp pc.2 - timestamp pc.1 <=? 1440 * 60000).

(** The latency of a pair in minutes. *)
Definition latency (pc : Message * Message) : Q :=
  (timestamp pc.2 - timestamp pc.1) # 60000.

(** The response recorded for a pair: its latency, at the time of the answer. *)
Definition response_of (pc : Message * Message) : ResponseTiming.Response :=
  ResponseTiming.mkResponse (Fin (Qred (latency pc))) (timestamp pc.2).

(** Message [i] initiates a conversation: it is the very first message, or
    the gap since message [i - 1] is at least 4 hours. *)
Definition initiates (messages : list Message) (i : nat) : bool :=
  match i with
  | O => true
  | S j =>
      match messages !! j, messages !! i with
      | Some previous, Some current =>
          4 * 3600000 <=? timestamp current - timestamp previous
      | _, _ => false
      end
  end.

(** A pair of consecutive messages whose second starts a conversation of
    sender [s]. *)
Definition counts_for (s : string) (pc : Message * Message) : bool :=
  (InitiationBalance.gapThreshold <=? timestamp pc.2 - timestamp pc.1)
  && String.eqb (sender pc.2) s.

(** The number of initiations of a sender. *)
Definition initiation_count (messages : list Message) (s : string) : nat :=
  length (List.filter
            (λ i, initiates messages i
                  && bool_decide (sender <$> messages !! i = Some s))
            (seq 0 (length messages))).

(** The days of a streak: [length] consecutive days from [start]. *)
Definition days_of (s : Streaks.Streak) : list Z :=
  map (λ i : nat, Streaks.start s + Z.of_nat i) (seq 0 (Streaks.length s)).

(** A streak that is a run of consecutive days, and two streaks more than
    a day apart. *)
Definition is_run (s : Streaks.Streak) : Prop :=
  Streaks.stop s = Streaks.start s + Z.of_nat (Streaks.length s) - 1
  ∧ (1 <= Streaks.length s)%nat.

(** The lines of a CSV file that are not blank. *)
Definition csv_lines (content : string) : list string :=
  List.filter (λ line, JS.truthy (JS.trim line)) (JS.split "010" content).

(** The header names the three columns, none of them the first. *)
Definition header_accepted (line0 : string) : bool :=
  let columnMap := CSV.mapColumns (CSV.parseCSVLine line0) in
  negb (CSV.falsy_index (CSV.col_timestamp columnMap)
        || CSV.falsy_index (CSV.col_sender columnMap)
        || CSV.falsy_index (CSV.col_message columnMap)).

(** The messages the rows under a header give. *)
Definition row_messages `{Host} (line0 : string) (rows : list string) : list (Msg JS.Date) :=
  omap (CSV.row_message (CSV.mapColumns (CSV.parseCSVLine line0))) rows.

(** Two streaks in a row are not one day apart: the walk closed the first. *)
Definition separate (pc : Streaks.Streak * Streaks.Streak) : Prop :=
  Streaks.start pc.2 - Streaks.stop pc.1 ≠ 1.




(** The chat names of the files that are not the default, in file order. *)
Definition named (results : list (option (ParsedResult Z))) : list string :=
  omap (λ r : option (ParsedResult Z),
          name ← r ≫= λ r, chatName (metadata r);
          if truthy name && negb (String.eqb name Telegram.default_chat_name)
          then Some name else None)
       results.

(** "The first non-default chat name encountered", and the last. *)
Definition first_named (results : list (option (ParsedResult Z))) : string :=
  default Telegram.default_chat_name (head (named results)).
Definition last_named (results : list (option (ParsedResult Z))) : string :=
  default Telegram.default_chat_name (last (named results)).

(** All the messages of the files. *)
Definition all_messages (results : list (option (ParsedResult Z))) : list Message :=
  results ≫= λ r, match r with Some r => messages r | None => [] end.

Definition all_participants (results : list (option (ParsedResult Z))) : list string :=
  results ≫= λ r, match r with Some r => participants (metadata r) | None => [] end.

End Spec.

(** ** Concrete hosts and inputs *)

Module Examples.
Import JS.

Definition div_ (class : string) (children : list Node) : Node :=
  Element "div" [("class", class)] children.
Definition span_ (class : string) (data : string) : Node :=
  Element "span" [("class", class)] [Text data].

(** A Telegram page without history container, a later day first:
    two date headers and two messages. *)
Definition alt_html : string :=
  "<html><body>" +:+
  "<div>3 August 2025</div>" +:+
  "<div class=m><span class=from_name>Alice</span><span class=text>hi</span></div>" +:+
  "<div>1 August 2025</div>" +:+
  "<div class=m><span class=from_name>Bob</span><span class=text>yo</span></div>" +:+
  "</body></html>".

Definition alt_doc : Node :=
  Element "html" []
    [Element "body" []
       [Element "div" [] [Text "3 August 2025"];
        div_ "m" [span_ "from_name" "Alice"; span_ "text" "hi"];
        Element "div" [] [Text "1 August 2025"];
        div_ "m" [span_ "from_name" "Bob"; span_ "text" "yo"]]].

(** A Telegram page whose history container holds no message. *)
Definition empty_html : string :=
  "<html><body><div class=page_wrap><div class=history></div></div></body></html>".

Definition empty_doc : Node :=
  Element "html" [] [Element "body" [] [div_ "page_wrap" [div_ "history" []]]].

(** A Telegram page with two messages in its history container, the
    second joined to the first: no sender of its own. *)
Definition history_html : string :=
  "<html><body><div class=history>" +:+
  "<div class='message default'><span class=from_name>Alice</span><span class=text>hi</span></div>" +:+
  "<div class='message default'><span class=text>again</span></div>" +:+
  "</div></body></html>".

Definition history_doc : Node :=
  Element "html" []
    [Element "body" []
       [div_ "history"
          [div_ "message default" [span_ "from_name" "Alice"; span_ "text" "hi"];
           div_ "message default" [span_ "text" "again"]]]].

(** A host in UTC, reading the clock at [now]; its HTML parser knows the
    pages above. *)
Definition host_at (now : Z) : Host := {|
  LocalTZA := 0;
  clock := now;
  Date_parse := λ _, InvalidDate;
  parseFromString := λ content,
    if String.eqb content alt_html then alt_doc
    else if String.eqb content empty_html then empty_doc
    else if String.eqb content history_html then history_doc
    else Text content;
  sqrtQ := λ q, q
|}.

(** A host whose date parser reads two ISO time stamps, and a CSV file
    of two rows, the later one first. *)
Definition iso_host : Host := {|
  LocalTZA := 0;
  clock := 0;
  Date_parse := λ s,
    if String.eqb s "2024-01-01T10:00:00Z" then DateMs (utc 2024 1 1 10 0)
    else if String.eqb s "2024-01-01T09:00:00Z" then DateMs (utc 2024 1 1 9 0)
    else InvalidDate;
  parseFromString := Text;
  sqrtQ := λ q, q
|}.

Definition csv_file : string :=
  "id,date,from,text" +:+ nl +:+ "1,2024-01-01T10:00:00Z,Al,hi" +:+ nl
  +:+ "2,2024-01-01T09:00:00Z,Bo,yo".

(** Files that are recognised and hold no valid message: a WhatsApp export
    of one media line, a CSV file whose one row has no sender. *)
Definition media_only : string := "1/1/24, 10:00 AM - Alice: <Media omitted>".
Definition no_sender_csv : string :=
  "id,timestamp,sender,message" +:+ nl +:+ "1,2024-01-01 10:00,,hi".

(** Lines with white space outside ASCII: a header with U+202F before PM, and
    a line of U+00A0 alone. *)
Definition narrow_space : string := String "226" (String "128" (String "175" "")).
Definition nbsp_line : string := String "194" (String "160" "").
Definition narrow_lines : list string :=
  [ "1/1/24, 10:00 AM - Alice: hello";
    nbsp_line;
    "1/1/24, 10:05" +:+ narrow_space +:+ "PM - Bob: hi" ].

Definition hour : Z := 3600000.

(** Messages at t = 0 from A, t = 1h from B, t = 10h from A. *)
Definition three_messages : list Message :=
  [mkMsg 0 "A" "hi"; mkMsg (1 * hour) "B" "hello"; mkMsg (10 * hour) "A" "again"].

(** Messages on 2024-01-01, -02, -03 and -10. *)
Definition four_days : list Message :=
  [mkMsg (utc 2024 1 1 10 0) "A" "one"; mkMsg (utc 2024 1 2 9 30) "B" "two";
   mkMsg (utc 2024 1 2 21 0) "A" "two again"; mkMsg (utc 2024 1 3 23 59) "B" "three";
   mkMsg (utc 2024 1 10 0 0) "A" "ten"].

(** Two messages of one participant. *)
Definition one_participant : list Message :=
  [mkMsg 0 "A" "hi"; mkMsg (1 * hour) "A" "anyone?"].

Definition file (name : option string) (ms : list Message) (ps : list string)
  : option (ParsedResult Z) :=
  Some (mkParsed ms (mkMetadata (Some "telegram") (length ms) ps name (Telegram.range_of ms))).

(** Two files of an export under two chat names. *)
Definition two_files : list (option (ParsedResult Z)) :=
  [file (Some "Family") [mkMsg 20 "A" "b"] ["A"];
   file (Some "Work") [mkMsg 10 "B" "a"] ["B"]].

(** A WhatsApp export of three lines: a message, its second line, a message. *)
Definition wa_lines : list string :=
  ["1/1/24, 10:00 AM - Alice: hello"; "second line"; "1/1/24, 10:05 AM - Bob: hi"].

End Examples.

(** * Theorems *)

(** ** The sort *)

Module SortFacts.
Import JS.

Section Sorting.
Context {A : Type}.
Implicit Types (le : A -> A -> bool) (l : list A).

Lemma insert_by_perm le x l : insert_by le x l ≡ₚ x :: l.
Proof.
  induction l as [|y l IH]; simpl; [done|].
  destruct (le x y); [done|].
  rewrite IH. apply Permutation_swap.
Qed.

Lemma stable_sort_perm le l : stable_sort le l ≡ₚ l.
Proof.
  induction l as [|x l IH]; simpl; [done|].
  unfold stable_sort in *. simpl. rewrite insert_by_perm. by rewrite IH.
Qed.

Lemma stable_sort_length le l : length (stable_sort le l) = length l.
Proof. by rewrite stable_sort_perm. Qed.

Lemma stable_sort_nil le l : stable_sort le l = [] ↔ l = [].
Proof.
  split; [|by intros ->].
  intros E. apply Permutation_nil_r. by rewrite <- E, stable_sort_perm.
Qed.

Lemma insert_by_ext le le' x l :
  (∀ b, b ∈ l → le x b = le' x b) → insert_by le x l = insert_by le' x l.
Proof.
  induction l as [|y l IH]; intros E; simpl; [done|].
  rewrite (E y) by set_solver. rewrite IH; [done|]. intros; apply E. set_solver.
Qed.

(** Two orders that agree on the elements of a list sort it alike. *)
Lemma stable_sort_ext le le' l :
  (∀ a b, a ∈ l → b ∈ l → le a b = le' a b) →
  stable_sort le l = stable_sort le' l.
Proof.
  induction l as [|x l IH]; intros E; [done|].
  unfold stable_sort in *. simpl. rewrite IH by (intros; apply E; set_solver).
  apply insert_by_ext. intros b Hb. apply E; [set_solver|].
  apply elem_of_cons. right.
  change (foldr (insert_by le') [] l) with (stable_sort le' l) in Hb.
  by rewrite stable_sort_perm in Hb.
Qed.



End Sorting.

Section ByKey.
Context {A : Type} (key : A -> Z).

Lemma insert_by_key_sorted x l :
  Spec.chronological key l → Spec.chronological key (insert_by (Spec.by_key key) x l).
Proof.
  unfold Spec.chronological.
  induction l as [|y l IH]; intros Hs; simpl.
  - repeat constructor.
  - unfold Spec.by_key at 1. destruct (Z.leb_spec (key x) (key y)).
    + constructor; [done|]. by constructor.
    + inversion Hs as [|? ? Hs' Hhd]; subst.
      constructor; [by apply IH|].
      destruct l as [|z l]; simpl.
      * constructor. lia.
      * unfold Spec.by_key. destruct (Z.leb_spec (key x) (key z)).
        -- constructor. lia.
        -- constructor. by inversion Hhd.
Qed.

(** The sorted list is in time order. *)
Lemma stable_sort_sorted l : Spec.chronological key (stable_sort (Spec.by_key key) l).
Proof.
  induction l as [|x l IH]; [constructor|].
  apply insert_by_key_sorted, IH.
Qed.

Lemma insert_by_key_filter t x l :
  List.filter (λ a, key a =? t) (insert_by (Spec.by_key key) x l)
  = List.filter (λ a, key a =? t) (x :: l).
Proof.
  induction l as [|y l IH]; [done|].
  simpl insert_by. unfold Spec.by_key at 1. destruct (Z.leb_spec (key x) (key y)); [done|].
  simpl in *. rewrite IH.
  destruct (Z.eqb_spec (key x) t), (Z.eqb_spec (key y) t); try done. lia.
Qed.

(** The sort is stable: messages of one time stamp keep their order. *)
Lemma stable_sort_keeps_ties l : Spec.keeps_ties key l (stable_sort (Spec.by_key key) l).
Proof.
  intros t. induction l as [|x l IH]; [done|].
  unfold stable_sort in *. simpl foldr. rewrite insert_by_key_filter.
  simpl. by rewrite IH.
Qed.

End ByKey.

(** The comparator [(a, b) => a - b] on time values orders by [<=]. *)
Lemma cmp_le_of_Z (x y : Z) : negb (gt (of_Z (x - y)) (of_Z 0)) = (x <=? y).
Proof.
  unfold gt, of_Z, Qle_bool. simpl. rewrite negb_involutive.
  destruct (Z.leb_spec ((x - y) * 1) 0), (Z.leb_spec x y); lia.
Qed.

Lemma sort_with_key {A} (key : A -> Z) (l : list A) :
  sort_with (λ a b, of_Z (key a - key b)) l = stable_sort (Spec.by_key key) l.
Proof.
  apply stable_sort_ext. intros a b _ _. apply cmp_le_of_Z.
Qed.

(** On valid dates the comparator [(a, b) => a.timestamp - b.timestamp]
    orders by time value. *)
Lemma sort_with_by_date (l : list (Msg Date)) :
  Forall (λ m, Spec.valid (timestamp m)) l →
  sort_with WhatsApp.by_date l = stable_sort (Spec.by_key (λ m, Spec.time_of (timestamp m))) l.
Proof.
  intros Hv. apply stable_sort_ext. intros a b Ha Hb.
  rewrite Forall_forall in Hv.
  destruct (Hv a Ha) as [ta Ea], (Hv b Hb) as [tb Eb].
  unfold cmp_le, WhatsApp.by_date, Spec.by_key. rewrite Ea, Eb. simpl.
  apply cmp_le_of_Z.
Qed.

End SortFacts.

(** ** The parsers: order of the messages *)

Module ParserOrder.
Import JS SortFacts.

Section WithHost.
Context `{Host}.

(** [parseWhatsApp] returns the collected messages in time order, equal
    time stamps in parse order, when the dates are valid. *)
Lemma parseWhatsApp_sorted content r :
  WhatsApp.parseWhatsApp content = Ok r →
  Forall (λ m, Spec.valid (timestamp m)) (messages r) →
  Spec.chronological (λ m, Spec.time_of (timestamp m)) (messages r)
  ∧ Spec.keeps_ties (λ m, Spec.time_of (timestamp m))
      (WhatsApp.collect (split "010" content)) (messages r).
Proof.
  unfold WhatsApp.parseWhatsApp. case_match; [done|].
  intros [= <-]; simpl. intros Hv.
  assert (Forall (λ m, Spec.valid (timestamp m)) (WhatsApp.collect (split "010" content))) as Hv'.
  { revert Hv. unfold sort_with. by rewrite stable_sort_perm. }
  rewrite sort_with_by_date by done.
  split; [apply stable_sort_sorted | apply stable_sort_keeps_ties].
Qed.



End WithHost.

(** The merged messages are in time order, equal time stamps in the order
    of the files. *)
Lemma mergeTelegramResults_sorted results :
  let merged := messages (Telegram.mergeTelegramResults results) in
  Spec.chronological timestamp merged
  ∧ Spec.keeps_ties timestamp
      (Telegram.allMessages
         (foldl Telegram.merge_step (Telegram.mkMerge [] [] Telegram.default_chat_name) results))
      merged.
Proof.
  simpl. unfold Telegram.by_iso. rewrite (sort_with_key timestamp).
  split; [apply stable_sort_sorted | apply stable_sort_keeps_ties].
Qed.

End ParserOrder.

(** ** C1 *)

(** C1.  The claim: every parser returns its messages in time order.  It
    fails on the path [parseTelegramExport] takes for a page without history
    container: [parseAlternativeFormat] returns the messages in document
    order, without the sort of the other paths.  On the page of
    [Examples.alt_html] the message of 3 August 2025 comes before the one of
    1 August 2025. *)
Theorem alternative_format_not_sorted :
  let host := Examples.host_at 0 in
  Router.detectFileType Examples.alt_html "messages.html" = Router.telegram
  ∧ ∃ r, Router.parseFile Examples.alt_html "messages.html" = Ok (Router.WithIsoStrings r)
       ∧ messages r = [mkMsg (JS.utc 2025 8 3 0 0) "Alice" "hi";
                       mkMsg (JS.utc 2025 8 1 0 0) "Bob" "yo"]
       ∧ ¬ Spec.chronological timestamp (messages r).
Proof.
  split; [by vm_compute|].
  eexists. split; [by vm_compute|]. split; [done|].
  unfold Spec.chronological. simpl. intros Hs.
  inversion Hs as [|? ? _ Hhd]; subst. inversion Hhd as [|? ? Hle]; subst.
  vm_compute in Hle. by apply Hle.
Qed.

(** ** Senders and objects *)

Module ObjectFacts.
Import JS SortFacts.

Lemma uniq_elem_of `{EqDecision A} (x : A) (l : list A) : x ∈ uniq l ↔ x ∈ l.
Proof.
  induction l as [|y l IH]; simpl; [done|].
  rewrite !elem_of_cons, list_elem_of_filter, IH.
  destruct (decide (x = y)); intuition.
Qed.

Lemma uniq_NoDup `{EqDecision A} (l : list A) : NoDup (uniq l).
Proof.
  induction l as [|y l IH]; simpl; constructor.
  - rewrite list_elem_of_filter. by intros [? _].
  - by apply NoDup_filter.
Qed.

Lemma filter_length_eq {A} (P : A → Prop) `{!∀ x, Decision (P x)} (l : list A) :
  length (filter P l) = length l → Forall P l.
Proof.
  induction l as [|x l IH]; [constructor|].
  rewrite filter_cons. pose proof (length_filter P l).
  destruct (decide (P x)); simpl; intros Hl; [|lia].
  constructor; [done|]. apply IH. lia.
Qed.

Lemma filter_Forall_id {A} (P : A → Prop) `{!∀ x, Decision (P x)} (l : list A) :
  Forall P l → filter P l = l.
Proof.
  induction 1 as [|x l Hx Hl IH]; [done|].
  rewrite filter_cons. destruct (decide (P x)); [by f_equal|done].
Qed.

Lemma uniq_length_le `{EqDecision A} (l : list A) : (length (uniq l) <= length l)%nat.
Proof.
  induction l as [|x l IH]; [done|]. cbn [uniq length].
  pose proof (length_filter (λ y, y ≠ x) (uniq l)). lia.
Qed.

(** A list has as many distinct elements as elements exactly when no
    element comes twice. *)
Lemma uniq_length_NoDup `{EqDecision A} (l : list A) :
  length (uniq l) = length l ↔ NoDup l.
Proof.
  induction l as [|x l IH]; [split; [constructor|done]|].
  cbn [uniq length]. pose proof (length_filter (λ y, y ≠ x) (uniq l)) as Hf.
  pose proof (uniq_length_le l) as Hu. split.
  - intros Hl. constructor.
    + assert (length (filter (λ y, y ≠ x) (uniq l)) = length (uniq l)) as Hfe by lia.
      apply filter_length_eq in Hfe. intros Hin. apply uniq_elem_of in Hin.
      rewrite Forall_forall in Hfe. by apply (Hfe x).
    + apply IH. lia.
  - intros Hnd. apply NoDup_cons in Hnd as [Hx Hnd]. f_equal.
    apply IH in Hnd. rewrite <- Hnd. f_equal. apply filter_Forall_id.
    apply Forall_forall. intros y Hy ->. by apply Hx, uniq_elem_of.
Qed.

Lemma sorted_senders_elem_of messages s :
  s ∈ sorted_senders messages ↔ s ∈ map sender messages.
Proof.
  unfold sorted_senders, sort_strings. by rewrite stable_sort_perm, uniq_elem_of.
Qed.

Lemma sorted_senders_NoDup messages : NoDup (sorted_senders messages).
Proof.
  unfold sorted_senders, sort_strings. rewrite stable_sort_perm. apply uniq_NoDup.
Qed.

Lemma init_object_lookup {V} (senders : list string) (v : V) s :
  init_object senders v !! s = if decide (s ∈ senders) then Some v else None.
Proof.
  unfold init_object.
  induction senders as [|x senders IH] using rev_ind.
  - simpl. by rewrite lookup_empty.
  - rewrite foldl_app. simpl. destruct (decide (x = s)) as [->|Hne].
    + rewrite lookup_insert_eq.
      destruct (decide (s ∈ senders ++ [s])) as [|Hn]; [done|].
      exfalso. apply Hn, elem_of_app. right. apply list_elem_of_here.
    + rewrite lookup_insert_ne, IH by done.
      destruct (decide (s ∈ senders)) as [Hs|Hs], (decide (s ∈ senders ++ [x])) as [Hs'|Hs'];
        try done.
      * exfalso. apply Hs', elem_of_app. by left.
      * exfalso. apply elem_of_app in Hs' as [?|Hs']; [done|].
        apply list_elem_of_singleton in Hs'. by subst.
Qed.

Lemma init_numbers_lookup {V} (senders : list string) (v : V) s :
  s ≠ proto →
  init_numbers senders v !! s = if decide (s ∈ senders) then Some v else None.
Proof.
  intros Hp. unfold init_numbers.
  induction senders as [|x senders IH] using rev_ind.
  - simpl. by rewrite lookup_empty.
  - rewrite foldl_app. simpl. unfold set_number at 1.
    assert ((if decide (s ∈ senders ++ [x]) then Some v else None)
            = if decide (x = s) then Some v
              else if decide (s ∈ senders) then Some v else None) as ->.
    { destruct (decide (x = s)) as [->|Hne].
      - destruct (decide (s ∈ senders ++ [s])) as [|Hn]; [done|].
        exfalso. apply Hn, elem_of_app. right. apply list_elem_of_here.
      - destruct (decide (s ∈ senders)) as [Hs|Hs], (decide (s ∈ senders ++ [x])) as [Hs'|Hs'];
          try done.
        + exfalso. apply Hs', elem_of_app. by left.
        + exfalso. apply elem_of_app in Hs' as [?|Hs']; [done|].
          apply list_elem_of_singleton in Hs'. by subst. }
    destruct (String.eqb_spec x proto) as [->|Hx].
    + rewrite IH. by destruct (decide (proto = s)) as [<-|].
    + destruct (decide (x = s)) as [->|Hne].
      * by rewrite lookup_insert_eq.
      * by rewrite lookup_insert_ne.
Qed.

(** Under [proto] the object keeps nothing. *)
Lemma init_numbers_proto {V} (senders : list string) (v : V) :
  init_numbers senders v !! proto = None.
Proof.
  unfold init_numbers.
  induction senders as [|x senders IH] using rev_ind.
  - simpl. by rewrite lookup_empty.
  - rewrite foldl_app. simpl. unfold set_number at 1.
    destruct (String.eqb_spec x proto) as [->|Hx]; [done|].
    by rewrite lookup_insert_ne.
Qed.

Lemma adjacent_snd {A} (l : list A) (pc : A * A) : pc ∈ adjacent l → pc.2 ∈ l.
Proof.
  unfold adjacent. destruct pc as [p c]. intros Hin.
  apply elem_of_zip_r in Hin. destruct l; [set_solver|]. simpl in *. set_solver.
Qed.

(** The buckets of a list by a key, taken in the order of a duplicate-free
    list of all the keys, hold the elements of the list. *)
Lemma buckets_perm {A} (key : A -> string) (keys : list string) (l : list A) :
  NoDup keys → (∀ x, x ∈ l → key x ∈ keys) →
  (keys ≫= λ k, List.filter (λ x, String.eqb (key x) k) l) ≡ₚ l.
Proof.
  intros Hnd. revert l. induction Hnd as [|k keys Hk Hnd IH]; intros l Hin.
  - destruct l as [|x l]; [done|]. specialize (Hin x (list_elem_of_here _ _)).
    by apply not_elem_of_nil in Hin.
  - rewrite bind_cons.
    rewrite (Forall_bind_ext _
               (λ k', List.filter (λ x, String.eqb (key x) k')
                        (List.filter (λ x, negb (String.eqb (key x) k)) l))).
    + rewrite IH.
      * clear. induction l as [|x l IHl]; [done|]. simpl.
        destruct (String.eqb (key x) k); simpl.
        -- by rewrite IHl.
        -- rewrite <- Permutation_middle. by rewrite IHl.
      * intros x Hx. apply list_elem_of_In, filter_In in Hx. destruct Hx as [Hx Hne].
        apply list_elem_of_In, Hin in Hx. apply elem_of_cons in Hx as [E'|?]; [|done].
        rewrite E', String.eqb_refl in Hne. done.
    + apply Forall_forall. intros k' Hk'. clear -Hk Hk'.
      induction l as [|x l IHl]; [done|]. simpl.
      destruct (String.eqb_spec (key x) k'), (String.eqb_spec (key x) k);
        simpl; subst; try done.
      * rewrite String.eqb_refl. by f_equal.
      * destruct (String.eqb_spec (key x) k'); done.
Qed.

End ObjectFacts.

(** ** C2: response timing *)

Module ResponseFacts.
Import JS SortFacts ObjectFacts ResponseTiming.

Lemma minutes_eq (d : Z) : div (of_Z d) (of_Z (1000 * 60)) = Fin (Qred (d # 60000)).
Proof.
  unfold div, of_Z, fin. simpl. f_equal. apply Qred_complete.
  unfold Qeq. simpl. lia.
Qed.

Lemma minutes_le (d : Z) : le (Fin (Qred (d # 60000))) (of_Z 1440) = (d <=? 1440 * 60000).
Proof.
  unfold le, of_Z.
  apply eq_true_iff_eq. rewrite Qle_bool_iff, Qred_correct, Z.leb_le.
  unfold Qle. simpl. lia.
Qed.

Lemma minutes_ge (d : Z) : ge (Fin (Qred (d # 60000))) (of_Z 0) = (0 <=? d).
Proof.
  unfold ge, le, of_Z.
  apply eq_true_iff_eq. rewrite Qle_bool_iff, Qred_correct, Z.leb_le.
  unfold Qle. simpl. lia.
Qed.

(** One turn of the loop, by cases on [Spec.response_event]. *)
Lemma record_pair_spec M pc :
  is_Some (M !! sender pc.2) →
  record_pair M pc =
    if Spec.response_event pc
    then <[sender pc.2 := default [] (M !! sender pc.2) ++ [Spec.response_of pc]]> M
    else M.
Proof.
  destruct pc as [p c]. intros [l El]. cbn [fst snd] in *.
  unfold record_pair, Spec.response_event, Spec.response_of, Spec.latency. cbn [fst snd].
  rewrite minutes_eq, minutes_le, minutes_ge, El. cbn [default from_option id].
  destruct (bool_decide _); [|done].
  destruct (0 <=? _), (_ <=? 1440 * 60000); done.
Qed.

(** After the loop each sender has the responses of its events, in order. *)
Lemma responseTimes_lookup senders pairs :
  (∀ pc, pc ∈ pairs → sender pc.2 ∈ senders) →
  ∀ s, foldl record_pair (init_object senders []) pairs !! s =
    if decide (s ∈ senders)
    then Some (map Spec.response_of
                 (List.filter (λ pc, String.eqb (sender pc.2) s)
                    (List.filter Spec.response_event pairs)))
    else None.
Proof.
  induction pairs as [|pc pairs IH] using rev_ind; intros Hin s.
  - simpl. rewrite init_object_lookup. by destruct (decide _).
  - rewrite foldl_app. cbn [foldl].
    assert (∀ pc, pc ∈ pairs → sender pc.2 ∈ senders) as Hin'.
    { intros ? ?. apply Hin, elem_of_app. by left. }
    assert (sender pc.2 ∈ senders) as Hpc.
    { apply Hin, elem_of_app. right. apply list_elem_of_here. }
    specialize (IH Hin').
    rewrite record_pair_spec by (rewrite IH; destruct (decide _); [eauto|done]).
    rewrite !List.filter_app, map_app. cbn [List.filter].
    destruct (Spec.response_event pc) eqn:Ev; cbn [List.filter].
    + destruct (decide (sender pc.2 = s)) as [<-|Hne].
      * rewrite lookup_insert_eq, IH, String.eqb_refl.
        by destruct (decide _).
      * rewrite lookup_insert_ne, IH by done.
        destruct (String.eqb_spec (sender pc.2) s); [done|].
        by rewrite app_nil_r.
    + by rewrite IH, app_nil_r.
Qed.

(** The responses collected from the senders are those of the events. *)
Lemma collect_responses_perm messages :
  collect_responses (sorted_senders messages) (responseTimes_of messages)
  ≡ₚ map (λ pc, (Spec.response_of pc, sender pc.2))
         (List.filter Spec.response_event (adjacent messages)).
Proof.
  unfold collect_responses, responseTimes_of.
  assert (∀ pc, pc ∈ adjacent messages → sender pc.2 ∈ sorted_senders messages) as Hin.
  { intros pc Hpc. apply sorted_senders_elem_of, list_elem_of_fmap.
    exists pc.2. split; [done|]. by apply adjacent_snd. }
  set (events := List.filter Spec.response_event (adjacent messages)).
  set (tag := λ pc : Message * Message, (Spec.response_of pc, sender pc.2)).
  rewrite (Forall_bind_ext _
             (λ s, map tag (List.filter (λ pc : Message * Message,
                                           String.eqb (sender pc.2) s) events))).
  - transitivity (map tag (sorted_senders messages ≫=
                   λ s, List.filter (λ pc : Message * Message,
                                       String.eqb (sender pc.2) s) events)).
    + generalize (sorted_senders messages). intros keys.
      induction keys as [|k keys IH]; [done|].
      rewrite !bind_cons, map_app. by rewrite IH.
    + apply Permutation_map, buckets_perm; [apply sorted_senders_NoDup|].
      intros pc Hpc. apply Hin. apply list_elem_of_In, filter_In in Hpc.
      apply list_elem_of_In, Hpc.
  - apply Forall_forall. intros s Hs.
    rewrite (responseTimes_lookup _ _ Hin). destruct (decide _); [|done].
    cbn [default from_option id]. rewrite map_map. fold events.
    generalize events. intros l. induction l as [|pc l IH]; [done|].
    cbn [List.filter]. destruct (String.eqb_spec (sender pc.2) s) as [E|]; [|done].
    cbn [map]. rewrite IH. unfold tag. by rewrite E.
Qed.

(** The recorded responses are the response events, one each. *)
Lemma allResponses_perm messages :
  allResponses_of messages
  ≡ₚ map (λ pc, (Spec.response_of pc, sender pc.2))
         (List.filter Spec.response_event (adjacent messages)).
Proof.
  unfold allResponses_of, sort_with. rewrite stable_sort_perm.
  apply collect_responses_perm.
Qed.

Lemma latency_in_range pc :
  Spec.response_event pc = true →
  (0 <= Qred (Spec.latency pc))%Q ∧ (Qred (Spec.latency pc) <= 1440)%Q.
Proof.
  unfold Spec.response_event, Spec.latency.
  rewrite !andb_true_iff, !Z.leb_le. intros [[_ H0] H1].
  rewrite !Qred_correct. unfold Qle. simpl. lia.
Qed.

End ResponseFacts.

(** C2.  Whenever [analyzeResponseTiming] computes statistics: the
    responses it records are, up to their order, those of the pairs of
    consecutive messages whose sender changes and whose latency is between 0
    and 1440 minutes, one response each; so every recorded latency lies in
    that range, no pair of one sender contributes, and [totalResponses] is the
    number of those pairs. *)
Theorem response_timing_events (messages : list Message) (st : ResponseTiming.Statistics) :
  ResponseTiming.statistics (ResponseTiming.analyzeResponseTiming messages) = Some st →
  let events := List.filter Spec.response_event (adjacent messages) in
  ResponseTiming.allResponses_of messages
    ≡ₚ map (λ pc, (Spec.response_of pc, sender pc.2)) events
  ∧ Forall (λ r, ∃ q, ResponseTiming.time r.1 = JS.Fin q ∧ (0 <= q)%Q ∧ (q <= 1440)%Q)
           (ResponseTiming.allResponses_of messages)
  ∧ Forall (λ pc, sender pc.2 ≠ sender pc.1) events
  ∧ ResponseTiming.totalResponses st = length events.
Proof.
  unfold ResponseTiming.analyzeResponseTiming.
  destruct (length messages <? 2)%nat; [done|]. intros [= <-]. cbn zeta.
  pose proof (ResponseFacts.allResponses_perm messages) as Hp.
  split_and!.
  - done.
  - rewrite Hp. apply Forall_forall. intros r Hr.
    apply list_elem_of_fmap in Hr as (pc & -> & Hpc).
    apply list_elem_of_In, filter_In in Hpc as [_ Hev].
    eexists. split; [done|]. by apply ResponseFacts.latency_in_range.
  - apply Forall_forall. intros pc Hpc.
    apply list_elem_of_In, filter_In in Hpc as [_ Hev].
    unfold Spec.response_event in Hev. rewrite !andb_true_iff in Hev.
    destruct Hev as [[Hne _] _]. by apply bool_decide_eq_true in Hne.
  - cbn [ResponseTiming.totalResponses]. by rewrite Hp, length_map.
Qed.

Lemma response_timing_events_witness :
  ∃ st, ResponseTiming.statistics (ResponseTiming.analyzeResponseTiming Examples.three_messages)
        = Some st
      ∧ ResponseTiming.totalResponses st = 2%nat.
Proof.
  eexists. split; [reflexivity|].
  exact (proj2 (proj2 (proj2 (response_timing_events Examples.three_messages _ eq_refl)))).
Defined.

(** ** C6: initiation balance *)

Module InitiationFacts.
Import JS SortFacts ObjectFacts InitiationBalance.

Lemma count_pairs_lookup M pairs s :
  foldl count_pair M pairs !! s
  = (λ n, n + length (List.filter (Spec.counts_for s) pairs))%nat <$> M !! s.
Proof.
  revert M. induction pairs as [|pc pairs IH]; intros M.
  - simpl. destruct (M !! s); simpl; [f_equal; lia|done].
  - cbn [foldl List.filter]. rewrite IH. destruct pc as [p c].
    assert (Spec.counts_for s (p, c)
            = (gapThreshold <=? timestamp c - timestamp p) && String.eqb (sender c) s) as ->
      by done.
    unfold count_pair. cbn [fst snd].
    destruct (gapThreshold <=? _); cbn [andb]; [|done].
    unfold increment. destruct (String.eqb_spec (sender c) s) as [->|Hne].
    + rewrite lookup_alter_eq. destruct (M !! s); simpl; [f_equal; lia|done].
    + by rewrite lookup_alter_ne.
Qed.

Lemma filter_map_S (f : nat -> bool) (l : list nat) :
  length (List.filter f (map S l)) = length (List.filter (λ j, f (S j)) l).
Proof.
  induction l as [|x l IH]; [done|]. simpl. destruct (f (S x)); simpl; by rewrite IH.
Qed.

Lemma length_filter_cons {A} (f : A -> bool) (x : A) (l : list A) :
  length (List.filter f (x :: l))
  = ((if f x then 1 else 0) + length (List.filter f l))%nat.
Proof. simpl. by destruct (f x). Qed.

(** Counting over the pairs is counting over the indices from 1 on. *)
Lemma count_adjacent (g : Message * Message -> bool) (l : list Message) :
  length (List.filter
            (λ j, match l !! j, l !! S j with
                  | Some p, Some c => g (p, c)
                  | _, _ => false
                  end) (seq 0 (length (tail l))))
  = length (List.filter g (adjacent l)).
Proof.
  induction l as [|a l IH]; [done|].
  destruct l as [|b l]; [done|].
  change (tail (a :: b :: l)) with (b :: l).
  change (adjacent (a :: b :: l)) with ((a, b) :: adjacent (b :: l)).
  cbn [length]. rewrite <- cons_seq, <- seq_shift.
  rewrite !length_filter_cons, filter_map_S.
  apply (f_equal2 Nat.add); [reflexivity|exact IH].
Qed.

Lemma initiations_lookup messages s :
  s ∈ map sender messages → s ≠ proto →
  initiations_of messages !! s = Some (Spec.initiation_count messages s).
Proof.
  intros Hs Hp. unfold initiations_of.
  destruct messages as [|first rest]; [by apply not_elem_of_nil in Hs|].
  rewrite count_pairs_lookup. unfold increment.
  assert (init_numbers (sorted_senders (first :: rest)) 0%nat !! s = Some 0%nat) as E0.
  { rewrite init_numbers_lookup by done. destruct (decide _) as [|Hn]; [done|].
    exfalso. by apply Hn, sorted_senders_elem_of. }
  unfold Spec.initiation_count.
  cbn [length]. rewrite <- cons_seq, <- seq_shift.
  rewrite length_filter_cons, filter_map_S.
  rewrite <- (count_adjacent (Spec.counts_for s) (first :: rest)).
  change (tail (first :: rest)) with rest.
  assert (length (List.filter
            (λ j, Spec.initiates (first :: rest) (S j)
                  && bool_decide (sender <$> (first :: rest) !! S j = Some s))
            (seq 0 (length rest)))
          = length (List.filter
              (λ j, match (first :: rest) !! j, (first :: rest) !! S j with
                    | Some p, Some c => Spec.counts_for s (p, c)
                    | _, _ => false
                    end) (seq 0 (length rest)))) as ->.
  { f_equal. apply filter_ext_in. intros j Hj.
    apply in_seq in Hj. cbn [Spec.initiates].
    destruct (lookup_lt_is_Some_2 (first :: rest) j) as [p Ep]; [simpl; lia|].
    destruct (lookup_lt_is_Some_2 (first :: rest) (S j)) as [c Ec]; [simpl; lia|].
    rewrite Ep, Ec. unfold Spec.counts_for. cbn [fst snd fmap option_fmap option_map].
    f_equal. destruct (String.eqb_spec (sender c) s) as [->|Hne].
    - by apply bool_decide_eq_true.
    - apply bool_decide_eq_false. by intros [=]. }
  cbn [Spec.initiates andb lookup list_lookup fmap option_fmap option_map].
  destruct (String.eqb_spec (sender first) s) as [->|Hne].
  - rewrite lookup_alter_eq, E0. cbn [fmap option_fmap option_map].
    rewrite bool_decide_eq_true_2 by done. f_equal.
  - rewrite lookup_alter_ne, E0 by done. cbn [fmap option_fmap option_map].
    rewrite bool_decide_eq_false_2 by (by intros [=]). f_equal.
Qed.

(** A name that sent no message has no count. *)
Lemma initiations_lookup_None messages s :
  s ∉ map sender messages → initiations_of messages !! s = None.
Proof.
  intros Hs. unfold initiations_of.
  assert (init_numbers (sorted_senders messages) 0%nat !! s = None) as E0.
  { destruct (decide (s = proto)) as [->|Hp]; [apply init_numbers_proto|].
    rewrite init_numbers_lookup by done. destruct (decide _) as [Hin|]; [|done].
    by apply sorted_senders_elem_of in Hin. }
  rewrite count_pairs_lookup.
  destruct messages as [|first rest]; [by rewrite E0|].
  unfold increment. destruct (decide (sender first = s)) as [<-|Hne].
  - exfalso. apply Hs. simpl. apply list_elem_of_here.
  - by rewrite lookup_alter_ne, E0.
Qed.

End InitiationFacts.

(** C6, as stated, fails on a list of one message: the very first message
    overall is an initiation by the claim, and [analyzeInitiationBalance]
    returns its empty result, with no count at all. *)
Lemma one_message_no_initiation :
  let m : Message := mkMsg 0 "A" "hi" in
  Spec.initiates [m] 0 = true
  ∧ Spec.initiation_count [m] "A" = 1%nat
  ∧ InitiationBalance.analyzeInitiationBalance [m] = InitiationBalance.empty_result
  ∧ InitiationBalance.statistics (InitiationBalance.analyzeInitiationBalance [m]) = None.
Proof. by vm_compute. Qed.

(** C6, amended.  On fewer than two messages [analyzeInitiationBalance]
    counts nothing and returns its empty result.  On two messages or more,
    the count of a sender (of any name but [proto], under which an object keeps
    no number) is the number of its messages that are the very first message
    or come at least 4 hours after the message before, and a name that sent
    no message has no count; on messages at t = 0 from A, t = 1h from B and
    t = 10h from A the counts are A = 2, B = 0. *)
Theorem initiation_counts :
  (∀ messages : list Message,
     (length messages < 2)%nat →
     InitiationBalance.analyzeInitiationBalance messages = InitiationBalance.empty_result)
  ∧ (∀ messages : list Message,
       (2 <= length messages)%nat →
       ∃ st,
         InitiationBalance.statistics (InitiationBalance.analyzeInitiationBalance messages)
         = Some st
         ∧ (∀ s, s ∈ map sender messages → s ≠ proto →
                 InitiationBalance.counts st !! s = Some (Spec.initiation_count messages s))
         ∧ (∀ s, s ∉ map sender messages → InitiationBalance.counts st !! s = None))
  ∧ (∃ st, InitiationBalance.statistics
             (InitiationBalance.analyzeInitiationBalance Examples.three_messages) = Some st
         ∧ InitiationBalance.counts st !! "A" = Some 2%nat
         ∧ InitiationBalance.counts st !! "B" = Some 0%nat).
Proof.
  split_and!.
  - intros messages Hlen. unfold InitiationBalance.analyzeInitiationBalance.
    by rewrite (proj2 (Nat.ltb_lt _ _) Hlen).
  - intros messages Hlen. unfold InitiationBalance.analyzeInitiationBalance.
    rewrite (proj2 (Nat.ltb_ge _ _) Hlen).
    eexists. split; [reflexivity|]. cbn [InitiationBalance.counts]. split.
    + intros s Hs Hp. by apply InitiationFacts.initiations_lookup.
    + intros s Hs. by apply InitiationFacts.initiations_lookup_None.
  - eexists. split; [reflexivity|]. by vm_compute.
Qed.

Lemma initiation_counts_witness :
  ∃ st, InitiationBalance.statistics
          (InitiationBalance.analyzeInitiationBalance Examples.three_messages) = Some st
      ∧ InitiationBalance.counts st !! "A"
        = Some (Spec.initiation_count Examples.three_messages "A")
      ∧ InitiationBalance.analyzeInitiationBalance [mkMsg 0 "A" "hi"]
        = InitiationBalance.empty_result.
Proof.
  destruct (proj1 (proj2 initiation_counts) Examples.three_messages ltac:(simpl; lia))
    as (st & Hst & Hcount & _).
  exists st. split_and!; [exact Hst| |].
  - apply Hcount; [apply list_elem_of_here|discriminate].
  - apply (proj1 initiation_counts [mkMsg 0 "A" "hi"]). simpl. lia.
Defined.

(** ** C7: streaks *)

Module StreakFacts.
Import JS SortFacts ObjectFacts Streaks.

(** Between two midnights the rounded quotient is the number of days. *)
Lemma diffDays_eq prev curr : diffDays prev curr = curr - prev.
Proof.
  unfold diffDays, round_div, day_start, msPerDay.
  symmetry. apply (Z.div_unique _ _ _ 86400000); lia.
Qed.

Lemma sortedDates_perm messages :
  sortedDates_of messages ≡ₚ uniq (map (λ msg, utc_day (timestamp msg)) messages).
Proof. apply stable_sort_perm. Qed.

Lemma sortedDates_elem_of messages d :
  d ∈ sortedDates_of messages ↔ ∃ m, m ∈ messages ∧ utc_day (timestamp m) = d.
Proof.
  rewrite sortedDates_perm, uniq_elem_of, list_elem_of_fmap.
  split; [intros (m & -> & Hm)|intros (m & Hm & <-)]; eauto.
Qed.



Lemma days_of_snoc a b b' n :
  Spec.days_of (mkStreak a b' (S n)) = Spec.days_of (mkStreak a b n) ++ [a + Z.of_nat n].
Proof. unfold Spec.days_of. simpl length. simpl start. by rewrite seq_S, map_app. Qed.

(** The walk from any place, whatever the order of the dates. *)
Lemma walk_spec rest :
  ∀ streaks cs first prev,
    (1 <= cs)%nat → prev = first + Z.of_nat cs - 1 →
    ∃ run runs,
      walk streaks cs first prev rest = streaks ++ run :: runs
      ∧ start run = first
      ∧ (run :: runs) ≫= Spec.days_of = Spec.days_of (mkStreak first prev cs) ++ rest
      ∧ Forall Spec.is_run (run :: runs)
      ∧ Forall Spec.separate (adjacent (run :: runs)).
Proof.
  induction rest as [|curr rest IH]; intros streaks cs first prev Hcs Hprev.
  - exists (mkStreak first prev cs), []. simpl. split_and!; try done.
    all: repeat constructor; simpl; lia.
  - cbn [walk]. rewrite diffDays_eq.
    destruct (Z.eqb_spec (curr - prev) 1) as [E|E].
    + destruct (IH streaks (S cs) first curr) as (run & runs & -> & Hst & Hdays & Hruns & Hgap);
        [lia|lia|].
      exists run, runs. split_and!; try done.
      rewrite Hdays, (days_of_snoc _ prev). rewrite <- app_assoc. simpl.
      do 3 f_equal. lia.
    + destruct (IH (streaks ++ [mkStreak first prev cs]) 1%nat curr curr)
        as (run & runs & -> & Hst & Hdays & Hruns & Hgap); [lia|lia|].
      exists (mkStreak first prev cs), (run :: runs). split_and!.
      * by rewrite <- app_assoc.
      * done.
      * rewrite bind_cons, Hdays. f_equal. unfold Spec.days_of. simpl. f_equal. lia.
      * constructor; [|done]. split; simpl; lia.
      * change (adjacent (?a :: run :: runs)) with ((a, run) :: adjacent (run :: runs)).
        constructor; [|done]. unfold Spec.separate. simpl. lia.
Qed.

(** The streaks are runs of consecutive days that make up the dates, and
    no two in a row are one day apart. *)
Lemma streaks_of_spec dates :
  streaks_of dates ≫= Spec.days_of = dates
  ∧ Forall Spec.is_run (streaks_of dates)
  ∧ Forall Spec.separate (adjacent (streaks_of dates)).
Proof.
  destruct dates as [|first rest].
  - simpl. split_and!; constructor.
  - unfold streaks_of.
    destruct (walk_spec rest [] 1%nat first first) as (run & runs & -> & _ & Hdays & Hruns & Hgap);
      [lia|lia|].
    rewrite app_nil_l. split_and!; try done.
    rewrite Hdays. unfold Spec.days_of. simpl. f_equal. lia.
Qed.


(** What the result holds of the dates and the streaks. *)
Lemma analyzeStreaks_fields `{Host} messages :
  let r := analyzeStreaks messages in
  let dates := sortedDates_of messages in
  totalActiveDays r = List.length dates
  ∧ longestStreak r = max_list (map length (streaks_of dates))
  ∧ streakHistory r = List.filter (λ s, (3 <=? length s)%nat) (streaks_of dates).
Proof.
  intros r dates. subst r. unfold analyzeStreaks. fold dates.
  destruct messages as [|m messages]; [done|].
  change (List.length (m :: messages) =? 0)%nat with false. cbn iota.
  destruct dates as [|first rest] eqn:E; [done|].
  destruct (last (first :: rest)) eqn:El; [by destruct (gaps_of _)|].
  by apply last_None in El.
Qed.


End StreakFacts.



(** ** C4: what [analyzeStreaks] reads besides the messages *)




(** ** C5: continuation lines *)

Module StringFacts.
Import JS.

Lemma chars_app (a b : string) : chars (a +:+ b) = chars a ++ chars b.
Proof. induction a as [|c a IH]; simpl; [done|]. by rewrite IH. Qed.

Lemma str_chars (s : string) : str (chars s) = s.
Proof. apply string_of_list_ascii_of_string. Qed.

Lemma chars_str (l : list ascii) : chars (str l) = l.
Proof. apply list_ascii_of_string_of_list_ascii. Qed.

(** The length of a text put together is the sum of the lengths. *)
Lemma js_length_app (a b : string) :
  js_length (a +:+ b) = (js_length a + js_length b)%nat.
Proof. unfold js_length. rewrite chars_app, !List.filter_app, !length_app. lia. Qed.

End StringFacts.

(** C5.  In the loop of [parseWhatsApp], a line that is not blank and
    matches no pattern, met while there is a current message, goes to the end
    of the text of that message after a line feed: the text gets longer, the
    messages pushed so far stay as they are and none is added; so the
    messages collected from the lines read so far and from those with this
    line differ in the text of the last one only. *)
Theorem continuation_line `{JS.Host} (lines : list string) (line : string) (m : Msg JS.Date) :
  let st := foldl WhatsApp.step ([], None) lines in
  st.2 = Some m →
  JS.trim line ≠ "" →
  WhatsApp.first_match WhatsApp.patterns (JS.trim line) = None →
  let m' := mkMsg (timestamp m) (sender m) (text m +:+ nl +:+ JS.trim line) in
  WhatsApp.step st line = (st.1, Some m')
  ∧ (JS.js_length (text m) < JS.js_length (text m'))%nat
  ∧ WhatsApp.collect lines = st.1 ++ [m]
  ∧ WhatsApp.collect (lines ++ [line]) = st.1 ++ [m']
  ∧ length (WhatsApp.collect (lines ++ [line])) = length (WhatsApp.collect lines).
Proof.
  intros st Hcur Hne Hno m'.
  assert (WhatsApp.step st line = (st.1, Some m')) as Hstep.
  { unfold WhatsApp.step. rewrite Hno, Hcur.
    destruct (JS.truthy (JS.trim line)) eqn:Ht; [done|].
    unfold JS.truthy in Ht. apply negb_false_iff, String.eqb_eq in Ht. done. }
  assert (WhatsApp.collect lines = st.1 ++ [m]) as Hc.
  { unfold WhatsApp.collect, WhatsApp.push_current. fold st. by rewrite Hcur. }
  assert (WhatsApp.collect (lines ++ [line]) = st.1 ++ [m']) as Hc'.
  { unfold WhatsApp.collect, WhatsApp.push_current. rewrite foldl_app. cbn [foldl].
    fold st. by rewrite Hstep. }
  split_and!; try done.
  - subst m'. cbn [text]. rewrite !StringFacts.js_length_app.
    change (JS.js_length nl) with 1%nat. lia.
  - by rewrite Hc, Hc', !length_app.
Qed.

Lemma continuation_line_witness :
  let host := Examples.host_at 0 in
  WhatsApp.collect ["1/1/24, 10:00 AM - Alice: hello"; "second line"]
  = [mkMsg (JS.DateMs (JS.utc 2024 1 1 10 0)) "Alice" ("hello" +:+ nl +:+ "second line")].
Proof.
  intros host.
  exact (proj1 (proj2 (proj2 (proj2
    (continuation_line ["1/1/24, 10:00 AM - Alice: hello"] "second line"
       (mkMsg (JS.DateMs (JS.utc 2024 1 1 10 0)) "Alice" "hello")
       eq_refl ltac:(by vm_compute) eq_refl))))).
Defined.

(** The white space outside ASCII is white space to the loop: a line of
    U+00A0 is skipped, and a header with U+202F before PM starts a message. *)
Example narrow_lines_messages :
  let host := Examples.host_at 0 in
  WhatsApp.collect Examples.narrow_lines
  = [ mkMsg (JS.DateMs (JS.utc 2024 1 1 10 0)) "Alice" "hello";
      mkMsg (JS.DateMs (JS.utc 2024 1 1 22 5)) "Bob" "hi" ].
Proof. by vm_compute. Qed.

(** ** C3: no message found *)

(** C3: the code misses it for Telegram.  A page whose history container
    holds no message is recognised as a Telegram export, and [parseFile]
    returns for it a result with an empty list of messages and no date range:
    nothing is thrown.  The sibling paths do throw: the same page in a ZIP
    archive makes [handleZipFile] throw its no-messages error, and so do
    [parseWhatsApp] and [parseCSV] through [parseFile] on recognised files
    without a valid message; none of these errors is the unsupported-format
    error. *)
Theorem telegram_returns_empty_result :
  let host := Examples.host_at 0 in
  Router.detectFileType Examples.empty_html "messages.html" = Router.telegram
  ∧ (∃ r, Router.parseFile Examples.empty_html "messages.html" = Ok (Router.WithIsoStrings r)
        ∧ messages r = []
        ∧ dateRange (metadata r) = None)
  ∧ Zip.handleZipFile [Zip.mkEntry "messages.html" Examples.empty_html]
    = Throw Zip.no_telegram_messages
  ∧ Router.parseFile Examples.media_only "chat.txt" = Throw WhatsApp.no_messages
  ∧ Router.parseFile Examples.no_sender_csv "chat.csv" = Throw CSV.no_messages
  ∧ Zip.no_telegram_messages ≠ Router.unsupported
  ∧ WhatsApp.no_messages ≠ Router.unsupported
  ∧ CSV.no_messages ≠ Router.unsupported.
Proof.
  split; [by vm_compute|]. split; [eexists; split; [by vm_compute|done]|].
  split_and!; by vm_compute.
Qed.

Module EmptyFacts.
Import JS.

Section WithHost.
Context `{Host}.

(** [parseWhatsApp] throws exactly when the loop collected no message, and
    what it throws is its no-messages error. *)
Lemma parseWhatsApp_throws content :
  match WhatsApp.parseWhatsApp content with
  | Ok r => messages r ≠ [] ∧ WhatsApp.collect (split "010" content) ≠ []
  | Throw e => e = WhatsApp.no_messages ∧ WhatsApp.collect (split "010" content) = []
  end.
Proof.
  unfold WhatsApp.parseWhatsApp.
  destruct (WhatsApp.collect _) as [|m l] eqn:E; [done|].
  change (length (m :: l) =? 0)%nat with false. cbn iota. cbn [messages]. split; [|done].
  intros E'. apply SortFacts.stable_sort_nil in E'. done.
Qed.

(** What [parseCSV] does, case by case. *)
Lemma parseCSV_cases content :
  match Spec.csv_lines content with
  | [] | [_] => CSV.parseCSV content = Throw CSV.empty_file
  | line0 :: rows =>
      if Spec.header_accepted line0 then
        match Spec.row_messages line0 rows with
        | [] => CSV.parseCSV content = Throw CSV.no_messages
        | _ :: _ =>
            ∃ r, CSV.parseCSV content = Ok r
               ∧ messages r ≡ₚ Spec.row_messages line0 rows
        end
      else CSV.parseCSV content = Throw (CSV.missing_columns (CSV.parseCSVLine line0))
  end.
Proof.
  unfold CSV.parseCSV, Spec.csv_lines, Spec.header_accepted, Spec.row_messages.
  destruct (List.filter _ _) as [|line0 [|row rows]]; [done..|].
  cbn zeta. destruct (CSV.falsy_index _ || CSV.falsy_index _ || CSV.falsy_index _);
    [done|]. cbn [negb].
  destruct (omap _ _) as [|m l] eqn:E; [done|].
  change (length (m :: l) =? 0)%nat with false. cbn iota.
  eexists. split; [reflexivity|]. cbn [messages]. apply SortFacts.stable_sort_perm.
Qed.

End WithHost.

Lemma missing_columns_not_no_messages header :
  CSV.missing_columns header ≠ CSV.no_messages.
Proof. unfold CSV.missing_columns. simpl. discriminate. Qed.

End EmptyFacts.

(** [parseWhatsApp] and [parseCSV] never return an empty list of messages:
    [parseWhatsApp] throws its no-messages error exactly when it collected
    no message; [parseCSV] throws its no-messages error exactly when the file
    has a header line that is accepted, a second line, and no row that gives a
    message; none of the errors of the two is the unsupported-format error of
    the router.  [parseTelegramExport], on a page with a history container,
    always returns a result, with no date range when the list is empty. *)
Theorem zero_messages_errors `{JS.Host} :
  (∀ content,
     match WhatsApp.parseWhatsApp content with
     | Ok r => messages r ≠ [] ∧ WhatsApp.collect (JS.split "010" content) ≠ []
     | Throw e => e = WhatsApp.no_messages ∧ WhatsApp.collect (JS.split "010" content) = []
     end)
  ∧ (∀ content,
       (∀ r, CSV.parseCSV content = Ok r → messages r ≠ [])
       ∧ (CSV.parseCSV content = Throw CSV.no_messages
          ↔ ∃ line0 row rows,
              Spec.csv_lines content = line0 :: row :: rows
              ∧ Spec.header_accepted line0 = true
              ∧ Spec.row_messages line0 (row :: rows) = []))
  ∧ (WhatsApp.no_messages ≠ Router.unsupported
     ∧ CSV.no_messages ≠ Router.unsupported
     ∧ CSV.empty_file ≠ Router.unsupported
     ∧ ∀ header, CSV.missing_columns header ≠ Router.unsupported)
  ∧ (∀ doc historyEl,
       JS.querySelector doc Telegram.sel_history = Some historyEl →
       ∃ r, Telegram.parseDocument doc = Ok r
          ∧ (messages r = [] → dateRange (metadata r) = None)).
Proof.
  split_and!.
  - apply EmptyFacts.parseWhatsApp_throws.
  - intros content. pose proof (EmptyFacts.parseCSV_cases content) as Hc.
    destruct (Spec.csv_lines content) as [|line0 [|row rows]] eqn:El.
    + rewrite Hc. split; [done|]. split; [done|]. by intros (? & ? & ? & ? & _).
    + rewrite Hc. split; [done|]. split; [done|]. by intros (? & ? & ? & ? & _).
    + destruct (Spec.header_accepted line0) eqn:Eh.
      * destruct (Spec.row_messages line0 (row :: rows)) as [|m l] eqn:Em.
        -- rewrite Hc. split; [done|]. split; [|done]. intros _.
           exists line0, row, rows. by rewrite Em.
        -- destruct Hc as (r & -> & Hperm). split.
           ++ intros r' [= <-] Hnil. rewrite Hnil in Hperm.
              by apply Permutation_nil_l in Hperm.
           ++ split; [done|]. intros (l0 & r0 & rs & [= <- <- <-] & _ & Hnil).
              by rewrite Em in Hnil.
      * rewrite Hc. split; [done|]. split.
        -- intros E. exfalso.
           apply (EmptyFacts.missing_columns_not_no_messages (CSV.parseCSVLine line0)).
           congruence.
        -- intros (l0 & r0 & rs & [= <- <- <-] & Hacc & _). by rewrite Eh in Hacc.
  - done.
  - done.
  - done.
  - intros header. unfold CSV.missing_columns. simpl. discriminate.
  - intros doc historyEl Hh. unfold Telegram.parseDocument. rewrite Hh.
    eexists. split; [done|]. cbn [messages metadata dateRange].
    by intros ->.
Qed.

Lemma zero_messages_errors_witness :
  let host := Examples.host_at 0 in
  ∃ r, Telegram.parseDocument (JS.mkEl Examples.empty_doc []) = Ok r
     ∧ (messages r = [] → dateRange (metadata r) = None).
Proof.
  intros host.
  exact (proj2 (proj2 (proj2 zero_messages_errors))
           (JS.mkEl Examples.empty_doc [])
           (JS.mkEl (Examples.div_ "history" [])
              [Examples.div_ "page_wrap" [Examples.div_ "history" []];
               JS.Element "body" [] [Examples.div_ "page_wrap" [Examples.div_ "history" []]];
               Examples.empty_doc])
           eq_refl).
Defined.

(** ** C8: divisions *)

Lemma single_bin `{JS.Host} senders binType (m : Message) :
  map fst (map_to_list (foldl (MessageActivity.add_message senders binType) ∅ [m]))
  = [MessageActivity.getBinKey (timestamp m) binType].
Proof.
  cbn [foldl]. unfold MessageActivity.add_message.
  by rewrite insert_empty, map_to_list_singleton.
Qed.

(** C8.  The claim: no field of a result on messages is NaN.  The code
    divides without a test in two places.  In [analyzeMessageActivity] the
    first half of the bins is empty when there is one bin, and [firstHalfAvg]
    is 0 / 0: so for every list of one message.  In
    [analyzeInitiationBalance] the second participant is [undefined] when
    there is one participant, and [difference] is NaN: so for the two
    messages of [Examples.one_participant]. *)
Theorem unguarded_divisions :
  (∀ (host : JS.Host) (m : Message),
     MessageActivity.firstHalfAvg
       <$> MessageActivity.statistics (MessageActivity.analyzeMessageActivity [m])
     = Some JS.NaN)
  ∧ InitiationBalance.difference
      <$> InitiationBalance.statistics
            (InitiationBalance.analyzeInitiationBalance Examples.one_participant)
    = Some JS.NaN.
Proof.
  split; [|by vm_compute].
  intros host m. unfold MessageActivity.analyzeMessageActivity.
  cbn [last]. cbn zeta. rewrite !single_bin. reflexivity.
Qed.

(** ** C9: merging the files of an export *)

Module MergeFacts.
Import JS SortFacts Telegram.

Lemma set_add_elem_of x y l : y ∈ set_add x l ↔ y = x ∨ y ∈ l.
Proof.
  unfold set_add. destruct (bool_decide (x ∈ l)) eqn:E.
  - apply bool_decide_eq_true in E. split; [by right|]. by intros [->|?].
  - rewrite elem_of_app, list_elem_of_singleton. tauto.
Qed.

Lemma set_add_NoDup x l : NoDup l → NoDup (set_add x l).
Proof.
  intros Hnd. unfold set_add. destruct (bool_decide (x ∈ l)) eqn:E; [done|].
  apply bool_decide_eq_false in E. apply NoDup_app. split_and!; [done| |apply NoDup_singleton].
  intros y Hy Hy'. apply list_elem_of_singleton in Hy'. by subst.
Qed.

Lemma add_all_elem_of ps acc y :
  y ∈ foldl (λ acc p, set_add p acc) acc ps ↔ y ∈ acc ∨ y ∈ ps.
Proof.
  revert acc. induction ps as [|p ps IH]; intros acc; cbn [foldl].
  - rewrite elem_of_nil. tauto.
  - rewrite IH, set_add_elem_of, elem_of_cons. tauto.
Qed.

Lemma add_all_NoDup ps acc : NoDup acc → NoDup (foldl (λ acc p, set_add p acc) acc ps).
Proof.
  revert acc. induction ps as [|p ps IH]; intros acc Hnd; cbn [foldl]; [done|].
  by apply IH, set_add_NoDup.
Qed.

(** The state after the files, from any state. *)
Lemma merge_fold results :
  ∀ st,
    let st' := foldl merge_step st results in
    allMessages st' = allMessages st ++ Spec.all_messages results
    ∧ (∀ p, p ∈ allParticipants st' ↔ p ∈ allParticipants st ∨ p ∈ Spec.all_participants results)
    ∧ (NoDup (allParticipants st) → NoDup (allParticipants st'))
    ∧ m_chatName st' = default (m_chatName st) (last (Spec.named results)).
Proof.
  induction results as [|r results IH]; intros st.
  - simpl. split_and!; [by rewrite app_nil_r| |done|done].
    intros p. unfold Spec.all_participants. simpl. rewrite elem_of_nil. tauto.
  - cbn [foldl]. cbn zeta.
    destruct (IH (merge_step st r)) as (Hm & Hp & Hn & Hc).
    unfold Spec.all_messages, Spec.all_participants, Spec.named in *.
    rewrite !bind_cons. cbn [omap list_omap].
    destruct r as [r|]; cbn [merge_step] in *.
    + cbn [allMessages allParticipants m_chatName] in *.
      split_and!.
      * by rewrite Hm, app_assoc.
      * intros p. rewrite Hp, add_all_elem_of, elem_of_app. tauto.
      * intros Hnd. by apply Hn, add_all_NoDup.
      * rewrite Hc. cbn [mbind option_bind].
        destruct (chatName (metadata r)) as [name|]; cbn [mbind option_bind]; [|done].
        destruct (truthy name && negb (String.eqb name default_chat_name)); [|done].
        rewrite last_cons. by destruct (last _).
    + split_and!; try done.
      all: intros p; rewrite Hp, elem_of_app, elem_of_nil; tauto.
Qed.

Lemma merged_messages results :
  messages (mergeTelegramResults results) ≡ₚ Spec.all_messages results.
Proof.
  unfold mergeTelegramResults. cbn [messages]. unfold sort_with.
  rewrite stable_sort_perm.
  destruct (merge_fold results (mkMerge [] [] default_chat_name)) as (-> & _). done.
Qed.

Lemma merged_participants results p :
  p ∈ participants (metadata (mergeTelegramResults results)) ↔ p ∈ Spec.all_participants results.
Proof.
  unfold mergeTelegramResults. cbn [metadata participants].
  destruct (merge_fold results (mkMerge [] [] default_chat_name)) as (_ & -> & _).
  cbn [allParticipants]. rewrite elem_of_nil. tauto.
Qed.

End MergeFacts.

(** C9, as stated, fails on the chat name: of two files named "Family"
    and "Work", in this order, the merged result has the name "Work", the
    last one, not the first. *)
Lemma merged_chat_name_not_first :
  chatName (metadata (Telegram.mergeTelegramResults Examples.two_files))
  ≠ Some (Spec.first_named Examples.two_files).
Proof. by vm_compute. Qed.

(** C9, amended.  The messages of the merged result are those of the files,
    and its participants are theirs, each once, whatever the order of the
    files; merging merged results gives the same messages and participants as
    merging all the files at once.  The chat name is the last non-default
    chat name in the order of the files. *)
Theorem merge_order_independent (results results' : list (option (ParsedResult Z))) :
  results ≡ₚ results' →
  let merged := Telegram.mergeTelegramResults results in
  let merged' := Telegram.mergeTelegramResults results' in
  messages merged ≡ₚ Spec.all_messages results
  ∧ messages merged ≡ₚ messages merged'
  ∧ (∀ p, p ∈ participants (metadata merged) ↔ p ∈ Spec.all_participants results)
  ∧ (∀ p, p ∈ participants (metadata merged) ↔ p ∈ participants (metadata merged'))
  ∧ NoDup (participants (metadata merged))
  ∧ chatName (metadata merged) = Some (Spec.last_named results)
  ∧ (let nested := Telegram.mergeTelegramResults [Some merged; Some merged'] in
     let flat := Telegram.mergeTelegramResults (results ++ results') in
     messages nested ≡ₚ messages flat
     ∧ ∀ p, p ∈ participants (metadata nested) ↔ p ∈ participants (metadata flat)).
Proof.
  intros Hperm merged merged'.
  assert (Spec.all_messages results ≡ₚ Spec.all_messages results') as Hm.
  { unfold Spec.all_messages. by rewrite Hperm. }
  assert (∀ p, p ∈ Spec.all_participants results ↔ p ∈ Spec.all_participants results') as Hp.
  { intros p. unfold Spec.all_participants. by rewrite Hperm. }
  split_and!.
  - apply MergeFacts.merged_messages.
  - subst merged merged'. by rewrite !MergeFacts.merged_messages.
  - apply MergeFacts.merged_participants.
  - intros p. subst merged merged'. by rewrite !MergeFacts.merged_participants.
  - subst merged. unfold Telegram.mergeTelegramResults. cbn [metadata participants].
    destruct (MergeFacts.merge_fold results (Telegram.mkMerge [] [] Telegram.default_chat_name))
      as (_ & _ & Hn & _).
    apply Hn. constructor.
  - subst merged. unfold Telegram.mergeTelegramResults. cbn [metadata chatName].
    destruct (MergeFacts.merge_fold results (Telegram.mkMerge [] [] Telegram.default_chat_name))
      as (_ & _ & _ & ->).
    done.
  - cbn zeta. split.
    + rewrite !MergeFacts.merged_messages. unfold Spec.all_messages.
      rewrite bind_app, !bind_cons. change ([] ≫= _) with (@nil Message). rewrite app_nil_r.
      fold (Spec.all_messages results) (Spec.all_messages results').
      subst merged merged'. by rewrite !MergeFacts.merged_messages.
    + intros p. rewrite !MergeFacts.merged_participants. unfold Spec.all_participants.
      rewrite bind_app, !bind_cons. change ([] ≫= _) with (@nil string). rewrite app_nil_r, !elem_of_app.
      fold (Spec.all_participants results) (Spec.all_participants results').
      subst merged merged'. by rewrite !MergeFacts.merged_participants.
Qed.

Lemma merge_order_independent_witness :
  messages (Telegram.mergeTelegramResults Examples.two_files)
  ≡ₚ messages (Telegram.mergeTelegramResults (reverse Examples.two_files)).
Proof.
  exact (proj1 (proj2 (merge_order_independent Examples.two_files
                         (reverse Examples.two_files)
                         ltac:(apply Permutation_swap)))).
Defined.

(** ** C10: the least input of the analyzers *)

(** C10.  Below 5 messages [analyzeConversationRhythm] returns
    [insufficient_data] with confidence 0, and from 5 on another rhythm;
    below 10 messages [analyzeLexicalDiversity] returns its empty result, and
    from 10 on statistics; below 2 messages [analyzeResponseTiming] and
    [analyzeInitiationBalance] return their empty results, and from 2 on
    statistics. *)
Theorem minimum_input (host : JS.Host) (messages : list Message) :
  ((length messages < 5)%nat →
     Rhythm.analyzeConversationRhythm messages
     = Rhythm.mkResult "insufficient_data" (JS.of_Z 0) None)
  ∧ ((5 <= length messages)%nat →
       Rhythm.rhythm (Rhythm.analyzeConversationRhythm messages) ≠ "insufficient_data")
  ∧ ((length messages < 10)%nat →
       LexicalDiversity.analyzeLexicalDiversity messages = LexicalDiversity.mkResult [] [] None)
  ∧ ((10 <= length messages)%nat →
       LexicalDiversity.statistics (LexicalDiversity.analyzeLexicalDiversity messages) ≠ None)
  ∧ ((length messages < 2)%nat →
       ResponseTiming.analyzeResponseTiming messages = ResponseTiming.mkResult [] [] None
       ∧ InitiationBalance.analyzeInitiationBalance messages
         = InitiationBalance.mkResult [] [] None)
  ∧ ((2 <= length messages)%nat →
       ResponseTiming.statistics (ResponseTiming.analyzeResponseTiming messages) ≠ None
       ∧ InitiationBalance.statistics (InitiationBalance.analyzeInitiationBalance messages)
         ≠ None).
Proof.
  split_and!.
  - intros Hlt. unfold Rhythm.analyzeConversationRhythm.
    by destruct (Nat.ltb_spec (length messages) 5); [|lia].
  - intros Hge. unfold Rhythm.analyzeConversationRhythm.
    destruct (Nat.ltb_spec (length messages) 5); [lia|]. cbn zeta.
    repeat (match goal with
            | |- context [if ?c then _ else _] => destruct c
            end); done.
  - intros Hlt. unfold LexicalDiversity.analyzeLexicalDiversity.
    by destruct (Nat.ltb_spec (length messages) 10); [|lia].
  - intros Hge. unfold LexicalDiversity.analyzeLexicalDiversity.
    by destruct (Nat.ltb_spec (length messages) 10); [lia|].
  - intros Hlt. unfold ResponseTiming.analyzeResponseTiming,
      InitiationBalance.analyzeInitiationBalance.
    by destruct (Nat.ltb_spec (length messages) 2); [|lia].
  - intros Hge. unfold ResponseTiming.analyzeResponseTiming,
      InitiationBalance.analyzeInitiationBalance.
    by destruct (Nat.ltb_spec (length messages) 2); [lia|].
Qed.

Lemma minimum_input_witness :
  Rhythm.analyzeConversationRhythm (H := Examples.host_at 0) Examples.three_messages
  = Rhythm.mkResult "insufficient_data" (JS.of_Z 0) None
  ∧ LexicalDiversity.analyzeLexicalDiversity Examples.three_messages
    = LexicalDiversity.mkResult [] [] None
  ∧ ResponseTiming.analyzeResponseTiming [mkMsg 0 "A" "hi"] = ResponseTiming.mkResult [] [] None
  ∧ ResponseTiming.statistics (ResponseTiming.analyzeResponseTiming Examples.three_messages)
    ≠ None.
Proof.
  split_and!.
  - apply (proj1 (minimum_input (Examples.host_at 0) Examples.three_messages)). simpl. lia.
  - apply (proj1 (proj2 (proj2 (minimum_input (Examples.host_at 0) Examples.three_messages)))).
    simpl. lia.
  - apply (proj1 (proj2 (proj2 (proj2 (proj2
             (minimum_input (Examples.host_at 0) [mkMsg 0 "A" "hi"])))))).
    simpl. lia.
  - apply (proj2 (proj2 (proj2 (proj2 (proj2
             (minimum_input (Examples.host_at 0) Examples.three_messages)))))).
    simpl. lia.
Defined.

(** * Further properties of the code *)

(** ** Strings *)


(** ** csvParser.js *)

Module CsvFacts.
Import JS StringFacts CSV.

Lemma indexOf_Some header name i :
  indexOf header name = Some i →
  header !! i = Some name ∧ ∀ j, (j < i)%nat → header !! j ≠ Some name.
Proof.
  revert i. induction header as [|h header IH]; intros i; simpl; [done|].
  destruct (String.eqb_spec h name) as [->|Hne].
  - intros [= <-]. split; [done|]. lia.
  - destruct (indexOf header name) as [k|] eqn:E; [|done]. simpl. intros [= <-].
    destruct (IH k eq_refl) as [Hk Hlt]. split; [done|].
    intros [|j] Hj; simpl; [by intros [=]|]. apply Hlt. lia.
Qed.

Lemma indexOf_None header name : indexOf header name = None → name ∉ header.
Proof.
  induction header as [|h header IH]; simpl; [intros _; apply not_elem_of_nil|].
  destruct (String.eqb_spec h name) as [->|Hne]; [done|].
  destruct (indexOf header name); [done|]. intros _.
  apply not_elem_of_cons. split; [done|]. by apply IH.
Qed.

(** [findColumnIndex] goes by the order of the names, not of the columns:
    it returns the first column that holds the first name of the list that is
    in the header at all, and [null] when no name is. *)
Theorem findColumnIndex_spec (header possibleNames : list string) :
  match findColumnIndex header possibleNames with
  | Some i =>
      ∃ before name after,
        possibleNames = before ++ name :: after
        ∧ Forall (λ n, n ∉ header) before
        ∧ header !! i = Some name
        ∧ ∀ j, (j < i)%nat → header !! j ≠ Some name
  | None => Forall (λ n, n ∉ header) possibleNames
  end.
Proof.
  induction possibleNames as [|name names IH]; simpl; [constructor|].
  destruct (indexOf header name) as [i|] eqn:E.
  - apply indexOf_Some in E as [Hi Hlt]. exists [], name, names. by split_and!.
  - apply indexOf_None in E. destruct (findColumnIndex header names) as [i|].
    + destruct IH as (before & name' & after & -> & Hb & Hi & Hlt).
      exists (name :: before), name', after. split_and!; try done. by constructor.
    + by constructor.
Qed.

(** A header whose timestamp, sender or message column is the first column
    is rejected: index 0 is falsy in the test for missing columns. *)
Theorem parseCSV_rejects_first_column `{Host} (content line0 row : string) (rows : list string) :
  List.filter (λ line, truthy (trim line)) (split "010" content) = line0 :: row :: rows →
  let columnMap := mapColumns (parseCSVLine line0) in
  col_timestamp columnMap = Some 0%nat ∨ col_sender columnMap = Some 0%nat
  ∨ col_message columnMap = Some 0%nat →
  parseCSV content = Throw (missing_columns (parseCSVLine line0)).
Proof.
  intros Hlines columnMap Hzero. unfold parseCSV. rewrite Hlines. cbn zeta.
  fold columnMap.
  assert (falsy_index (col_timestamp columnMap) || falsy_index (col_sender columnMap)
          || falsy_index (col_message columnMap) = true) as ->; [|done].
  destruct Hzero as [-> | [-> | ->]]; simpl; by rewrite ?orb_true_r.
Qed.

Lemma parseCSV_rejects_first_column_witness :
  let host := Examples.host_at 0 in
  parseCSV ("timestamp,sender,message" +:+ nl +:+ "2024-01-01T10:00:00Z,Alice,hello")
  = Throw (missing_columns ["timestamp"; "sender"; "message"]).
Proof.
  intros host.
  exact (parseCSV_rejects_first_column
           ("timestamp,sender,message" +:+ nl +:+ "2024-01-01T10:00:00Z,Alice,hello")
           "timestamp,sender,message" "2024-01-01T10:00:00Z,Alice,hello" []
           eq_refl (or_introl eq_refl)).
Defined.

(** Conversely a result means that each of the three columns was found, and
    none of them first. *)
Theorem parseCSV_columns `{Host} (content : string) (r : ParsedResult Date) :
  parseCSV content = Ok r →
  ∃ line0 rows a b c,
    List.filter (λ line, truthy (trim line)) (split "010" content) = line0 :: rows
    ∧ mapColumns (parseCSVLine line0) = mkColumnMap (Some (S a)) (Some (S b)) (Some (S c)).
Proof.
  unfold parseCSV.
  destruct (List.filter _ _) as [|line0 [|row rows]]; [done..|]. cbn zeta.
  destruct (mapColumns (parseCSVLine line0)) as [[[|a]|] [[|b]|] [[|c]|]] eqn:E;
    cbn [falsy_index col_timestamp col_sender col_message orb]; try done.
  intros _. by exists line0, (row :: rows), a, b, c.
Qed.

Lemma parseCSV_columns_witness :
  let host := Examples.host_at 0 in
  ∃ line0 rows a b c,
    List.filter (λ line, truthy (trim line))
      (split "010" ("id,date,from,text" +:+ nl +:+ "1,2024-13-45 10:00:00,Al,hi"))
    = line0 :: rows
    ∧ mapColumns (parseCSVLine line0) = mkColumnMap (Some (S a)) (Some (S b)) (Some (S c)).
Proof.
  intros host.
  exact (parseCSV_columns ("id,date,from,text" +:+ nl +:+ "1,2024-13-45 10:00:00,Al,hi")
           _ eq_refl).
Defined.

Lemma csv_fields_plain cur (l : list ascii) :
  dquote ∉ l →
  csv_fields cur false l = map (λ f, trim (str f)) (split_chars "," cur l).
Proof.
  revert cur. induction l as [|c l IH]; intros cur Hq; [done|].
  apply not_elem_of_cons in Hq as [Hc Hq]. cbn [csv_fields split_chars].
  destruct (Ascii.eqb_spec c dquote) as [->|_]; [done|].
  destruct (Ascii.eqb_spec c ","); cbn [andb negb map].
  - by rewrite IH.
  - by apply IH.
Qed.

(** On a line without double quote [parseCSVLine] is the split at the
    commas, each field trimmed. *)
Theorem parseCSVLine_plain (line : string) :
  dquote ∉ chars line →
  parseCSVLine line = map trim (split "," line).
Proof.
  intros Hq. unfold parseCSVLine, split. rewrite csv_fields_plain by done.
  rewrite map_map. done.
Qed.

Lemma parseCSVLine_plain_witness :
  parseCSVLine "2024-01-01, Alice ,hello there" = ["2024-01-01"; "Alice"; "hello there"].
Proof.
  exact (parseCSVLine_plain "2024-01-01, Alice ,hello there" ltac:(apply (bool_decide_unpack _); by vm_compute)).
Defined.

Lemma csv_fields_quoted cur (s rest : list ascii) :
  dquote ∉ s →
  match rest with c :: _ => c ≠ dquote | [] => True end →
  csv_fields cur true (s ++ dquote :: rest) = csv_fields (rev s ++ cur) false rest.
Proof.
  revert cur. induction s as [|c s IH]; intros cur Hq Hrest.
  - cbn [app csv_fields rev]. rewrite Ascii.eqb_refl.
    destruct rest as [|c' rest]; [done|].
    destruct (Ascii.eqb_spec c' dquote); [done|]. done.
  - apply not_elem_of_cons in Hq as [Hc Hq].
    change ((c :: s) ++ dquote :: rest) with (c :: (s ++ dquote :: rest)).
    cbn [csv_fields]. destruct (Ascii.eqb_spec c dquote) as [->|_]; [done|].
    rewrite andb_false_r. rewrite IH by done. cbn [rev]. by rewrite <- app_assoc.
Qed.

Lemma csv_fields_open cur (l : list ascii) :
  csv_fields cur false (dquote :: l) = csv_fields cur true l.
Proof. cbn [csv_fields]. rewrite Ascii.eqb_refl. by destruct l. Qed.

Lemma csv_fields_comma cur (l : list ascii) :
  csv_fields cur false (","%char :: l) = trim (str (rev cur)) :: csv_fields [] false l.
Proof. done. Qed.

(** A quoted field keeps its commas: after plain fields, a last field in
    double quotes is one value, the text between the quotes, trimmed. *)
Theorem parseCSVLine_quoted (plain quoted : string) :
  dquote ∉ chars plain → dquote ∉ chars quoted →
  parseCSVLine (plain +:+ "," +:+ dq +:+ quoted +:+ dq)
  = map trim (split "," plain) ++ [trim quoted].
Proof.
  intros Hp Hq. unfold parseCSVLine. rewrite !chars_app.
  change (chars ",") with [","%char]. change (chars dq) with [dquote].
  assert (∀ cur (l : list ascii), dquote ∉ l →
            csv_fields cur false (l ++ [","%char] ++ [dquote] ++ chars quoted ++ [dquote])
            = map (λ f, trim (str f)) (split_chars "," cur l) ++ [trim quoted]) as Hgen.
  { intros cur l. revert cur. induction l as [|c l IH]; intros cur Hl.
    - change ([] ++ ?x) with x. change ([","%char] ++ ?x) with (","%char :: x).
      change ([dquote] ++ ?x) with (dquote :: x).
      rewrite csv_fields_comma, csv_fields_open.
      rewrite (csv_fields_quoted [] (chars quoted) []) by done.
      cbn [csv_fields split_chars map app]. by rewrite app_nil_r, rev_involutive, str_chars.
    - apply not_elem_of_cons in Hl as [Hc Hl].
      change ((c :: l) ++ ?x) with (c :: (l ++ x)). cbn [csv_fields split_chars].
      destruct (Ascii.eqb_spec c dquote) as [->|_]; [done|].
      destruct (Ascii.eqb_spec c ","); cbn [andb negb map].
      + by rewrite IH.
      + by apply IH. }
  rewrite Hgen by done. unfold split. by rewrite map_map.
Qed.

Lemma parseCSVLine_quoted_witness :
  parseCSVLine ("1,Bo" +:+ "," +:+ dq +:+ "yes, no, maybe" +:+ dq) = ["1"; "Bo"; "yes, no, maybe"].
Proof.
  exact (parseCSVLine_quoted "1,Bo" "yes, no, maybe" ltac:(apply (bool_decide_unpack _); by vm_compute) ltac:(apply (bool_decide_unpack _); by vm_compute)).
Defined.

End CsvFacts.

(** ** The metadata of a parsed result *)

Module MetadataFacts.
Import JS SortFacts ObjectFacts.

Lemma extreme_min_fold (l : list Date) (a : Z) :
  Forall Spec.valid l →
  ∃ a', foldl (λ acc d, match acc, d with
                        | DateMs x, DateMs y => DateMs (Z.min x y)
                        | _, _ => InvalidDate
                        end) (DateMs a) l = DateMs a'
        ∧ a' <= a ∧ Forall (λ d, a' <= Spec.time_of d) l
        ∧ (a' = a ∨ DateMs a' ∈ l).
Proof.
  revert a. induction l as [|d l IH]; intros a Hv.
  - exists a. simpl. split_and!; [done|lia|constructor|by left].
  - apply Forall_cons in Hv as [[t ->] Hv]. cbn [foldl].
    destruct (IH (Z.min a t) Hv) as (a' & -> & Hle & Hall & Hin).
    exists a'. split_and!; [done|lia| |].
    + constructor; [simpl; lia|done].
    + destruct Hin as [->|Hin]; [|right; by apply elem_of_cons; right].
      destruct (Z.min_spec a t) as [[_ ->]|[_ ->]]; [by left|].
      right. apply list_elem_of_here.
Qed.

Lemma extreme_max_fold (l : list Date) (a : Z) :
  Forall Spec.valid l →
  ∃ a', foldl (λ acc d, match acc, d with
                        | DateMs x, DateMs y => DateMs (Z.max x y)
                        | _, _ => InvalidDate
                        end) (DateMs a) l = DateMs a'
        ∧ a <= a' ∧ Forall (λ d, Spec.time_of d <= a') l
        ∧ (a' = a ∨ DateMs a' ∈ l).
Proof.
  revert a. induction l as [|d l IH]; intros a Hv.
  - exists a. simpl. split_and!; [done|lia|constructor|by left].
  - apply Forall_cons in Hv as [[t ->] Hv]. cbn [foldl].
    destruct (IH (Z.max a t) Hv) as (a' & -> & Hle & Hall & Hin).
    exists a'. split_and!; [done|lia| |].
    + constructor; [simpl; lia|done].
    + destruct Hin as [->|Hin]; [|right; by apply elem_of_cons; right].
      destruct (Z.max_spec a t) as [[_ ->]|[_ ->]]; [|by left].
      right. apply list_elem_of_here.
Qed.

(** The date range of valid dates: the least and the greatest of them. *)
Lemma date_range_spec (l : list Date) :
  l ≠ [] → Forall Spec.valid l →
  ∃ a b, WhatsApp.extreme Z.min l = DateMs a ∧ WhatsApp.extreme Z.max l = DateMs b
         ∧ DateMs a ∈ l ∧ DateMs b ∈ l
         ∧ Forall (λ d, a <= Spec.time_of d <= b) l.
Proof.
  destruct l as [|d l]; [done|]. intros _ Hv.
  apply Forall_cons in Hv as [[t ->] Hv]. unfold WhatsApp.extreme.
  destruct (extreme_min_fold l t Hv) as (a & -> & Ha & Halla & Hina).
  destruct (extreme_max_fold l t Hv) as (b & -> & Hb & Hallb & Hinb).
  exists a, b. split_and!; try done.
  - destruct Hina as [->|?]; [apply list_elem_of_here|by apply elem_of_cons; right].
  - destruct Hinb as [->|?]; [apply list_elem_of_here|by apply elem_of_cons; right].
  - constructor; [simpl; lia|].
    rewrite Forall_forall in *. intros d Hd. split; [by apply Halla|by apply Hallb].
Qed.

(** What the two parsers with [Date] time stamps put in the metadata. *)
Lemma dated_metadata (parsed : list (Msg Date)) :
  parsed ≠ [] →
  let sorted := sort_with WhatsApp.by_date parsed in
  let r := mkParsed sorted
             (mkMetadata None (length sorted) (uniq (map sender sorted)) None
                (Some (WhatsApp.extreme Z.min (map timestamp sorted),
                       WhatsApp.extreme Z.max (map timestamp sorted)))) in
  messages r ≡ₚ parsed
  ∧ totalMessages (metadata r) = length parsed
  ∧ NoDup (participants (metadata r))
  ∧ (∀ p, p ∈ participants (metadata r) ↔ ∃ m, m ∈ parsed ∧ sender m = p)
  ∧ (Forall (λ m, Spec.valid (timestamp m)) parsed →
     ∃ a b, dateRange (metadata r) = Some (DateMs a, DateMs b)
            ∧ (∃ m, m ∈ parsed ∧ timestamp m = DateMs a)
            ∧ (∃ m, m ∈ parsed ∧ timestamp m = DateMs b)
            ∧ Forall (λ m, a <= Spec.time_of (timestamp m) <= b) parsed).
Proof.
  intros Hne sorted r.
  assert (sorted ≡ₚ parsed) as Hp by apply stable_sort_perm.
  subst r. cbn [messages metadata totalMessages participants dateRange].
  clearbody sorted.
  split_and!.
  - done.
  - by rewrite Hp.
  - apply uniq_NoDup.
  - intros p. rewrite uniq_elem_of, Hp, list_elem_of_fmap.
    split; [intros (m & -> & Hm)|intros (m & Hm & <-)]; eauto.
  - intros Hv.
    destruct (date_range_spec (map timestamp sorted)) as (a & b & -> & -> & Ha & Hb & Hall).
    + intros E. apply fmap_nil_inv in E. apply Hne. apply Permutation_nil_r. by rewrite <- Hp, E.
    + rewrite Hp. by apply Forall_fmap.
    + exists a, b. split_and!; [done| | |].
      * rewrite Hp in Ha. apply list_elem_of_fmap in Ha as (m & E & Hm). eauto.
      * rewrite Hp in Hb. apply list_elem_of_fmap in Hb as (m & E & Hm). eauto.
      * rewrite Hp in Hall. by apply Forall_fmap in Hall.
Qed.

Lemma omap_length_le {A B} (f : A -> option B) (l : list A) :
  (length (omap f l) <= length l)%nat.
Proof.
  induction l as [|x l IH]; [done|].
  change (omap f (x :: l)) with (match f x with Some y => y :: omap f l | None => omap f l end).
  destruct (f x); simpl; lia.
Qed.

End MetadataFacts.

(** The result of [parseWhatsApp] holds the collected messages, at least
    one; [totalMessages] is their number, [participants] their senders, each
    once; when the dates are valid, [dateRange] is the earliest and the latest
    time stamp. *)
Theorem parseWhatsApp_metadata `{JS.Host} (content : string) (r : ParsedResult JS.Date) :
  WhatsApp.parseWhatsApp content = Ok r →
  let parsed := WhatsApp.collect (JS.split "010" content) in
  parsed ≠ []
  ∧ messages r ≡ₚ parsed
  ∧ totalMessages (metadata r) = length parsed
  ∧ NoDup (participants (metadata r))
  ∧ (∀ p, p ∈ participants (metadata r) ↔ ∃ m, m ∈ parsed ∧ sender m = p)
  ∧ (Forall (λ m, Spec.valid (timestamp m)) parsed →
     ∃ a b, dateRange (metadata r) = Some (JS.DateMs a, JS.DateMs b)
            ∧ (∃ m, m ∈ parsed ∧ timestamp m = JS.DateMs a)
            ∧ (∃ m, m ∈ parsed ∧ timestamp m = JS.DateMs b)
            ∧ Forall (λ m, a <= Spec.time_of (timestamp m) <= b) parsed).
Proof.
  intros Hr parsed. unfold WhatsApp.parseWhatsApp in Hr. fold parsed in Hr.
  destruct parsed as [|m l] eqn:E; [done|].
  change (length (m :: l) =? 0)%nat with false in Hr. cbn iota zeta in Hr.
  injection Hr as <-. split; [done|].
  by apply (MetadataFacts.dated_metadata (m :: l)).
Qed.

Lemma parseWhatsApp_metadata_witness :
  let host := Examples.host_at 0 in
  ∃ r, WhatsApp.parseWhatsApp (JS.join nl Examples.wa_lines) = Ok r
     ∧ totalMessages (metadata r) = 2%nat.
Proof.
  intros host. eexists. split; [reflexivity|].
  exact (proj1 (proj2 (proj2
    (parseWhatsApp_metadata (JS.join nl Examples.wa_lines) _ eq_refl)))).
Defined.

(** The same for [parseCSV], for the messages of the data rows. *)
Theorem parseCSV_metadata `{JS.Host} (content : string) (r : ParsedResult JS.Date) :
  CSV.parseCSV content = Ok r →
  ∃ line0 rows,
    List.filter (λ line, JS.truthy (JS.trim line)) (JS.split "010" content) = line0 :: rows
    ∧ let parsed := omap (CSV.row_message (CSV.mapColumns (CSV.parseCSVLine line0))) rows in
      parsed ≠ []
      ∧ messages r ≡ₚ parsed
      ∧ totalMessages (metadata r) = length parsed
      ∧ (length parsed <= length rows)%nat
      ∧ NoDup (participants (metadata r))
      ∧ (∀ p, p ∈ participants (metadata r) ↔ ∃ m, m ∈ parsed ∧ sender m = p)
      ∧ (Forall (λ m, Spec.valid (timestamp m)) parsed →
         ∃ a b, dateRange (metadata r) = Some (JS.DateMs a, JS.DateMs b)
                ∧ (∃ m, m ∈ parsed ∧ timestamp m = JS.DateMs a)
                ∧ (∃ m, m ∈ parsed ∧ timestamp m = JS.DateMs b)
                ∧ Forall (λ m, a <= Spec.time_of (timestamp m) <= b) parsed).
Proof.
  unfold CSV.parseCSV.
  destruct (List.filter _ _) as [|line0 [|row rows]]; [done..|]. cbn zeta.
  destruct (CSV.falsy_index _ || CSV.falsy_index _ || CSV.falsy_index _); [done|].
  intros Hr. exists line0, (row :: rows). split; [done|].
  set (parsed := omap _ _) in *.
  assert (length parsed <= length (row :: rows))%nat as Hlen by apply MetadataFacts.omap_length_le.
  destruct parsed as [|m l] eqn:E; [done|].
  change (length (m :: l) =? 0)%nat with false in Hr. cbn iota in Hr.
  injection Hr as <-. split; [done|].
  destruct (MetadataFacts.dated_metadata (m :: l)) as (H1 & H2 & H3 & H4 & H5); [done|].
  by split_and!.
Qed.

Lemma parseCSV_metadata_witness :
  let host := Examples.iso_host in
  ∃ r, CSV.parseCSV Examples.csv_file = Ok r
     ∧ totalMessages (metadata r) = 2%nat.
Proof.
  intros host.
  destruct (CSV.parseCSV Examples.csv_file) as [r|e] eqn:E; [|by vm_compute in E].
  exists r. split; [done|].
  destruct (parseCSV_metadata _ r E) as (line0 & rows & Hl & _ & _ & Ht & _).
  rewrite Ht. vm_compute in Hl. injection Hl as <- <-. by vm_compute.
Defined.

(** ** The loop of [parseWhatsApp], line by line *)

(** What one more line does to the collected messages.  A blank line does
    nothing.  A line that matches a pattern closes the current message, if
    there is one, and starts a message with the trimmed sender and text,
    unless sender and text make a system message, which starts none.  Any
    other line without a current message is dropped. *)
Theorem collect_one_more_line `{JS.Host} (lines : list string) (line : string) :
  let st := foldl WhatsApp.step ([], None) lines in
  let trimmedLine := JS.trim line in
  (trimmedLine = "" → WhatsApp.collect (lines ++ [line]) = WhatsApp.collect lines)
  ∧ (∀ caps,
       trimmedLine ≠ "" →
       WhatsApp.first_match WhatsApp.patterns trimmedLine = Some caps →
       let sender := JS.cap caps 2 in
       let text := JS.cap caps 3 in
       WhatsApp.collect (lines ++ [line])
       = WhatsApp.collect lines
         ++ (if WhatsApp.isSystemMessage sender text then []
             else [mkMsg (WhatsApp.parseDateTime (JS.cap caps 0) (JS.cap caps 1))
                         (JS.trim sender) (JS.trim text)]))
  ∧ (trimmedLine ≠ "" →
     WhatsApp.first_match WhatsApp.patterns trimmedLine = None →
     st.2 = None →
     WhatsApp.collect (lines ++ [line]) = WhatsApp.collect lines).
Proof.
  intros st trimmedLine.
  assert (∀ b, trimmedLine ≠ "" → JS.truthy trimmedLine = b → b = true) as Htruthy.
  { intros b Hne <-. unfold JS.truthy. apply negb_true_iff.
    by apply String.eqb_neq. }
  unfold WhatsApp.collect. rewrite foldl_app. cbn [foldl]. fold st.
  unfold WhatsApp.step. fold trimmedLine.
  split_and!.
  - intros ->. done.
  - intros caps Hne Hm. rewrite (Htruthy _ Hne eq_refl), Hm. cbn [negb].
    destruct (WhatsApp.isSystemMessage _ _); unfold WhatsApp.push_current; cbn [fst snd].
    + by rewrite app_nil_r.
    + done.
  - intros Hne Hm Hcur. rewrite (Htruthy _ Hne eq_refl), Hm, Hcur. cbn [negb].
    unfold WhatsApp.push_current. by rewrite Hcur.
Qed.

Lemma collect_one_more_line_witness :
  let host := Examples.host_at 0 in
  WhatsApp.collect (["1/1/24, 10:00 AM - Alice: hello"] ++ ["1/1/24, 10:05 PM - Bob: hi"])
  = WhatsApp.collect ["1/1/24, 10:00 AM - Alice: hello"]
    ++ [mkMsg (JS.DateMs (JS.utc 2024 1 1 22 5)) "Bob" "hi"].
Proof.
  intros host.
  exact (proj1 (proj2 (collect_one_more_line ["1/1/24, 10:00 AM - Alice: hello"]
                         "1/1/24, 10:05 PM - Bob: hi"))
           [Some "1/1/24"; Some "10:05 PM"; Some "Bob"; Some "hi"]
           ltac:(by vm_compute) ltac:(by vm_compute)).
Defined.

(** ** Bounds on the streaks *)

Module StreakBounds.
Import JS ObjectFacts StreakFacts Streaks.

Lemma length_bind_days (runs : list Streak) :
  List.length (runs ≫= Spec.days_of) = sum_list (map length runs).
Proof.
  induction runs as [|r runs IH]; [done|].
  rewrite bind_cons, length_app, IH. unfold Spec.days_of at 1.
  by rewrite length_map, length_seq.
Qed.

Lemma max_list_le_sum (ns : list nat) : (max_list ns <= sum_list ns)%nat.
Proof. induction ns as [|n ns IH]; simpl; lia. Qed.

(** The current streak is at most the longest, which is at most the number
    of active days, which is at most the number of messages. *)
Lemma bounds `{Host} messages :
  let r := analyzeStreaks messages in
  (currentStreak r <= longestStreak r)%nat
  ∧ (longestStreak r <= totalActiveDays r)%nat
  ∧ (totalActiveDays r <= List.length messages)%nat.
Proof.
  intros r. subst r.
  destruct (analyzeStreaks_fields messages) as (Ht & Hl & _).
  destruct (streaks_of_spec (sortedDates_of messages)) as (Hdays & _ & _).
  split_and!.
  - rewrite Hl. unfold analyzeStreaks.
    destruct (List.length messages =? 0)%nat; [simpl; lia|]. cbv zeta.
    destruct (sortedDates_of messages) as [|first rest] eqn:E; [simpl; lia|].
    destruct (last (first :: rest)) as [lastDay|]; [|simpl; lia].
    destruct (gaps_of _). cbn [currentStreak].
    destruct (daysSinceLastMessage lastDay <=? 1); [|lia].
    destruct (last (streaks_of (first :: rest))) as [s|] eqn:El; [|simpl; lia].
    cbn [fmap option_fmap option_map default from_option id].
    apply max_list_elem_of_le, list_elem_of_fmap. exists s. split; [done|].
    apply last_Some in El as [l' ->]. apply elem_of_app. right. apply list_elem_of_here.
  - rewrite Hl, Ht. rewrite <- Hdays at 2. rewrite length_bind_days.
    apply max_list_le_sum.
  - rewrite Ht. unfold sortedDates_of. rewrite SortFacts.stable_sort_length.
    etrans; [apply uniq_length_le|]. by rewrite length_map.
Qed.

End StreakBounds.

(** In the result of [analyzeStreaks], the current streak is at most the
    longest streak, the longest streak at most the number of active days, the
    number of active days at most the number of messages; every streak of
    the history is a streak of the walk of at least 3 days; and with a message
    there is an active day and a streak. *)
Theorem streak_bounds (host : JS.Host) (messages : list Message) :
  let r := Streaks.analyzeStreaks messages in
  (Streaks.currentStreak r <= Streaks.longestStreak r)%nat
  ∧ (Streaks.longestStreak r <= Streaks.totalActiveDays r)%nat
  ∧ (Streaks.totalActiveDays r <= length messages)%nat
  ∧ (∀ s, s ∈ Streaks.streakHistory r ↔
          s ∈ Streaks.streaks_of (Streaks.sortedDates_of messages)
          ∧ (3 <= Streaks.length s)%nat)
  ∧ (messages ≠ [] →
     (1 <= Streaks.longestStreak r)%nat ∧ (1 <= Streaks.totalActiveDays r)%nat).
Proof.
  intros r. destruct (StreakBounds.bounds messages) as (Hc & Hl & Ht).
  destruct (StreakFacts.analyzeStreaks_fields messages) as (Ht' & Hl' & Hh).
  split_and!; try done.
  - intros s. subst r. rewrite Hh, list_elem_of_In, filter_In, <- list_elem_of_In.
    by rewrite Nat.leb_le.
  - intros Hne. subst r. rewrite Hl', Ht'.
    destruct messages as [|m messages]; [done|].
    destruct (Streaks.sortedDates_of (m :: messages)) as [|first rest] eqn:E.
    { exfalso. assert (JS.utc_day (timestamp m) ∈ Streaks.sortedDates_of (m :: messages)) as Hin.
      { apply StreakFacts.sortedDates_elem_of. exists m. split; [apply list_elem_of_here|done]. }
      rewrite E in Hin. by apply not_elem_of_nil in Hin. }
    destruct (StreakFacts.streaks_of_spec (first :: rest)) as (Hdays & Hruns & _).
    destruct (Streaks.streaks_of (first :: rest)) as [|s ss] eqn:Es; [done|].
    split; [|simpl; lia].
    apply Forall_cons in Hruns as [[_ Hlen] _].
    etrans; [exact Hlen|]. apply max_list_elem_of_le. simpl. apply list_elem_of_here.
Qed.

Lemma streak_bounds_witness :
  let host := Examples.host_at 0 in
  (1 <= Streaks.longestStreak (Streaks.analyzeStreaks Examples.four_days))%nat
  ∧ (1 <= Streaks.totalActiveDays (Streaks.analyzeStreaks Examples.four_days))%nat.
Proof.
  intros host.
  exact (proj2 (proj2 (proj2 (proj2 (streak_bounds host Examples.four_days))))
           ltac:(discriminate)).
Defined.

(** ** The errors of the router *)

Module RouterFacts.
Import JS.

Section WithHost.
Context `{Host}.

(** The one error of [parseTelegramExport]: [toISOString] on an invalid
    date, outside the [try] of [parseDefaultMessage]. *)
Lemma parseTelegramExport_throws content e :
  Telegram.parseTelegramExport content = Throw e → e = Telegram.range_error.
Proof.
  unfold Telegram.parseTelegramExport, Telegram.parseDocument.
  destruct (querySelector _ Telegram.sel_history); [done|].
  unfold Telegram.parseAlternativeFormat. destruct (foldl _ _ _); [done|]. by intros [= <-].
Qed.

Lemma parseCSV_throws content e :
  CSV.parseCSV content = Throw e →
  e = CSV.empty_file ∨ e = CSV.no_messages ∨ ∃ header, e = CSV.missing_columns header.
Proof.
  unfold CSV.parseCSV.
  destruct (List.filter _ _) as [|line0 [|row rows]]; [intros [= <-]; by left..|].
  cbn zeta. destruct (CSV.falsy_index _ || CSV.falsy_index _ || CSV.falsy_index _).
  - intros [= <-]. right. right. eauto.
  - destruct (length _ =? 0)%nat; [|done]. intros [= <-]. right. by left.
Qed.

End WithHost.
End RouterFacts.

(** [parseFile] throws the unsupported-format error exactly when
    [detectFileType] recognises no format: no parser throws it.  A file that
    is recognised makes [parseFile] return a result or throw an error of its
    parser: the no-messages error of [parseWhatsApp], one of the three errors
    of [parseCSV], or the range error of an invalid date in
    [parseTelegramExport]. *)
Theorem parseFile_unsupported `{JS.Host} (content filename : string) :
  (Router.parseFile content filename = Throw Router.unsupported
   ↔ Router.detectFileType content filename = Router.unknown)
  ∧ (∀ e, Router.parseFile content filename = Throw e →
          match Router.detectFileType content filename with
          | Router.whatsapp => e = WhatsApp.no_messages
          | Router.csv =>
              e = CSV.empty_file ∨ e = CSV.no_messages
              ∨ ∃ header, e = CSV.missing_columns header
          | Router.telegram => e = Telegram.range_error
          | Router.unknown => e = Router.unsupported
          end).
Proof.
  assert (∀ e, Router.parseFile content filename = Throw e →
          match Router.detectFileType content filename with
          | Router.whatsapp => e = WhatsApp.no_messages
          | Router.csv =>
              e = CSV.empty_file ∨ e = CSV.no_messages
              ∨ ∃ header, e = CSV.missing_columns header
          | Router.telegram => e = Telegram.range_error
          | Router.unknown => e = Router.unsupported
          end) as Herr.
  { intros e. unfold Router.parseFile.
    destruct (Router.detectFileType content filename).
    - pose proof (EmptyFacts.parseWhatsApp_throws content) as Hw.
      destruct (WhatsApp.parseWhatsApp content); [done|]. intros [= <-]. by destruct Hw.
    - destruct (CSV.parseCSV content) eqn:E; [done|]. intros [= <-].
      by apply RouterFacts.parseCSV_throws in E.
    - destruct (Telegram.parseTelegramExport content) eqn:E; [done|]. intros [= <-].
      by apply RouterFacts.parseTelegramExport_throws in E.
    - by intros [= <-]. }
  split; [|exact Herr]. split.
  - intros Hu. specialize (Herr _ Hu).
    destruct (Router.detectFileType content filename); [| | |done].
    + discriminate.
    + destruct Herr as [E|[E|[header E]]]; [discriminate..|].
      exfalso. revert E. unfold CSV.missing_columns. simpl. discriminate.
    + discriminate.
  - unfold Router.parseFile. by intros ->.
Qed.

Lemma parseFile_unsupported_witness :
  let host := Examples.host_at 0 in
  Router.detectFileType Examples.media_only "chat.txt" = Router.whatsapp
  ∧ Router.parseFile Examples.media_only "chat.txt" = Throw WhatsApp.no_messages.
Proof.
  intros host. split; [reflexivity|].
  destruct (Router.parseFile Examples.media_only "chat.txt") as [r|e] eqn:E;
    [by vm_compute in E|].
  f_equal. exact (proj2 (parseFile_unsupported Examples.media_only "chat.txt") e E).
Defined.

(** ** The parsers on concrete files *)

Lemma parseWhatsApp_sorted_witness :
  let host := Examples.host_at 0 in
  ∃ r, WhatsApp.parseWhatsApp (JS.join nl Examples.wa_lines) = Ok r
     ∧ Spec.chronological (λ m, Spec.time_of (timestamp m)) (messages r).
Proof.
  intros host.
  destruct (WhatsApp.parseWhatsApp (JS.join nl Examples.wa_lines)) as [r|e] eqn:E;
    [|by vm_compute in E].
  exists r. split; [done|].
  apply (ParserOrder.parseWhatsApp_sorted _ r E).
  vm_compute in E. injection E as <-. repeat constructor; by eexists.
Defined.



(** ** The ZIP import of a Telegram export *)

Module ZipFacts.
Import JS Zip.

Lemma map_results_Ok {A B} (f : A -> result B) (l : list A) (ys : list B) :
  map_results f l = Ok ys → Forall2 (λ x y, f x = Ok y) l ys.
Proof.
  revert ys. induction l as [|x l IH]; intros ys; simpl.
  - intros [= <-]. constructor.
  - destruct (f x) as [y|e] eqn:E; [|done].
    destruct (map_results f l) as [ys'|e]; [|done]. intros [= <-].
    constructor; [done|by apply IH].
Qed.

Lemma map_results_Throw {A B} (f : A -> result B) (l : list A) e :
  map_results f l = Throw e → ∃ x, x ∈ l ∧ f x = Throw e.
Proof.
  induction l as [|x l IH]; simpl; [done|].
  destruct (f x) as [y|e'] eqn:E.
  - destruct (map_results f l) as [ys'|e']; [done|]. intros [= <-].
    destruct IH as (x' & Hin & Hx'); [done|]. exists x'. split; [by apply elem_of_cons; right|done].
  - intros [= <-]. exists x. split; [apply list_elem_of_here|done].
Qed.

Lemma all_messages_somes (results : list (ParsedResult Z)) :
  Spec.all_messages (map Some results) = results ≫= messages.
Proof.
  unfold Spec.all_messages. induction results as [|r results IH]; [done|].
  cbn [map]. by rewrite !bind_cons, IH.
Qed.

End ZipFacts.

(** An archive with a Telegram page is a Telegram export, whatever else
    it holds.  When [handleZipFile] returns, every page was parsed, and the
    result is not empty: it holds the messages of all the pages, in time
    order.  When it throws, a page made [parseTelegramExport] throw that
    error, or every page was parsed, none gave a message, and the error is the
    no-messages error of the import. *)
Theorem zip_telegram_export `{JS.Host} (files : list Zip.Entry) :
  existsb (Zip.is_type Router.telegram) files = true →
  let telegramFiles := List.filter (Zip.is_type Router.telegram) files in
  match Zip.handleZipFile files with
  | Ok p =>
      ∃ results merged,
        Forall2 (λ f r, Telegram.parseTelegramExport (Zip.content f) = Ok r)
                telegramFiles results
        ∧ p = Router.WithIsoStrings merged
        ∧ messages merged ≠ []
        ∧ messages merged ≡ₚ results ≫= messages
        ∧ Spec.chronological timestamp (messages merged)
  | Throw e =>
      (∃ f, f ∈ telegramFiles ∧ Telegram.parseTelegramExport (Zip.content f) = Throw e)
      ∨ (e = Zip.no_telegram_messages
         ∧ ∃ results,
             Forall2 (λ f r, Telegram.parseTelegramExport (Zip.content f) = Ok r)
                     telegramFiles results
             ∧ Forall (λ r, messages r = []) results)
  end.
Proof.
  intros Htg telegramFiles. unfold Zip.handleZipFile.
  destruct files as [|firstFile rest]; [done|]. rewrite Htg. cbv zeta. fold telegramFiles.
  destruct (Zip.map_results _ telegramFiles) as [results|e] eqn:E.
  - apply ZipFacts.map_results_Ok in E.
    pose proof (MergeFacts.merged_messages (map Some results)) as Hperm.
    rewrite ZipFacts.all_messages_somes in Hperm.
    destruct (messages (Telegram.mergeTelegramResults (map Some results))) as [|m l] eqn:Em.
    + right. split; [done|]. exists results. split; [done|].
      apply Permutation_nil_l in Hperm. apply Forall_forall. intros r Hr.
      destruct (messages r) as [|m l] eqn:Er; [done|].
      exfalso. assert (m ∈ results ≫= messages) as Hin.
      { apply list_elem_of_bind. exists r. split; [|done]. rewrite Er. apply list_elem_of_here. }
      rewrite <- Hperm in Hin. by apply not_elem_of_nil in Hin.
    + change (length (m :: l) =? 0)%nat with false. cbn iota.
      exists results, (Telegram.mergeTelegramResults (map Some results)).
      split_and!; try done.
      * by rewrite Em.
      * by rewrite Em.
      * apply ParserOrder.mergeTelegramResults_sorted.
  - left. by apply ZipFacts.map_results_Throw in E.
Qed.

Lemma zip_telegram_export_witness :
  let host := Examples.host_at 1000 in
  ∃ p, Zip.handleZipFile [Zip.mkEntry "messages.html" Examples.history_html;
                          Zip.mkEntry "notes.txt" "hello";
                          Zip.mkEntry "messages2.html" Examples.empty_html] = Ok p.
Proof.
  intros host.
  pose proof (zip_telegram_export
                [Zip.mkEntry "messages.html" Examples.history_html;
                 Zip.mkEntry "notes.txt" "hello";
                 Zip.mkEntry "messages2.html" Examples.empty_html] eq_refl) as Hz.
  destruct (Zip.handleZipFile _) as [p|e] eqn:E; [by exists p|].
  by vm_compute in E.
Defined.

(** ** The type-token ratio *)

Module DiversityFacts.
Import JS ObjectFacts LexicalDiversity.

Lemma ratio (u n : nat) :
  (1 <= u <= n)%nat →
  ∃ q, div (of_nat u) (of_nat n) = Fin q
       ∧ (q == inject_Z (Z.of_nat u) / inject_Z (Z.of_nat n))%Q
       ∧ (0 < q)%Q ∧ (q <= 1)%Q ∧ ((q == 1)%Q ↔ u = n).
Proof.
  intros Hun. unfold div, of_nat, of_Z, Qis_zero, fin. cbn [Qnum inject_Z].
  destruct (Z.eqb_spec (Z.of_nat n) 0) as [E|_]; [lia|].
  eexists. split; [reflexivity|]. rewrite Qred_correct.
  assert (0 < inject_Z (Z.of_nat n))%Q as Hn.
  { change 0%Q with (inject_Z 0). rewrite <- Zlt_Qlt. lia. }
  assert (0 < inject_Z (Z.of_nat u))%Q as Hu.
  { change 0%Q with (inject_Z 0). rewrite <- Zlt_Qlt. lia. }
  split; [reflexivity|]. split_and!.
  - apply Qlt_shift_div_l; [done|]. by rewrite Qmult_0_l.
  - apply Qle_shift_div_r; [done|]. rewrite Qmult_1_l. rewrite <- Zle_Qle. lia.
  - split.
    + intros Heq.
      assert (inject_Z (Z.of_nat u) == inject_Z (Z.of_nat n))%Q as Hun'.
      { set (a := inject_Z (Z.of_nat u)) in *. set (b := inject_Z (Z.of_nat n)) in *.
        assert (a / b * b == a)%Q as H1.
        { apply Qeq_trans with (b * (a / b))%Q; [apply Qmult_comm|].
          apply Qmult_div_r. intros E. rewrite E in Hn. by apply Qlt_irrefl in Hn. }
        assert (a / b * b == 1 * b)%Q as H2 by (apply Qmult_comp; [exact Heq|apply Qeq_refl]).
        apply Qeq_trans with (a / b * b)%Q; [by apply Qeq_sym|].
        apply Qeq_trans with (1 * b)%Q; [exact H2|apply Qmult_1_l]. }
      apply (proj1 (inject_Z_injective _ _)) in Hun'. lia.
    + intros ->. apply Qmult_inv_r. intros E. rewrite E in Hn. by apply Qlt_irrefl in Hn.
Qed.

End DiversityFacts.

(** The type-token ratio of [calculateTTR] is a number from 0 to 1, the
    share of the distinct words among the words of the messages; it is 0
    exactly when the messages hold no word (of two characters or more) and 1
    exactly when they hold a word and no word comes twice. *)
Theorem calculateTTR_bounds (messages : list Message) :
  let words := LexicalDiversity.words_of messages in
  ∃ q, LexicalDiversity.calculateTTR messages = JS.Fin q
       ∧ (0 <= q)%Q ∧ (q <= 1)%Q
       ∧ ((q == 0)%Q ↔ words = [])
       ∧ ((q == 1)%Q ↔ words ≠ [] ∧ NoDup words)
       ∧ (words ≠ [] →
          (q == inject_Z (Z.of_nat (LexicalDiversity.countUniqueWords messages))
                / inject_Z (Z.of_nat (LexicalDiversity.countWords messages)))%Q).
Proof.
  intros words. unfold LexicalDiversity.calculateTTR.
  unfold LexicalDiversity.countUniqueWords, LexicalDiversity.countWords. fold words.
  destruct messages as [|m messages].
  { exists 0%Q. subst words. simpl. split_and!; try done.
    split; [discriminate|]. by intros [? _]. }
  change (length (m :: messages) =? 0)%nat with false. cbv iota zeta. fold words.
  destruct words as [|w ws] eqn:Ew.
  { exists 0%Q. simpl. split_and!; try done.
    split; [discriminate|]. by intros [? _]. }
  change (length (w :: ws) =? 0)%nat with false. cbv iota.
  destruct (DiversityFacts.ratio (length (JS.uniq (w :: ws))) (length (w :: ws)))
    as (q & -> & Hq & Hpos & Hle & Hone).
  { split; [simpl; lia|apply ObjectFacts.uniq_length_le]. }
  exists q. split_and!; try done.
  - by apply Qlt_le_weak.
  - split; [|done]. intros E. rewrite E in Hpos. by apply Qlt_irrefl in Hpos.
  - rewrite Hone, ObjectFacts.uniq_length_NoDup. split; [done|by intros [_ ?]].
Qed.

(** ** The phases of the rhythm *)

(** [analyzePhases] cuts the messages in three: the early and the middle
    phase hold a third of the messages each, rounded down, and the late phase
    the rest, so that every message is in one phase. *)
Theorem phase_counts (messages : list Message) :
  let third := (length messages / 3)%nat in
  map (λ p : string * Rhythm.Phase, (p.1, Rhythm.messageCount p.2))
      (Rhythm.analyzePhases messages)
  = [("early", third); ("middle", third); ("late", (length messages - 2 * third)%nat)]
  ∧ sum_list (map (λ p : string * Rhythm.Phase, Rhythm.messageCount p.2)
                  (Rhythm.analyzePhases messages))
    = length messages.
Proof.
  intros third.
  assert (3 * third <= length messages)%nat as Hthird
    by apply Nat.Div0.mul_div_le.
  assert (∀ a b, length (JS.slice a b messages)
                 = Nat.min (b - a) (length messages - a)) as Hslice.
  { intros a b. unfold JS.slice. by rewrite length_take, length_drop. }
  unfold Rhythm.analyzePhases. fold third.
  cbn [imap map fst snd compose Rhythm.messageCount Nat.eqb sum_list_with].
  rewrite !Hslice. clearbody third.
  replace (((0 + 1) * third - 0 * third) `min` (length messages - 0 * third))%nat
    with third by lia.
  replace (((1 + 1) * third - 1 * third) `min` (length messages - 1 * third))%nat
    with third by lia.
  replace ((length messages - 2 * third) `min` (length messages - 2 * third))%nat
    with (length messages - 2 * third)%nat by lia.
  split; [done|simpl; lia].
Qed.
